(** * Attendance upload pipeline (attendance/views.py, attendance/models.py)

    A shallow embedding of [upload_attendance] and [Attendance.save]:
    column resolution over the normalised header names, the per-column
    parsing cascade, the earliest-check-in aggregation and the
    [update_or_create] loop over the attendance table.

    Python [str] values are modelled by [string]; each character stands for
    one code point below 256.  The pandas calls of the view are collected in
    the interface [Pandas]; the view itself is written against that
    interface, and a concrete instance [pandas_model] is given for the cell
    shapes the examples exercise.

    The parts [Further views and forms] and [The month views] embed the
    other views over the same tables: [link_attendance_to_user], the signup
    form, [display_name], the row bodies of [reports] and [export_csv],
    [clear_attendance], the date helpers, [dashboard] and the loop of
    [defaulter_list]. *)

From Stdlib Require Import String Ascii List ZArith Lia Bool Arith Permutation.
From Stdlib Require Import DecimalString.
Import ListNotations.

Local Open Scope string_scope.
Local Open Scope list_scope.

(** ** Python string operations used by the view *)

Module PyStr.

(** [str.isspace] on one character (code points below 256). *)
Definition isspace (c : ascii) : bool :=
  let n := N_of_ascii c in
  (((9 <=? n) && (n <=? 13)) || ((28 <=? n) && (n <=? 32))
   || (n =? 133) || (n =? 160))%N.

Fixpoint lstrip (s : string) : string :=
  match s with
  | EmptyString => EmptyString
  | String c s' => if isspace c then lstrip s' else s
  end.

Fixpoint rstrip (s : string) : string :=
  match s with
  | EmptyString => EmptyString
  | String c s' =>
      match rstrip s' with
      | EmptyString => if isspace c then EmptyString else String c EmptyString
      | r => String c r
      end
  end.

(** [s.strip()] *)
Definition strip (s : string) : string := rstrip (lstrip s).

Definition lower_char (c : ascii) : ascii :=
  let n := N_of_ascii c in
  if (((65 <=? n) && (n <=? 90))
      || ((192 <=? n) && (n <=? 222) && negb (n =? 215)))%N
  then ascii_of_N (n + 32) else c.

(** [s.lower()] *)
Fixpoint lower (s : string) : string :=
  match s with
  | EmptyString => EmptyString
  | String c s' => String (lower_char c) (lower s')
  end.

(** [needle in hay] *)
Fixpoint contains (needle hay : string) : bool :=
  if String.prefix needle hay then true
  else match hay with
       | EmptyString => false
       | String _ hay' => contains needle hay'
       end.

(** The no-break space U+00A0. *)
Definition nbsp : ascii := ascii_of_N 160.

(** [s.replace(NBSP, SPACE)] *)
Fixpoint replace_nbsp (s : string) : string :=
  match s with
  | EmptyString => EmptyString
  | String c s' =>
      String (if Ascii.eqb c nbsp then " "%char else c) (replace_nbsp s')
  end.

(** [x in xs] for a list of strings. *)
Definition mem (x : string) (xs : list string) : bool :=
  existsb (String.eqb x) xs.

(** [", ".join(xs)] *)
Fixpoint join (sep : string) (xs : list string) : string :=
  match xs with
  | [] => ""
  | [x] => x
  | x :: rest => x ++ sep ++ join sep rest
  end.

End PyStr.

(** ** Column resolution (views.py, "Pick columns") *)

(** [df.columns = [str(c).strip().lower() for c in df.columns]] *)
Definition normalize_columns (raw : list string) : list string :=
  map (fun c => PyStr.lower (PyStr.strip c)) raw.

Definition col_date (columns : list string) : option string :=
  if PyStr.mem "date" columns then Some "date"
  else find (fun c => PyStr.contains "date" c
                      && negb (PyStr.contains "month" c)
                      && negb (PyStr.contains "report" c)) columns.

Definition in_time_candidates : list string :=
  ["in time"; "in_time"; "intime"; "check in time"; "check-in"; "check_in"].

Definition col_time (columns : list string) : option string :=
  match find (fun c => PyStr.mem c columns) in_time_candidates with
  | Some c => Some c
  | None =>
      if PyStr.mem "time" columns then Some "time"
      else find (fun c => PyStr.contains "time" c
                          && negb (PyStr.contains "out" c)
                          && negb (PyStr.contains "logout" c)) columns
  end.

Definition col_email (columns : list string) : option string :=
  find (fun c => PyStr.contains "email" c) columns.

(** [[label for label, col in {"Date": .., "Time": .., "Email": ..}.items()
      if col is None]] *)
Definition missing (columns : list string) : list string :=
  map fst
    (filter (fun lc => match snd lc with None => true | Some _ => false end)
       [("Date", col_date columns); ("Time", col_time columns);
        ("Email", col_email columns)]).

(** ** Dates, times and timestamps *)

Local Open Scope Z_scope.

(** [datetime.date] and [datetime.time]; both compare field by field. *)
Record Date := mkDate { year : Z; month : Z; day : Z }.
Record Time := mkTime { hour : Z; minute : Z; second : Z; microsecond : Z }.

(** A pandas [Timestamp] (datetime64[ns]): nanoseconds since 1970-01-01. *)
Definition Timestamp := Z.

Definition ns_per_day : Z := 86400000000000.

(** The representable range of datetime64[ns]; the least int64 is NaT. *)
Definition ts_min : Z := - 9223372036854775807.
Definition ts_max : Z := 9223372036854775807.

Module Cal.

Definition is_leap (y : Z) : bool :=
  ((y mod 4 =? 0) && negb (y mod 100 =? 0)) || (y mod 400 =? 0).

Definition days_in_month (y m : Z) : Z :=
  if m =? 2 then (if is_leap y then 29 else 28)
  else if (m =? 4) || (m =? 6) || (m =? 9) || (m =? 11) then 30
  else 31.

(** Days from 1970-01-01 to the civil date y-m-d (proleptic Gregorian). *)
Definition days_from_civil (y m d : Z) : Z :=
  let y' := if m <=? 2 then y - 1 else y in
  let era := y' / 400 in
  let yoe := y' - era * 400 in
  let doy := (153 * (if m <=? 2 then m + 9 else m - 3) + 2) / 5 + d - 1 in
  let doe := yoe * 365 + yoe / 4 - yoe / 100 + doy in
  era * 146097 + doe - 719468.

(** The civil date of a day count from 1970-01-01. *)
Definition civil_from_days (n : Z) : Date :=
  let z := n + 719468 in
  let era := z / 146097 in
  let doe := z - era * 146097 in
  let yoe := (doe - doe / 1460 + doe / 36524 - doe / 146096) / 365 in
  let doy := doe - (365 * yoe + yoe / 4 - yoe / 100) in
  let mp := (5 * doy + 2) / 153 in
  let d := doy - (153 * mp + 2) / 5 + 1 in
  let m := if mp <? 10 then mp + 3 else mp - 9 in
  let y := yoe + era * 400 in
  mkDate (if m <=? 2 then y + 1 else y) m d.

End Cal.

(** [ts.date()], as taken by the [.dt.date] accessor. *)
Definition dt_date (ts : Timestamp) : Date :=
  Cal.civil_from_days (ts / ns_per_day).

(** [ts.time()], as taken by the [.dt.time] accessor (nanoseconds dropped). *)
Definition dt_time (ts : Timestamp) : Time :=
  let r := ts mod ns_per_day in
  mkTime (r / 3600000000000) (r / 60000000000 mod 60)
         (r / 1000000000 mod 60) (r / 1000 mod 1000000).

Definition date_eqb (a b : Date) : bool :=
  (year a =? year b) && (month a =? month b) && (day a =? day b).

Definition date_compare (a b : Date) : comparison :=
  match year a ?= year b with
  | Eq => match month a ?= month b with
          | Eq => day a ?= day b
          | c => c
          end
  | c => c
  end.

Definition time_compare (a b : Time) : comparison :=
  match hour a ?= hour b with
  | Eq => match minute a ?= minute b with
          | Eq => match second a ?= second b with
                  | Eq => microsecond a ?= microsecond b
                  | c => c
                  end
          | c => c
          end
  | c => c
  end.

(** [a <= b] on [datetime.time] values. *)
Definition time_leb (a b : Time) : bool :=
  match time_compare a b with Gt => false | _ => true end.

(** ** Cells and tables *)

(** A number as pandas holds it in a float column, written as the decimal
    [mantissa * 10 ^ exponent] that its [repr] shows. *)
Record Num := mkNum { mantissa : Z; exponent : Z }.

(** One cell of the uploaded table. *)
Inductive Cell :=
| CStr (s : string)
| CInt (z : Z)
| CFloat (x : Num)
| CNaN.

(** The table read by [pd.read_csv] / [pd.read_excel]: column labels and
    rows; a row shorter than the header is padded with NaN. *)
Record DataFrame := mkDataFrame {
  columns : list string;
  rows : list (list Cell)
}.

Definition count_label (col : string) (cols : list string) : nat :=
  List.length (filter (String.eqb col) cols).

Fixpoint label_index (col : string) (cols : list string) : nat :=
  match cols with
  | [] => O
  | c :: rest => if String.eqb col c then O else S (label_index col rest)
  end.

(** [df[col]] as a Series; [None] when the label does not denote exactly one
    column ([df[col]] is then a DataFrame, which the calls that follow in the
    view do not accept). *)
Definition getitem (df : DataFrame) (col : string) : option (list Cell) :=
  if Nat.eqb (count_label col (columns df)) 1
  then Some (map (fun r => nth (label_index col (columns df)) r CNaN) (rows df))
  else None.

(** ** Stringification of cells: [Series.astype(str)] *)

Module PyRepr.

(** [str(n)] for a natural number. *)
Definition digits (n : Z) : string :=
  NilZero.string_of_uint (N.to_uint (Z.to_N n)).

(** [str(z)] for an int. *)
Definition int_str (z : Z) : string :=
  if z <? 0 then "-" ++ digits (- z) else digits z.

Fixpoint zeros (n : nat) : string :=
  match n with O => "" | S k => String "0" (zeros k) end.

(** Trailing zeros removed from a digit string, with their count. *)
Fixpoint strip_zeros (ds : string) : string * Z :=
  match ds with
  | EmptyString => (EmptyString, 0)
  | String c rest =>
      match strip_zeros rest with
      | (EmptyString, k) =>
          if Ascii.eqb c "0" then (EmptyString, k + 1)
          else (String c EmptyString, k)
      | (r, k) => (String c r, k)
      end
  end.

Definition slen (s : string) : Z := Z.of_nat (String.length s).

(** [repr(x)] for a float: positional between 1e-4 and 1e16, exponent
    notation outside. *)
Definition float_repr (x : Num) : string :=
  let sign := if mantissa x <? 0 then "-" else "" in
  if mantissa x =? 0 then "0.0"
  else
    let (ds, k) := strip_zeros (digits (Z.abs (mantissa x))) in
    let n := slen ds in
    let decpt := n + exponent x + k in
    if (-4 <? decpt) && (decpt <=? 16) then
      if decpt <=? 0 then
        sign ++ "0." ++ zeros (Z.to_nat (- decpt)) ++ ds
      else if n <=? decpt then
        sign ++ ds ++ zeros (Z.to_nat (decpt - n)) ++ ".0"
      else
        sign ++ substring 0 (Z.to_nat decpt) ds ++ "."
             ++ substring (Z.to_nat decpt) (Z.to_nat (n - decpt)) ds
    else
      let e := decpt - 1 in
      let es := digits (Z.abs e) in
      sign ++ substring 0 1 ds
           ++ (if n =? 1 then "" else "." ++ substring 1 (Z.to_nat (n - 1)) ds)
           ++ "e" ++ (if e <? 0 then "-" else "+")
           ++ (if slen es <? 2 then "0" ++ es else es).

End PyRepr.

(** [str(c)] for one cell, as [astype(str)] applies it. *)
Definition cell_str (c : Cell) : string :=
  match c with
  | CStr s => s
  | CInt z => PyRepr.int_str z
  | CFloat x => PyRepr.float_repr x
  | CNaN => "nan"
  end.

(** ** The pandas calls of the view *)

Class Pandas := {
  (** [pd.to_datetime(column, errors="coerce", dayfirst=dayfirst)] (with or
      without [infer_datetime_format=True]), read at one cell of the column:
      the value depends on the whole column (pandas 2 infers one format from
      the first cell that is not null and reads every cell with it), NaT is
      [None]. *)
  to_datetime : bool -> list Cell -> Cell -> option Timestamp;
  (** [pd.to_datetime(s, format=fmt, errors="coerce")] at one string. *)
  to_datetime_format : string -> string -> option Timestamp;
  (** [pd.to_numeric(s, errors="coerce")] at one string. *)
  to_numeric : string -> option Num;
  (** [pd.to_numeric(s, errors="coerce")] has an integer dtype (int64 or
      uint64): every text of [s] is a whole number. *)
  to_numeric_integer : list string -> bool;
  (** [pd.to_datetime(x, unit="d", origin=origin, errors="coerce")] at one
      number of a Series of dtype float64. *)
  to_datetime_days : string -> Num -> option Timestamp
}.

(** ** Series helpers *)

Definition is_none {A} (o : option A) : bool :=
  match o with None => true | Some _ => false end.

Definition is_some {A} (o : option A) : bool := negb (is_none o).

(** [s.isna()] *)
Definition isna {A} (s : list (option A)) : list bool := map is_none s.

(** [mask.any()] *)
Definition any (mask : list bool) : bool := existsb (fun b => b) mask.

(** [s[mask]] *)
Fixpoint select {A} (mask : list bool) (s : list A) : list A :=
  match mask, s with
  | true :: mask', x :: s' => x :: select mask' s'
  | false :: mask', _ :: s' => select mask' s'
  | _, _ => []
  end.

(** [s.loc[mask] = vals], where [vals] is indexed like [s[mask]]. *)
Fixpoint loc_assign {A} (mask : list bool) (s vals : list A) : list A :=
  match mask, s with
  | true :: mask', x :: s' =>
      match vals with
      | v :: vals' => v :: loc_assign mask' s' vals'
      | [] => x :: loc_assign mask' s' []
      end
  | false :: mask', x :: s' => x :: loc_assign mask' s' vals
  | _, _ => s
  end.

(** [a & b] on boolean Series. *)
Fixpoint mask_and (a b : list bool) : list bool :=
  match a, b with
  | x :: a', y :: b' => (x && y) :: mask_and a' b'
  | _, _ => []
  end.

(** ** Field parsing (views.py, "Parse DATE", "Parse EMAIL", "Parse TIME") *)

(** The text the time cascade works on:
    [s.astype(str).str.replace(NBSP, SPACE, regex=False).str.strip()]. *)
Definition time_text (c : Cell) : string :=
  PyStr.strip (PyStr.replace_nbsp (cell_str c)).

Section Parsing.

Context `{Pandas}.

(** [pd.to_datetime(df[col_date], errors="coerce", dayfirst=True).dt.date] *)
Definition parse_date (col : list Cell) : list (option Date) :=
  map (fun c => option_map dt_date (to_datetime true col c)) col.

(** [df[col_email].astype(str).str.strip().str.lower()]: every cell becomes
    a string, so no entry of the result is missing. *)
Definition parse_email (col : list Cell) : list (option string) :=
  map (fun c => Some (PyStr.lower (PyStr.strip (cell_str c)))) col.

(** [time_dt.loc[mask_na] = pd.to_datetime(s_str[mask_na], format=fmt,
    errors="coerce")] *)
Definition fill_format (fmt : string) (s_str : list string)
    (mask_na : list bool) (time_dt : list (option Timestamp))
  : list (option Timestamp) :=
  loc_assign mask_na time_dt (map (to_datetime_format fmt) (select mask_na s_str)).

(** The Excel-serial step: cells still missing whose text is numeric are
    read as days from 1899-12-30.  [None] is the TypeError that
    [pd.to_datetime(..., unit="d")] raises when the numeric Series has an
    integer dtype (pandas 2 casts it to "datetime64[d]", which names no unit
    of numpy); the view does not catch it. *)
Definition fill_serial (s_str : list string) (mask_na : list bool)
    (time_dt : list (option Timestamp)) : option (list (option Timestamp)) :=
  let s_num := map to_numeric s_str in
  let serial_mask := mask_and mask_na (map is_some s_num) in
  if any serial_mask then
    if to_numeric_integer s_str then None
    else
      let excel_dt :=
        map (fun x => match x with
                      | Some n => to_datetime_days "1899-12-30" n
                      | None => None
                      end)
            (select serial_mask s_num) in
      Some (loc_assign serial_mask time_dt excel_dt)
  else Some time_dt.

(** The time column before [.dt.time] is taken (the variable [time_dt]);
    [None] when the serial step raises. *)
Definition parse_time_dt (s : list Cell) : option (list (option Timestamp)) :=
  let s_str := map time_text s in
  let time_dt := map (fun x => to_datetime true (map CStr s_str) (CStr x)) s_str in
  let mask_na := isna time_dt in
  let time_dt :=
    if any mask_na
    then fill_format "%d/%m/%Y %H:%M:%S" s_str mask_na time_dt else time_dt in
  let mask_na := isna time_dt in
  let time_dt :=
    if any mask_na
    then fill_format "%m/%d/%Y %H:%M:%S" s_str mask_na time_dt else time_dt in
  let mask_na := isna time_dt in
  let time_dt :=
    if any mask_na
    then
      let time_dt := fill_format "%H:%M:%S" s_str mask_na time_dt in
      let mask_na := isna time_dt in
      fill_format "%H:%M" s_str mask_na time_dt
    else time_dt in
  let mask_na := isna time_dt in
  if any mask_na then fill_serial s_str mask_na time_dt else Some time_dt.

(** [df["__time"] = time_dt.dt.time] *)
Definition parse_time (s : list Cell) : option (list (option Time)) :=
  option_map (map (option_map dt_time)) (parse_time_dt s).

End Parsing.

(** ** Working rows, diagnostics and aggregation *)

(** The three columns the view adds to [df], read row by row. *)
Record WorkRow := mkWorkRow {
  w_date : option Date;      (* df["__date"] *)
  w_email : option string;   (* df["__email"] *)
  w_time : option Time       (* df["__time"] *)
}.

Fixpoint zip_rows (ds : list (option Date)) (es : list (option string))
    (ts : list (option Time)) : list WorkRow :=
  match ds, es, ts with
  | d :: ds', e :: es', t :: ts' => mkWorkRow d e t :: zip_rows ds' es' ts'
  | _, _, _ => []
  end.

(** A row of [df_clean]: date, email and time are all present. *)
Record CleanRow := mkCleanRow {
  c_email : string;
  c_date : Date;
  c_time : Time
}.

Definition Key : Type := string * Date.

Definition key_eqb (a b : Key) : bool :=
  String.eqb (fst a) (fst b) && date_eqb (snd a) (snd b).

Definition key_of (r : CleanRow) : Key := (c_email r, c_date r).

(** Keys compare by email, then by date. *)
Definition key_leb (a b : Key) : bool :=
  match String.compare (fst a) (fst b) with
  | Lt => true
  | Gt => false
  | Eq => match date_compare (snd a) (snd b) with Gt => false | _ => true end
  end.

Definition row_leb (a b : CleanRow) : bool :=
  if key_eqb (key_of a) (key_of b) then time_leb (c_time a) (c_time b)
  else key_leb (key_of a) (key_of b).

Section Sorting.

Context {T : Type} (leb : T -> T -> bool).

Fixpoint insert_sorted (x : T) (l : list T) : list T :=
  match l with
  | [] => [x]
  | y :: l' => if leb x y then x :: l else y :: insert_sorted x l'
  end.

(** A stable ascending sort. *)
Definition sort_by (l : list T) : list T :=
  fold_right insert_sorted [] l.

End Sorting.

(** [.drop_duplicates()] on (email, date) pairs: first occurrences stay. *)
Fixpoint drop_duplicates (keys : list Key) : list Key :=
  match keys with
  | [] => []
  | k :: rest => k :: filter (fun k' => negb (key_eqb k k')) (drop_duplicates rest)
  end.

(** [df.dropna(subset=["__date", "__email"]).loc[:, ["__email", "__date"]]] *)
Definition pairs_any_time (df : list WorkRow) : list Key :=
  flat_map (fun r => match w_date r, w_email r with
                     | Some d, Some e => [(e, d)]
                     | _, _ => []
                     end) df.

(** [df.dropna(subset=["__date", "__time", "__email"])] *)
Definition dropna_all (df : list WorkRow) : list CleanRow :=
  flat_map (fun r => match w_date r, w_time r, w_email r with
                     | Some d, Some t, Some e => [mkCleanRow e d t]
                     | _, _, _ => []
                     end) df.

(** [.sort_values(["__email", "__date", "__time"])] *)
Definition sort_values (df_clean : list CleanRow) : list CleanRow :=
  sort_by row_leb df_clean.

Definition min_time (t : Time) (ts : list Time) : Time :=
  fold_left (fun m x => if time_leb m x then m else x) ts t.

(** The times of the rows of one group. *)
Definition group_times (k : Key) (df : list CleanRow) : list Time :=
  map c_time (filter (fun r => key_eqb (key_of r) k) df).

(** [.groupby(["__email", "__date"], as_index=False).agg({"__time": "min"})]:
    one row per distinct key, keys ascending, with the least time of the
    group. *)
Definition groupby_min (df : list CleanRow) : list CleanRow :=
  flat_map (fun k => match group_times k df with
                     | [] => []
                     | t :: ts => [mkCleanRow (fst k) (snd k) (min_time t ts)]
                     end)
           (sort_by key_leb (drop_duplicates (map key_of df))).

Definition earliest (df_clean : list CleanRow) : list CleanRow :=
  groupby_min (sort_values df_clean).

(** ** The models (attendance/models.py) *)

(** A row of the auth user table: primary key and email. *)
Record User := mkUser { user_id : Z; user_email : string }.

(** STATUS_CHOICES: 'P' and 'A'. *)
Inductive Status := Present | Absent.

Record Attendance := mkAttendance {
  employee : option User;
  employee_email : option string;
  date : Date;
  check_in_time : option Time;
  status : Status
}.

(** Truth value of an optional string ([None] and [""] are false). *)
Definition truthy (s : option string) : bool :=
  match s with
  | None => false
  | Some s' => negb (String.eqb s' "")
  end.

(** [Attendance.save]: the fields as they are written to the table.  A
    [datetime.time] is always true, so only a missing check-in is false. *)
Definition Attendance_save (self : Attendance) : Attendance :=
  let status' := if is_some (check_in_time self) then Present else Absent in
  let email' :=
    match employee self with
    | Some u =>
        if negb (truthy (employee_email self)) && truthy (Some (user_email u))
        then Some (PyStr.lower (PyStr.strip (user_email u)))
        else employee_email self
    | None => employee_email self
    end in
  mkAttendance (employee self) email' (date self) (check_in_time self) status'.

(** The attendance table, in insertion order. *)
Definition Store := list Attendance.

(** The lookup [employee_email=eml, date=d]. *)
Definition matches (eml : string) (d : Date) (r : Attendance) : bool :=
  match employee_email r with
  | Some e => String.eqb e eml && date_eqb (date r) d
  | None => false
  end.

(** The [defaults] of [update_or_create]. *)
Record Defaults := mkDefaults {
  d_check_in_time : option Time;
  d_status : Status;
  d_employee : option User
}.

Inductive Upsert :=
| Upserted (st : Store) (obj : Attendance) (was_created : bool)
| MultipleObjectsReturned.

(** [Attendance.objects.update_or_create(employee_email=eml, date=d,
    defaults=dflt)]: no match creates and saves a new row, one match sets
    the defaults on it and saves it in place, several matches raise.  The
    row is written as [save] leaves it (the fields named in the defaults are
    always among the written ones). *)
Definition update_or_create (st : Store) (eml : string) (d : Date)
    (dflt : Defaults) : Upsert :=
  let apply r :=
    Attendance_save
      (mkAttendance (d_employee dflt) (employee_email r) (date r)
                    (d_check_in_time dflt) (d_status dflt)) in
  match filter (matches eml d) st with
  | [] =>
      let obj := Attendance_save
                   (mkAttendance (d_employee dflt) (Some eml) d
                                 (d_check_in_time dflt) (d_status dflt)) in
      Upserted (st ++ [obj]) obj true
  | [old] =>
      Upserted (map (fun r => if matches eml d r then apply r else r) st)
               (apply old) false
  | _ => MultipleObjectsReturned
  end.

(** The comparison behind Django's [iexact] and [icontains] lookups: LIKE
    on SQLite, the database of a Django project whose settings name no
    other.  The letters A to Z match their lower-case forms; every other
    character matches only itself. *)
Module Sqlite.

Definition lower_char (c : ascii) : ascii :=
  let n := N_of_ascii c in
  if ((65 <=? n) && (n <=? 90))%N then ascii_of_N (n + 32) else c.

(** Two texts are alike when their foldings are equal. *)
Fixpoint nocase (s : string) : string :=
  match s with
  | EmptyString => EmptyString
  | String c s' => String (lower_char c) (nocase s')
  end.

End Sqlite.

(** [email__iexact=eml] *)
Definition iexact (eml : string) (u : User) : bool :=
  String.eqb (Sqlite.nocase (user_email u)) (Sqlite.nocase eml).

(** [.first()] of an unordered queryset: the row with the least primary key. *)
Definition first_by_pk (us : list User) : option User :=
  fold_left (fun acc u => match acc with
                          | Some a => if user_id u <? user_id a then Some u else acc
                          | None => Some u
                          end) us None.

(** [User.objects.filter(email__iexact=eml).first()] *)
Definition find_user (users : list User) (eml : string) : option User :=
  first_by_pk (filter (iexact eml) users).

(** ** The view (views.py, [upload_attendance], POST with a readable file) *)

Record Diagnostics := mkDiagnostics {
  total_rows : nat;
  total_pairs_any_time : nat;
  null_time_rows : nat;
  processed_pairs : nat;
  created : nat;
  updated : nat
}.

Inductive Outcome :=
| MissingColumns (labels : list string)   (* "Missing required columns: ..." *)
| DateColumnError                         (* "Could not parse Date column: ..." *)
| Unhandled                               (* an exception leaves the view *)
| Uploaded (used : string * string * string) (diag : Diagnostics).

(** The upsert loop over the rows of [earliest]; [None] when
    [update_or_create] raised, with the table as the rows before left it. *)
Fixpoint upsert_rows (users : list User) (st : Store) (rows : list CleanRow)
    (created updated : nat) : option (nat * nat) * Store :=
  match rows with
  | [] => (Some (created, updated), st)
  | row :: rest =>
      let eml := PyStr.lower (c_email row) in
      let d := c_date row in
      let t := c_time row in
      let u := find_user users eml in
      match update_or_create st eml d (mkDefaults (Some t) Present u) with
      | Upserted st' _ was_created =>
          if was_created
          then upsert_rows users st' rest (S created) updated
          else upsert_rows users st' rest created (S updated)
      | MultipleObjectsReturned => (None, st)
      end
  end.

Section View.

Context `{Pandas}.

(** The view before the upsert loop: either it has returned already, or
    the columns it used and the three working columns are known. *)
Inductive Prepared :=
| Returned (o : Outcome)
| Ready (used : string * string * string) (work : list WorkRow).

Definition prepare (df0 : DataFrame) : Prepared :=
  let df := mkDataFrame (normalize_columns (columns df0)) (rows df0) in
  let col_date := col_date (columns df) in
  let col_time := col_time (columns df) in
  let col_email := col_email (columns df) in
  match missing (columns df) with
  | (_ :: _) as labels => Returned (MissingColumns labels)
  | [] =>
      match col_date, col_time, col_email with
      | Some cd, Some ct, Some ce =>
          match getitem df cd with
          | None => Returned DateColumnError
          | Some date_cells =>
              let x__date := parse_date date_cells in
              match getitem df ce, getitem df ct with
              | Some email_cells, Some time_cells =>
                  let x__email := parse_email email_cells in
                  match parse_time time_cells with
                  | Some x__time =>
                      Ready (cd, ct, ce) (zip_rows x__date x__email x__time)
                  | None => Returned Unhandled
                  end
              | _, _ => Returned Unhandled
              end
          end
      | _, _, _ => Returned Unhandled
      end
  end.

(** The frame [earliest] of a table: the rows the upsert loop goes through. *)
Definition processed (df0 : DataFrame) : list CleanRow :=
  match prepare df0 with
  | Returned _ => []
  | Ready _ work => earliest (dropna_all work)
  end.

Definition upload_attendance (users : list User) (st : Store)
    (df0 : DataFrame) : Outcome * Store :=
  match prepare df0 with
  | Returned o => (o, st)
  | Ready used work =>
      let total_rows := List.length (rows df0) in
      let total_pairs_any_time :=
        List.length (drop_duplicates (pairs_any_time work)) in
      let null_time_rows :=
        List.length (filter (fun r => is_none (w_time r)) work) in
      let df_clean := dropna_all work in
      let earliest := earliest df_clean in
      let processed_pairs := List.length earliest in
      match upsert_rows users st earliest 0 0 with
      | (Some (created, updated), st') =>
          (Uploaded used
             (mkDiagnostics total_rows total_pairs_any_time
                null_time_rows processed_pairs created updated), st')
      | (None, st') => (Unhandled, st')
      end
  end.

End View.

(** The value of the first strategy that yields one. *)
Fixpoint first_success {X Y} (fs : list (X -> option Y)) (x : X) : option Y :=
  match fs with
  | [] => None
  | f :: fs' => match f x with Some y => Some y | None => first_success fs' x end
  end.

Section Strategies.

Context `{Pandas}.

(** The strategies of the time cascade that read one text of the column
    [s_str] as text, in the order the view tries them. *)
Definition text_strategies (s_str : list string)
  : list (string -> option Timestamp) :=
  [ (fun x => to_datetime true (map CStr s_str) (CStr x));
    to_datetime_format "%d/%m/%Y %H:%M:%S";
    to_datetime_format "%m/%d/%Y %H:%M:%S";
    to_datetime_format "%H:%M:%S";
    to_datetime_format "%H:%M" ].

(** The last strategy: numeric text as days from 1899-12-30. *)
Definition serial_strategy (x : string) : option Timestamp :=
  match to_numeric x with
  | Some n => to_datetime_days "1899-12-30" n
  | None => None
  end.

Definition time_strategies (s_str : list string)
  : list (string -> option Timestamp) :=
  text_strategies s_str ++ [serial_strategy].

(** The serial step is reached with a number to convert, and the numbers of
    the column have an integer dtype: the conversion raises TypeError. *)
Definition serial_raises (s_str : list string) : bool :=
  any (map (fun x => is_none (first_success (text_strategies s_str) x)
                     && is_some (to_numeric x)) s_str)
  && to_numeric_integer s_str.

End Strategies.

(** ** A model of the pandas calls (pandas 2)

    [to_datetime_format] follows the regular expressions that [strptime]
    builds for the directives %d %m %Y %H %M %S; [to_numeric] reads decimal
    literals; [to_datetime_days] counts days from the origin in exact decimal
    arithmetic, which is what pandas computes where its float64 arithmetic is
    exact (whole, half and quarter days, for instance), and differs from it
    in the last digits elsewhere.

    The generic [to_datetime] infers one format for the column from its
    first cell that is not null ([guess_datetime_format], with dateutil's
    reading of that cell) and reads every cell with that format; where no
    format is inferred, every cell is read on its own.  The inference is
    modelled for a first cell that is a date a/b/year or year/b/c, written
    with one of the separators / - . (one or two digits for a, b and c, four
    for the year), alone or followed by a blank or a T and a time h:m or
    h:m:s; from any other first cell the model infers no format.  A cell
    read on its own is modelled for year-month-day with two-digit fields,
    for a/b/year with one of the separators, each alone or followed by a
    time, and for a time alone.  The model takes other text as unparseable,
    so it says nothing of month names, two-digit years, AM and PM,
    fractions of a second or time zones.  A time without a date is put on
    1900-01-01 (pandas puts it on the current day; the view keeps the time
    of day only). *)

Module Strptime.

Inductive Token := Dd | Dm | DY | DH | DM | DS | Space | Lit (c : ascii) | Bad.

Fixpoint tokens (fmt : string) : list Token :=
  match fmt with
  | EmptyString => []
  | String "%" (String c rest) =>
      (if Ascii.eqb c "d" then Dd else if Ascii.eqb c "m" then Dm
       else if Ascii.eqb c "Y" then DY else if Ascii.eqb c "H" then DH
       else if Ascii.eqb c "M" then DM else if Ascii.eqb c "S" then DS
       else Bad) :: tokens rest
  | String c rest => (if PyStr.isspace c then Space else Lit c) :: tokens rest
  end.

Record Fields := mkFields {
  f_year : Z; f_month : Z; f_day : Z; f_hour : Z; f_minute : Z; f_second : Z
}.

(** [strptime] starts from 1900-01-01 00:00:00. *)
Definition default_fields : Fields := mkFields 1900 1 1 0 0 0.

Definition digit (c : ascii) : option Z :=
  let n := N_of_ascii c in
  if ((48 <=? n) && (n <=? 57))%N then Some (Z.of_N n - 48) else None.

(** A field of exactly two digits whose value lies in [lo, hi]. *)
Definition two_digits (lo hi : Z) (s : string) : list (Z * string) :=
  match s with
  | String a (String b rest) =>
      match digit a, digit b with
      | Some x, Some y =>
          let v := 10 * x + y in
          if (lo <=? v) && (v <=? hi) then [(v, rest)] else []
      | _, _ => []
      end
  | _ => []
  end.

(** A field of one digit whose value is at least [lo]. *)
Definition one_digit (lo : Z) (s : string) : list (Z * string) :=
  match s with
  | String a rest =>
      match digit a with
      | Some x => if lo <=? x then [(x, rest)] else []
      | None => []
      end
  | _ => []
  end.

Definition four_digits (s : string) : list (Z * string) :=
  match s with
  | String a (String b (String c (String d rest))) =>
      match digit a, digit b, digit c, digit d with
      | Some w, Some x, Some y, Some z =>
          [(1000 * w + 100 * x + 10 * y + z, rest)]
      | _, _, _, _ => []
      end
  | _ => []
  end.

(** The suffixes left after one or more white-space characters, longest
    run first. *)
Fixpoint spaces (s : string) : list string :=
  match s with
  | String c rest => if PyStr.isspace c then spaces rest ++ [rest] else []
  | EmptyString => []
  end.

(** The ways one token can match a prefix of [s], in the order the regular
    expression tries them. *)
Definition candidates (t : Token) (s : string) (f : Fields)
  : list (Fields * string) :=
  let set (upd : Z -> Fields) := map (fun vr => (upd (fst vr), snd vr)) in
  match t with
  | Dd =>
      set (fun v => mkFields (f_year f) (f_month f) v (f_hour f) (f_minute f) (f_second f))
          (two_digits 1 31 s ++ one_digit 1 s
           ++ match s with
              | String " " rest => one_digit 1 rest
              | _ => []
              end)
  | Dm =>
      set (fun v => mkFields (f_year f) v (f_day f) (f_hour f) (f_minute f) (f_second f))
          (two_digits 1 12 s ++ one_digit 1 s)
  | DY =>
      set (fun v => mkFields v (f_month f) (f_day f) (f_hour f) (f_minute f) (f_second f))
          (four_digits s)
  | DH =>
      set (fun v => mkFields (f_year f) (f_month f) (f_day f) v (f_minute f) (f_second f))
          (two_digits 0 23 s ++ one_digit 0 s)
  | DM =>
      set (fun v => mkFields (f_year f) (f_month f) (f_day f) (f_hour f) v (f_second f))
          (two_digits 0 59 s ++ one_digit 0 s)
  | DS =>
      set (fun v => mkFields (f_year f) (f_month f) (f_day f) (f_hour f) (f_minute f) v)
          (two_digits 0 61 s ++ one_digit 0 s)
  | Space => map (fun r => (f, r)) (spaces s)
  | Lit c =>
      match s with
      | String c' rest =>
          if Ascii.eqb (PyStr.lower_char c) (PyStr.lower_char c')
          then [(f, rest)] else []
      | EmptyString => []
      end
  | Bad => []
  end.

Fixpoint first_some {X Y} (g : X -> option Y) (l : list X) : option Y :=
  match l with
  | [] => None
  | x :: l' => match g x with Some y => Some y | None => first_some g l' end
  end.

(** The first match of the token sequence against a prefix of [s]. *)
Fixpoint match_tokens (ts : list Token) (s : string) (f : Fields)
  : option (Fields * string) :=
  match ts with
  | [] => Some (f, s)
  | t :: ts' =>
      first_some (fun fr => match_tokens ts' (snd fr) (fst fr)) (candidates t s f)
  end.

(** The timestamp of the matched fields; the date must exist, the result
    must be representable. *)
Definition to_timestamp (f : Fields) : option Timestamp :=
  if (1 <=? f_year f) && (f_year f <=? 9999)
     && (1 <=? f_month f) && (f_month f <=? 12)
     && (1 <=? f_day f) && (f_day f <=? Cal.days_in_month (f_year f) (f_month f))
  then
    let ns := Cal.days_from_civil (f_year f) (f_month f) (f_day f) * ns_per_day
              + (f_hour f * 3600 + f_minute f * 60 + f_second f) * 1000000000 in
    if (ts_min <=? ns) && (ns <=? ts_max) then Some ns else None
  else None.

(** The whole string must be matched by the first match. *)
Definition strptime (fmt s : string) : option Timestamp :=
  match match_tokens (tokens fmt) s default_fields with
  | Some (f, EmptyString) => to_timestamp f
  | _ => None
  end.

End Strptime.

Module PandasModel.

Import Strptime.

(** Leading decimal digits of [s]: their value, their number and the rest. *)
Fixpoint read_digits (s : string) (acc count : Z) : Z * Z * string :=
  match s with
  | String c rest =>
      match digit c with
      | Some v => read_digits rest (10 * acc + v) (count + 1)
      | None => (acc, count, s)
      end
  | EmptyString => (acc, count, s)
  end.

Definition read_sign (s : string) : Z * string :=
  match s with
  | String "-" rest => (-1, rest)
  | String "+" rest => (1, rest)
  | _ => (1, s)
  end.

(** A decimal literal: sign, digits with an optional fraction, optional
    exponent; nothing may follow. *)
Definition parse_number (s : string) : option Num :=
  let (sg, s1) := read_sign s in
  let '(ip, ni, s2) := read_digits s1 0 0 in
  let '(fp, nf, s3) :=
    match s2 with
    | String "." rest => read_digits rest 0 0
    | _ => (0, 0, s2)
    end in
  if ni + nf =? 0 then None
  else
    let m := sg * (ip * 10 ^ nf + fp) in
    match s3 with
    | EmptyString => Some (mkNum m (- nf))
    | String c rest =>
        if Ascii.eqb c "e" || Ascii.eqb c "E" then
          let (esg, s4) := read_sign rest in
          match read_digits s4 0 0 with
          | (ev, ne, EmptyString) =>
              if ne =? 0 then None else Some (mkNum m (esg * ev - nf))
          | _ => None
          end
        else None
    end.

Definition in_bounds (ns : Z) : option Timestamp :=
  if (ts_min <=? ns) && (ns <=? ts_max) then Some ns else None.

(** [x] units of [unit_ns] nanoseconds after [offset] units, truncated
    towards zero. *)
Definition scaled_ns (unit_ns offset : Z) (x : Num) : Z :=
  if 0 <=? exponent x
  then (mantissa x * 10 ^ exponent x + offset) * unit_ns
  else Z.quot ((mantissa x + offset * 10 ^ (- exponent x)) * unit_ns)
              (10 ^ (- exponent x)).

(** Days counted from [origin], a year-month-day text. *)
Definition days_from_origin (origin : string) (x : Num) : option Timestamp :=
  match strptime "%Y-%m-%d" origin with
  | Some o => in_bounds (scaled_ns ns_per_day (o / ns_per_day) x)
  | None => None
  end.

Definition time_tokens (sep : list Token) : list (list Token) :=
  [ sep ++ [DH; Lit ":"; DM; Lit ":"; DS];
    sep ++ [DH; Lit ":"; DM] ].

(** Year-month-day text with two-digit fields, alone or followed by a
    blank or a T and a two-digit time. *)
Definition iso_tokens (s : string) : list (list Token) :=
  let ymd := [DY; Lit "-"; Dm; Lit "-"; Dd] in
  let n := String.length s in
  if Nat.eqb n 10 then [ymd]
  else if Nat.eqb n 16 || Nat.eqb n 19
  then map (app ymd) (time_tokens [Lit " "] ++ time_tokens [Lit "T"])
  else [].

(** The separators of a date written with numbers. *)
Definition date_seps : list ascii := ["/"; "-"; "."]%char.

(** a/b/year, a-b-year and a.b.year: with [dayfirst] the first number is the
    day unless only the other reading is a date. *)
Definition dmy_tokens (dayfirst : bool) : list (list Token) :=
  let with_sep (c : ascii) (a b : Token) :=
    let date := [a; Lit c; b; Lit c; DY] in
    map (app date) (time_tokens [Space]) ++ [date] in
  let order (c : ascii) :=
    if dayfirst then with_sep c Dd Dm ++ with_sep c Dm Dd
    else with_sep c Dm Dd ++ with_sep c Dd Dm in
  flat_map order date_seps.

Definition parse_tokens (ts : list Token) (s : string) : option Timestamp :=
  match match_tokens ts s default_fields with
  | Some (f, EmptyString) => to_timestamp f
  | _ => None
  end.

(** The generic parse of one text on its own: ISO text as it stands, then
    a/b/year with dateutil's preference, then a time alone. *)
Definition parse_text (dayfirst : bool) (s : string) : option Timestamp :=
  first_some (fun ts => parse_tokens ts s)
    (iso_tokens s ++ dmy_tokens dayfirst ++ time_tokens []).

(** The generic parse of one cell on its own ([array_to_datetime]): numbers
    count nanoseconds from 1970-01-01, NaN is NaT. *)
Definition parse_one (dayfirst : bool) (c : Cell) : option Timestamp :=
  match c with
  | CStr s => parse_text dayfirst s
  | CInt z => in_bounds z
  | CFloat x => in_bounds (scaled_ns 1 0 x)
  | CNaN => None
  end.

(** The strings that stand for NaT. *)
Definition nat_strings : list string :=
  ["NaT"; "nat"; "NAT"; "nan"; "NaN"; "NAN"].

Definition null_text (s : string) : bool :=
  String.eqb s "" || PyStr.mem s nat_strings.

(** [tslib.first_non_null]: the first cell that is neither missing nor an
    empty text, a NaT string, "now" or "today". *)
Definition is_null (c : Cell) : bool :=
  match c with
  | CNaN => true
  | CStr s => null_text s || PyStr.mem s ["now"; "today"]
  | _ => false
  end.

Definition first_non_null (column : list Cell) : option Cell :=
  find (fun c => negb (is_null c)) column.

(** The tokens of dateutil's lexer on text made of digits and separators:
    runs of digits, and single other characters. *)
Inductive Lexeme := Digits (ds : string) | Other (c : ascii).

Fixpoint lex (s : string) : list Lexeme :=
  match s with
  | EmptyString => []
  | String c rest =>
      match digit c with
      | Some _ =>
          match lex rest with
          | Digits ds :: ls => Digits (String c ds) :: ls
          | ls => Digits (String c EmptyString) :: ls
          end
      | None => Other c :: lex rest
      end
  end.

Definition value (ds : string) : Z := fst (fst (read_digits ds 0 0)).

(** A run of one or two digits; a run of four. *)
Definition short (ds : string) : bool := (String.length ds <=? 2)%nat.
Definition long (ds : string) : bool := (String.length ds =? 4)%nat.

(** The directives of three numbers joined by [sep], as dateutil reads them
    and [guess_datetime_format] names them, with the text of the year.  a/b/year
    is day first when a is above 12, or when [dayfirst] is set and b is at most
    12, and month first otherwise; year-b-c is year, day, month when
    [dayfirst] is set and c is at most 12, and year, month, day otherwise. *)
Definition date_directives (dayfirst : bool) (sep : ascii) (a b c : string)
  : option (list Token * string) :=
  if short a && short b && long c then
    if (12 <? value a) || (dayfirst && (value b <=? 12))
    then Some ([Dd; Lit sep; Dm; Lit sep; DY], c)
    else Some ([Dm; Lit sep; Dd; Lit sep; DY], c)
  else if long a && short b && short c then
    if dayfirst && (value c <=? 12)
    then Some ([DY; Lit sep; Dd; Lit sep; Dm], a)
    else Some ([DY; Lit sep; Dm; Lit sep; Dd], a)
  else None.

(** The directives of what follows the date: nothing, or a blank or a T and
    a time; with them the text that %H%M prints, if there is a time, and the
    seconds. *)
Definition time_directives (rest : list Lexeme)
  : option (list Token * option string * Z) :=
  let sep (c : ascii) : option Token :=
    if Ascii.eqb c " " then Some Space
    else if Ascii.eqb c "T" then Some (Lit c) else None in
  let pad (ds : string) : string :=
    if (String.length ds =? 1)%nat then String "0" ds else ds in
  match rest with
  | [] => Some ([], None, 0)
  | [Other c; Digits h; Other ":"%char; Digits mi] =>
      match sep c with
      | Some t =>
          if short h && short mi
          then Some ([t; DH; Lit ":"; DM], Some (pad h ++ pad mi)%string, 0)
          else None
      | None => None
      end
  | [Other c; Digits h; Other ":"%char; Digits mi; Other ":"%char; Digits sec] =>
      match sep c with
      | Some t =>
          if short h && short mi && short sec
          then Some ([t; DH; Lit ":"; DM; Lit ":"; DS],
                     Some (pad h ++ pad mi)%string, value sec)
          else None
      | None => None
      end
  | _ => None
  end.

(** [guess_datetime_format(s, dayfirst)]: the directives are named token by
    token from dateutil's reading of [s].  %H%M is looked for before %Y, so
    a year that reads like the time (2024 at 20:24) leaves no year and no
    format; the format must read [s] back to a timestamp. *)
Definition guess_format (dayfirst : bool) (s : string) : option (list Token) :=
  match lex s with
  | Digits a :: Other s1 :: Digits b :: Other s2 :: Digits c :: rest =>
      if Ascii.eqb s1 s2 && existsb (Ascii.eqb s1) date_seps then
        match date_directives dayfirst s1 a b c, time_directives rest with
        | Some (date, year_text), Some (time, hm, sec) =>
            let clash :=
              match hm with
              | Some t => String.eqb t year_text
              | None => false
              end in
            if clash || (59 <? sec) then None
            else match parse_tokens (date ++ time) s with
                 | Some _ => Some (date ++ time)
                 | None => None
                 end
        | _, _ => None
        end
      else None
  | _ => None
  end.

(** One cell read with the format of the column ([array_strptime]): the
    whole text must match; a number is matched as its text. *)
Definition parse_with (fmt : list Token) (c : Cell) : option Timestamp :=
  match c with
  | CNaN => None
  | CStr s => if null_text s then None else parse_tokens fmt s
  | _ => parse_tokens fmt (cell_str c)
  end.

(** The generic parse of a column, read at one of its cells. *)
Definition parse_cell (dayfirst : bool) (column : list Cell) (c : Cell)
  : option Timestamp :=
  match first_non_null column with
  | Some (CStr s0) =>
      match guess_format dayfirst s0 with
      | Some fmt => parse_with fmt c
      | None => parse_one dayfirst c
      end
  | _ => parse_one dayfirst c
  end.

(** Text that [to_numeric] reads as a whole number: digits after an
    optional sign. *)
Definition whole_number (s : string) : option Z :=
  let (sg, s1) := read_sign s in
  match read_digits s1 0 0 with
  | (v, n, EmptyString) => if 0 <? n then Some (sg * v) else None
  | _ => None
  end.

(** The dtype of [to_numeric] is int64 or uint64: every text is a whole
    number of that range, and no negative number meets one above the int64
    range. *)
Definition integer_dtype (s_str : list string) : bool :=
  let vs := map whole_number s_str in
  let holds (P : Z -> bool) (v : option Z) :=
    match v with Some z => P z | None => false end in
  forallb (holds (fun z => (- 2 ^ 63 <=? z) && (z <? 2 ^ 64))) vs
  && negb (existsb (holds (fun z => z <? 0)) vs
           && existsb (holds (fun z => 2 ^ 63 <=? z)) vs).

End PandasModel.

#[export] Instance pandas_model : Pandas := {
  to_datetime := PandasModel.parse_cell;
  to_datetime_format := Strptime.strptime;
  to_numeric := PandasModel.parse_number;
  to_numeric_integer := PandasModel.integer_dtype;
  to_datetime_days := PandasModel.days_from_origin
}.

(** ** Vocabulary of the specification *)

(** [needle] occurs in [hay]. *)
Definition Contains (needle hay : string) : Prop :=
  exists pre post, hay = (pre ++ needle ++ post)%string.

(** [r] is the first element of [l] that satisfies [P], or [None] when no
    element does. *)
Inductive FirstMatch (P : string -> Prop) : list string -> option string -> Prop :=
| FirstMatch_none l :
    (forall h, In h l -> ~ P h) -> FirstMatch P l None
| FirstMatch_some pre h post :
    P h -> (forall h', In h' pre -> ~ P h') ->
    FirstMatch P (pre ++ h :: post) (Some h).

(** A header that names a date but neither a month nor a report. *)
Definition date_like (h : string) : Prop :=
  Contains "date" h /\ ~ Contains "month" h /\ ~ Contains "report" h.

(** A header that names a time but neither "out" nor "logout". *)
Definition time_like (h : string) : Prop :=
  Contains "time" h /\ ~ Contains "out" h /\ ~ Contains "logout" h.

(** The labels of the fields whose column is not resolved. *)
Definition unresolved (cols : list string) (label : string) : Prop :=
  (label = "Date" /\ col_date cols = None)
  \/ (label = "Time" /\ col_time cols = None)
  \/ (label = "Email" /\ col_email cols = None).

(** [a <= b] on times, field by field. *)
Definition time_le (a b : Time) : Prop :=
  hour a < hour b
  \/ (hour a = hour b
      /\ (minute a < minute b
          \/ (minute a = minute b
              /\ (second a < second b
                  \/ (second a = second b
                      /\ microsecond a <= microsecond b))))).

(** The key under which the upsert loop files a row of [earliest]. *)
Definition upsert_key (row : CleanRow) : Key :=
  (PyStr.lower (c_email row), c_date row).

(** The stored rows with a given email and date. *)
Definition stored (st : Store) (k : Key) : list Attendance :=
  filter (matches (fst k) (snd k)) st.

(** The unique constraint on (employee_email, date). *)
Definition unique_store (st : Store) : Prop :=
  forall k, (List.length (stored st k) <= 1)%nat.

(** No stored row has the key of [row] yet. *)
Definition fresh_in (st : Store) (row : CleanRow) : bool :=
  match stored st (upsert_key row) with [] => true | _ => false end.

(** The row the upsert loop leaves in the table for a row of [earliest]. *)
Definition written (users : list User) (row : CleanRow) : Attendance :=
  mkAttendance (find_user users (PyStr.lower (c_email row)))
               (Some (PyStr.lower (c_email row))) (c_date row)
               (Some (c_time row)) Present.

(** Present exactly when a check-in time is stored. *)
Definition status_consistent (r : Attendance) : Prop :=
  status r = Present <-> check_in_time r <> None.

(** Tables and stores used in the examples. *)
Definition scenario_table : DataFrame :=
  mkDataFrame ["email"; "date"; "time"]
    [[CStr "a@x.com"; CStr "01/05/2024"; CStr "09:00"];
     [CStr "a@x.com"; CStr "01/05/2024"; CStr "08:30"];
     [CStr "b@y.com"; CStr "01/05/2024"; CStr "bad"]].

(** A later batch for a@x.com on 2024-05-01, checked in at 09:00. *)
Definition late_table : DataFrame :=
  mkDataFrame ["Email"; "Date"; "In Time"]
    [[CStr "a@x.com"; CStr "01/05/2024"; CStr "09:00"]].

(** A table that already holds that day for a@x.com at 08:00, linked to an
    account. *)
Definition early_store : Store :=
  [mkAttendance (Some (mkUser 7 "a@x.com")) (Some "a@x.com") (mkDate 2024 5 1)
                (Some (mkTime 8 0 0 0)) Present].

(** [h] first, [f] where [h] yields nothing. *)
Definition orelse {X Y} (h f : X -> option Y) (x : X) : option Y :=
  match h x with Some v => Some v | None => f x end.



(** The integers [lo], [lo + 1], ..., [lo + n - 1]. *)
Definition range (lo : Z) (n : nat) : list Z :=
  map (fun k => lo + Z.of_nat k) (seq 0 n).





(** A time column of whole numbers, as [read_csv] gives it for a file whose
    time cells are Excel day counts without a fraction. *)
Definition whole_number_table : DataFrame :=
  mkDataFrame ["email"; "date"; "time"]
    [[CStr "a@x.com"; CStr "01/05/2024"; CInt 45000]].

(** A row whose email cell holds only blanks. *)
Definition blank_email_table : DataFrame :=
  mkDataFrame ["email"; "date"; "time"]
    [[CStr "   "; CStr "01/05/2024"; CStr "09:00"]].

(** * Further views and forms *)

(** ** Linking rows to accounts (views.py, [link_attendance_to_user]) *)

(** [employee_email__iexact=email] on a stored row; a NULL email matches
    nothing. *)
Definition email_iexact (stored_email : option string) (email : string) : bool :=
  match stored_email with
  | Some e => String.eqb (Sqlite.nocase e) (Sqlite.nocase email)
  | None => false
  end.

(** [Attendance.objects.filter(employee__isnull=True,
    employee_email__iexact=email).update(employee=user)], after the guard on
    an empty email; the update writes the one column and does not go through
    [save]. *)
Definition link_attendance_to_user (user : User) (st : Store) : Store :=
  let email := PyStr.lower (PyStr.strip (user_email user)) in
  if String.eqb email "" then st
  else
    map (fun r =>
           if is_none (employee r) && email_iexact (employee_email r) email
           then mkAttendance (Some user) (employee_email r) (date r)
                             (check_in_time r) (status r)
           else r) st.

(** ** Signing up (forms.py, [SignupForm]) *)

(** [SignupForm.clean_email] on the value of the email field; [None] is the
    ValidationError. *)
Definition clean_email (users : list User) (email_field : string) : option string :=
  let email := PyStr.lower (PyStr.strip email_field) in
  if existsb (iexact email) users then None else Some email.

(** [SignupForm.save]: the account row with primary key [pk], as far as the
    email goes. *)
Definition SignupForm_save (pk : Z) (cleaned_email : string) : User :=
  mkUser pk (PyStr.lower (PyStr.strip cleaned_email)).

(** [signup_view] on a POST whose other fields validate: the account is
    created and the stored rows of its email are linked to it; an email that
    is taken changes nothing. *)
Definition signup_view (users : list User) (st : Store) (pk : Z)
    (email_field : string) : list User * Store :=
  match clean_email users email_field with
  | None => (users, st)
  | Some cleaned =>
      let user := SignupForm_save pk cleaned in
      (users ++ [user], link_attendance_to_user user st)
  end.

(** No two accounts have emails that [iexact] takes for the same. *)
Definition emails_unique (users : list User) : Prop :=
  NoDup (map (fun u => Sqlite.nocase (user_email u)) users).

(** ** Names and report rows (views.py, [display_name], [reports],
    [export_csv]) *)

(** The name columns of an account row. *)
Record Names := mkNames {
  first_name : string;
  last_name : string;
  username : string
}.

(** [a or b] on strings. *)
Definition or_str (a b : string) : string :=
  if String.eqb a "" then b else a.

(** [f"{(first_name or '').strip()} {(last_name or '').strip()}".strip()] *)
Definition full_name (n : Names) : string :=
  PyStr.strip (PyStr.strip (first_name n) ++ " " ++ PyStr.strip (last_name n)).

(** [display_name(user)] *)
Definition display_name (n : Names) (user : User) : string :=
  or_str (full_name n) (or_str (username n) (user_email user)).

(** [s.split("@")[0]] *)
Fixpoint before_at (s : string) : string :=
  match s with
  | EmptyString => EmptyString
  | String c rest => if Ascii.eqb c "@" then EmptyString else String c (before_at rest)
  end.

(** ["Present" if r.check_in_time else "Absent"] *)
Definition status_label (t : option Time) : string :=
  if is_some t then "Present" else "Absent".

(** One entry of the list [report_rows] of [reports]. *)
Record ReportRow := mkReportRow {
  rr_employee_name : string;
  rr_email : option string;
  rr_date : Date;
  rr_status : string
}.

(** The body of the loop of [reports] for one row; [names] gives the name
    columns of a linked account. *)
Definition report_row (names : User -> Names) (r : Attendance) : ReportRow :=
  let email_out :=
    match employee r with
    | Some u => Some (user_email u)
    | None => employee_email r
    end in
  let name_out :=
    match employee r with
    | Some u => display_name (names u) u
    | None => if truthy email_out
              then match email_out with Some e => before_at e | None => "" end
              else ""
    end in
  mkReportRow name_out email_out (date r) (status_label (check_in_time r)).

(** A number written with at least [width] digits. *)
Definition zfill (width : nat) (v : Z) : string :=
  let ds := PyRepr.digits v in
  (PyRepr.zeros (width - String.length ds) ++ ds)%string.

(** [d.isoformat()] *)
Definition date_isoformat (d : Date) : string :=
  (zfill 4 (year d) ++ "-" ++ zfill 2 (month d) ++ "-" ++ zfill 2 (day d))%string.

(** [str(t)] for a time. *)
Definition time_str (t : Time) : string :=
  let frac :=
    if (microsecond t =? 0)%Z then ""
    else ("." ++ zfill 6 (microsecond t))%string in
  (zfill 2 (hour t) ++ ":" ++ zfill 2 (minute t) ++ ":" ++ zfill 2 (second t)
   ++ frac)%string.

(** The fields [export_csv] hands to the writer for one row, as the writer
    prints them (None as the empty text); [None] when the row has neither an
    account nor an email, where [rec.employee_email.split] raises. *)
Definition export_row (names : User -> Names) (rec : Attendance)
  : option (list string) :=
  let name :=
    match employee rec with
    | Some u => Some (full_name (names u))
    | None => option_map before_at (employee_email rec)
    end in
  match name with
  | None => None
  | Some name =>
      let email_out :=
        match employee rec with
        | Some u => Some (user_email u)
        | None => employee_email rec
        end in
      let email_text := match email_out with Some e => e | None => "" end in
      Some [ or_str name email_text; email_text; date_isoformat (date rec);
             status_label (check_in_time rec);
             match check_in_time rec with Some t => time_str t | None => "" end ]
  end.

(** The row can be told apart: it has an account or an email. *)
Definition has_identity (r : Attendance) : Prop :=
  employee r <> None \/ employee_email r <> None.

(** ** Clearing (views.py, [clear_attendance]) *)

(** [Attendance.objects.all().delete()]: the number of rows deleted and the
    empty table. *)
Definition clear_attendance (st : Store) : nat * Store :=
  (List.length st, []).

(** * The month views

    [dashboard], [defaulter_list] and the date helpers compute with
    [datetime.date] and the [calendar] module.  A date is the record [Date];
    its arithmetic goes through the day number counted from 1970-01-01
    ([Cal.days_from_civil], [Cal.civil_from_days]), with the checks of
    [datetime] written out: the C int range of the arguments of [date(...)]
    and the range [date.min] .. [date.max].  The month grid follows
    [Calendar.itermonthdays3] of CPython's [calendar] module.  Request
    parameters enter as the integers that [int(...)] returns, of any size; the random
    fortune text, the role flags and the float percentages of the defaulter
    list are left out of the records. *)

(** ** Exceptions and loops *)

(** The exceptions that the date arithmetic of the views raises. *)
Inductive PyError := ValueError | OverflowError.

(** The outcome of a computation that may raise; [OutOfFuel] is the outcome
    of a loop that was cut off before its condition failed. *)
Inductive Result (A : Type) :=
| Done (a : A)
| Raise (e : PyError)
| OutOfFuel.

Arguments Done {A} a.
Arguments Raise {A} e.
Arguments OutOfFuel {A}.

Definition bind {A B} (r : Result A) (k : A -> Result B) : Result B :=
  match r with
  | Done a => k a
  | Raise e => Raise e
  | OutOfFuel => OutOfFuel
  end.

Definition or_raise {A} (e : PyError) (o : option A) : Result A :=
  match o with
  | Some a => Done a
  | None => Raise e
  end.

Notation "x <- r ;; k" := (bind r (fun x => k))
  (at level 61, r at next level, right associativity).

(** ** [datetime.date] *)

Module PyDate.

(** [date.min] is 0001-01-01 and [date.max] is 9999-12-31; their day numbers
    from 1970-01-01. *)
Definition min_days : Z := -719162.
Definition max_days : Z := 2932896.

(** The date y-m-d, if there is one: the range check of [date(y, m, d)]. *)
Definition make (y m d : Z) : option Date :=
  if (1 <=? y) && (y <=? 9999) && (1 <=? m) && (m <=? 12) && (1 <=? d)
     && (d <=? Cal.days_in_month y m)
  then Some (mkDate y m d)
  else None.

(** An argument that CPython can convert to a C int. *)
Definition in_c_int (z : Z) : bool :=
  (-2147483648 <=? z) && (z <=? 2147483647).

(** [date(y, m, d)]: the three arguments are converted to C ints first, so
    one outside that range raises OverflowError; then a field out of range
    raises ValueError. *)
Definition new (y m d : Z) : Result Date :=
  if in_c_int y && in_c_int m && in_c_int d
  then or_raise ValueError (make y m d)
  else Raise OverflowError.

(** The day number of a date from 1970-01-01 ([toordinal] less 719163). *)
Definition days (d : Date) : Z :=
  Cal.days_from_civil (year d) (month d) (day d).

(** [d + timedelta(days=n)]; [None] for the OverflowError of a result
    outside [date.min .. date.max]. *)
Definition add_days (d : Date) (n : Z) : option Date :=
  let z := days d + n in
  if (min_days <=? z) && (z <=? max_days)
  then Some (Cal.civil_from_days z)
  else None.

(** [d.replace(day=n)] *)
Definition replace_day (d : Date) (n : Z) : Result Date :=
  new (year d) (month d) n.

(** [d.weekday()]: Monday is 0, Sunday is 6. *)
Definition weekday (d : Date) : Z := (days d + 3) mod 7.

(** [a <= b] *)
Definition leb (a b : Date) : bool :=
  match date_compare a b with Gt => false | _ => true end.

(** [d in s] for a set of dates. *)
Definition mem (d : Date) (s : list Date) : bool := existsb (date_eqb d) s.

End PyDate.

(** ** Python's [calendar] module *)

(** [range(a, b)] *)
Definition py_range (a b : Z) : list Z := range a (Z.to_nat (b - a)).

(** [[f(x) for x in l]] where [f] may raise: the first call that raises
    ends the list. *)
Fixpoint traverse {A B} (f : A -> Result B) (l : list A) : Result (list B) :=
  match l with
  | [] => Done []
  | x :: rest =>
      v <- f x ;;
      vs <- traverse f rest ;;
      Done (v :: vs)
  end.

Module Calendar.

Definition prevmonth (y m : Z) : Z * Z :=
  if m =? 1 then (y - 1, 12) else (y, m - 1).

Definition nextmonth (y m : Z) : Z * Z :=
  if m =? 12 then (y + 1, 1) else (y, m + 1).

(** [calendar.weekday(y, m, d)]: a year that [datetime] does not accept is
    replaced by [2000 + y % 400]. *)
Definition weekday (y m d : Z) : Result Z :=
  let y' := if (1 <=? y) && (y <=? 9999) then y else 2000 + y mod 400 in
  dt <- PyDate.new y' m d ;;
  Done (PyDate.weekday dt).

(** [calendar.monthrange(y, m)]: the weekday of the first day and the number
    of days; a month outside 1..12 raises IllegalMonthError, a ValueError. *)
Definition monthrange (y m : Z) : Result (Z * Z) :=
  if (1 <=? m) && (m <=? 12)
  then day1 <- weekday y m 1 ;;
       Done (day1, Cal.days_in_month y m)
  else Raise ValueError.

(** [Calendar(firstweekday).itermonthdays3(y, m)] *)
Definition itermonthdays3 (firstweekday y m : Z) : Result (list (Z * Z * Z)) :=
  mr <- monthrange y m ;;
  let '(day1, ndays) := mr in
  let days_before := (day1 - firstweekday) mod 7 in
  let days_after := (firstweekday - day1 - ndays) mod 7 in
  let '(py, pm) := prevmonth y m in
  let end_ := Cal.days_in_month py pm + 1 in
  let '(ny, nm) := nextmonth y m in
  Done (map (fun d => (py, pm, d)) (py_range (end_ - days_before) end_)
        ++ map (fun d => (y, m, d)) (py_range 1 (ndays + 1))
        ++ map (fun d => (ny, nm, d)) (py_range 1 (days_after + 1))).

(** [list(Calendar(firstweekday).itermonthdates(y, m))]: the dates are made
    one after the other, and the first that does not exist raises. *)
Definition itermonthdates (firstweekday y m : Z) : Result (list Date) :=
  l <- itermonthdays3 firstweekday y m ;;
  traverse (fun '(y', m', d) => PyDate.new y' m' d) l.

End Calendar.

(** ** Date helpers (views.py, [month_bounds], [working_days_in_month]) *)

Definition month_bounds (y m : Z) : Result (Date * Date) :=
  first <- PyDate.new y m 1 ;;
  mr <- Calendar.monthrange y m ;;
  last <- PyDate.new y m (snd mr) ;;
  Done (first, last).

(** [iter_month_grid(y, m)] *)
Definition iter_month_grid (y m : Z) : Result (list Date) :=
  Calendar.itermonthdates 0 y m.

(** The loop [while cur <= last] of [working_days_in_month], and of
    [defaulter_list], which repeats it. *)
Fixpoint working_days_loop (fuel : nat) (cur last : Date)
    (holiday_set : list Date) (days : list Date) : Result (list Date) :=
  match fuel with
  | O => OutOfFuel
  | S fuel' =>
      if PyDate.leb cur last then
        let days' :=
          if (PyDate.weekday cur <? 5) && negb (PyDate.mem cur holiday_set)
          then days ++ [cur]
          else days in
        cur' <- or_raise OverflowError (PyDate.add_days cur 1) ;;
        working_days_loop fuel' cur' last holiday_set days'
      else Done days
  end.

(** A month has at most 31 days, so the loop tests its condition at most 32
    times. *)
Definition working_days_in_month (y m : Z) (holiday_set : list Date)
  : Result (list Date) :=
  bounds <- month_bounds y m ;;
  working_days_loop 32 (fst bounds) (snd bounds) holiday_set [].

(** ** The dashboard (views.py, [dashboard]) *)

(** models.py, [Holiday]; the date is unique. *)
Record Holiday := mkHoliday {
  h_date : Date;
  h_name : string;
  holiday_type : string
}.

(** [date__range=(first, last)] *)
Definition date_range (first last d : Date) : bool :=
  PyDate.leb first d && PyDate.leb d last.

(** [prev_dt] and [next_dt]. *)
Definition dashboard_navigation (y m : Z) : Result (Date * Date) :=
  first_of_month <- PyDate.new y m 1 ;;
  prev_dt <- or_raise OverflowError (PyDate.add_days first_of_month (-1)) ;;
  d28 <- PyDate.replace_day first_of_month 28 ;;
  later <- or_raise OverflowError (PyDate.add_days d28 10) ;;
  next_dt <- PyDate.replace_day later 1 ;;
  Done (prev_dt, next_dt).

(** [[month_dates[i:i + 7] for i in range(0, len(month_dates), 7)]] *)
Definition weeks_of (month_dates : list Date) : list (list Date) :=
  map (fun k => firstn 7 (skipn (7 * k) month_dates))
      (seq 0 ((List.length month_dates + 6) / 7)).

(** The rows of the user that count as present: matched by email, in the
    month, with a check-in. *)
Definition present_rows (st : Store) (user_email : string) (first last : Date)
  : list Attendance :=
  filter (fun r => email_iexact (employee_email r) user_email
                   && date_range first last (date r)
                   && is_some (check_in_time r)) st.

(** [.order_by("date", "check_in_time")] *)
Definition checkin_leb (a b : Date * Time) : bool :=
  match date_compare (fst a) (fst b) with
  | Lt => true
  | Gt => false
  | Eq => time_leb (snd a) (snd b)
  end.

Definition present_qs (st : Store) (user_email : string) (first last : Date)
  : list (Date * Time) :=
  sort_by checkin_leb
    (flat_map (fun r => match check_in_time r with
                        | Some t => [(date r, t)]
                        | None => []
                        end)
       (present_rows st user_email first last)).

(** The dict [checkin_by_date] that the loop over [present_qs] fills, in
    insertion order. *)
Definition checkin_by_date (rows : list (Date * Time)) : list (Date * Time) :=
  fold_left (fun acc row =>
               if existsb (fun e => date_eqb (fst e) (fst row)) acc
               then acc
               else acc ++ [row])
            rows [].

Definition dict_get {V} (d : Date) (dict : list (Date * V)) : option V :=
  option_map snd (find (fun e => date_eqb (fst e) d) dict).

(** [{h.date: h for h in holidays_qs}]: a later holiday replaces an earlier
    one of the same date. *)
Definition holiday_map (holidays_qs : list Holiday) : list (Date * Holiday) :=
  map (fun h => (h_date h, h)) (rev holidays_qs).

(** [t.strftime('%H:%M')] *)
Definition strftime_HM (t : Time) : string :=
  (zfill 2 (hour t) ++ ":" ++ zfill 2 (minute t))%string.

(** One cell of the grid; [tips] is the list that [" • ".join] turns into
    the tooltip. *)
Record DayCell := mkDayCell {
  cell_date : Date;
  in_month : bool;
  badges : list string;
  tips : list string
}.

(** The body of the loop over the days of a week: the cell, and the counters
    [present_count] and [total_working_days] after it. *)
Definition day_cell (month_arg : Z) (holiday_set present_dates : list Date)
    (checkins : list (Date * Time)) (holidays : list (Date * Holiday))
    (yesterday : Date) (counts : nat * nat) (d : Date) : DayCell * (nat * nat) :=
  if month d =? month_arg then
    let is_holiday := PyDate.mem d holiday_set in
    let is_weekend := 5 <=? PyDate.weekday d in
    let is_present := PyDate.mem d present_dates in
    let '(present_count, total_working_days) := counts in
    let '(badges, counts') :=
      if is_holiday && is_present
      then (["Present"; "Holiday"], (S present_count, total_working_days))
      else if is_holiday then (["Holiday"], counts)
      else if is_weekend then ([], counts)
      else if is_present
           then (["Present"], (S present_count, S total_working_days))
           else (if PyDate.leb d yesterday then ["Absent"] else [],
                 (present_count, S total_working_days)) in
    let tips :=
      match dict_get d checkins with
      | Some t => [("Check-in: " ++ strftime_HM t)%string]
      | None => []
      end
      ++ (if is_holiday
          then match dict_get d holidays with
               | Some h => [("Holiday: " ++ h_name h)%string]
               | None => []
               end
          else []) in
    (mkDayCell d true badges tips, counts')
  else (mkDayCell d false [] [], counts).

(** The loops [for week in weeks] and [for d in week]. *)
Definition week_row (cell : nat * nat -> Date -> DayCell * (nat * nat))
    (counts : nat * nat) (week : list Date) : list DayCell * (nat * nat) :=
  fold_left (fun acc d =>
               let '(c, counts') := cell (snd acc) d in
               (fst acc ++ [c], counts'))
            week ([], counts).

Definition grid_rows (cell : nat * nat -> Date -> DayCell * (nat * nat))
    (weeks : list (list Date)) : list (list DayCell) * (nat * nat) :=
  fold_left (fun acc week =>
               let '(row, counts') := week_row cell (snd acc) week in
               (fst acc ++ [row], counts'))
            weeks ([], (0%nat, 0%nat)).

(** The part of the template context that the calendar determines. *)
Record DashboardContext := mkDashboardContext {
  employee_name : string;
  days_present : nat;
  total_days : nat;
  weeks : list (list DayCell);
  prev_year : Z;
  prev_month : Z;
  next_year : Z;
  next_month : Z
}.

Definition dashboard (names : Names) (user : User) (today : Date)
    (year_arg month_arg : Z) (holiday_table : list Holiday) (st : Store)
  : Result DashboardContext :=
  bounds <- month_bounds year_arg month_arg ;;
  nav <- dashboard_navigation year_arg month_arg ;;
  let holidays_qs :=
    filter (fun h => date_range (fst bounds) (snd bounds) (h_date h))
           holiday_table in
  let holiday_set := map h_date holidays_qs in
  month_dates <- Calendar.itermonthdates 6 year_arg month_arg ;;
  let user_email := PyStr.lower (PyStr.strip (user_email user)) in
  let present_dates :=
    map date (present_rows st user_email (fst bounds) (snd bounds)) in
  let checkins :=
    checkin_by_date (present_qs st user_email (fst bounds) (snd bounds)) in
  yesterday <- or_raise OverflowError (PyDate.add_days today (-1)) ;;
  let result :=
    grid_rows (day_cell month_arg holiday_set present_dates checkins
                 (holiday_map holidays_qs) yesterday)
              (weeks_of month_dates) in
  Done (mkDashboardContext (display_name names user)
          (fst (snd result)) (snd (snd result)) (fst result)
          (year (fst nav)) (month (fst nav))
          (year (snd nav)) (month (snd nav))).

(** ** The defaulter list (views.py, [defaulter_list]) *)

(** [.values("date").distinct()]: first occurrences stay. *)
Fixpoint distinct_dates (l : list Date) : list Date :=
  match l with
  | [] => []
  | d :: rest => d :: filter (fun d' => negb (date_eqb d d')) (distinct_dates rest)
  end.

(** [.values_list("employee_email", flat=True).distinct()]; NULL is one of
    the values. *)
Fixpoint distinct_emails (l : list (option string)) : list (option string) :=
  match l with
  | [] => []
  | e :: rest =>
      e :: filter (fun e' => match e, e' with
                             | Some a, Some b => negb (String.eqb a b)
                             | None, None => false
                             | _, _ => true
                             end) (distinct_emails rest)
  end.

(** [employee_email__icontains=q]; a NULL email matches nothing. *)
Definition email_icontains (stored_email : option string) (q : string) : bool :=
  match stored_email with
  | Some e => PyStr.contains (Sqlite.nocase q) (Sqlite.nocase e)
  | None => false
  end.

(** The query that counts [present_days] for the email [eml]. *)
Definition present_days (st : Store) (eml : string) (first last : Date)
    (working_days : list Date) : nat :=
  List.length
    (distinct_dates
       (map date
          (filter (fun r => email_iexact (employee_email r) eml
                            && date_range first last (date r)
                            && PyDate.mem (date r) working_days
                            && is_some (check_in_time r)) st))).

(** [len(working_days) or 1] *)
Definition total_working_days (working_days : list Date) : nat :=
  match List.length working_days with
  | O => 1%nat
  | n => n
  end.

(** An entry of [defaulters], without its percentage. *)
Record Defaulter := mkDefaulter {
  dl_employee_name : string;
  dl_email : string;
  dl_present_days : nat;
  dl_total_days : nat
}.

(** The body of the loop [for eml in emails]: the entry it appends for
    [eml], if any. *)
Definition defaulter_entry (names : User -> Names) (users : list User)
    (st : Store) (first last : Date) (working_days : list Date)
    (threshold_days : Z) (eml : option string) : option Defaulter :=
  match eml with
  | Some e =>
      if truthy eml then
        let present := present_days st e first last working_days in
        if Z.of_nat present <? threshold_days then
          let name :=
            match find_user users e with
            | Some user => full_name (names user)
            | None => before_at e
            end in
          Some (mkDefaulter (or_str name (before_at e)) e present
                  (total_working_days working_days))
        else None
      else None
  | None => None
  end.

(** The list [defaulters] as the loop leaves it, before it is sorted by
    percentage and name; the emails come in the order of their first row. *)
Definition defaulter_rows (names : User -> Names) (users : list User)
    (st : Store) (holiday_table : list Holiday) (year_arg month_arg : Z)
    (email_q : string) (threshold_days : Z) : Result (list Defaulter) :=
  bounds <- month_bounds year_arg month_arg ;;
  let first := fst bounds in
  let last := snd bounds in
  let holiday_set :=
    map h_date (filter (fun h => date_range first last (h_date h))
                       holiday_table) in
  working_days <- working_days_loop 32 first last holiday_set [] ;;
  let in_month := filter (fun r => date_range first last (date r)) st in
  let emails_qs :=
    if String.eqb email_q "" then in_month
    else filter (fun r => email_icontains (employee_email r) email_q) in_month in
  let emails := distinct_emails (map employee_email emails_qs) in
  Done (flat_map (fun eml =>
                    match defaulter_entry names users st first last
                            working_days threshold_days eml with
                    | Some entry => [entry]
                    | None => []
                    end) emails).

(** The days of a month, and the test of the loop of
    [working_days_in_month] on one of them. *)
Definition month_days (y m : Z) : list Date :=
  map (mkDate y m) (range 1 (Z.to_nat (Cal.days_in_month y m))).

Definition is_working_day (holiday_set : list Date) (d : Date) : bool :=
  (PyDate.weekday d <? 5) && negb (PyDate.mem d holiday_set).

(** The days of presence that the dashboard counts: on a holiday or on a
    weekday. *)
Definition counts_present (holiday_set present_dates : list Date) (d : Date)
  : bool :=
  PyDate.mem d present_dates
  && (PyDate.mem d holiday_set || (PyDate.weekday d <? 5)).

(** Closed comparisons and month offsets of the day-number formula. *)
Ltac eval_closed :=
  repeat match goal with
         | |- context [?a <=? ?b] =>
             let v := eval vm_compute in (a <=? b) in
             match v with true => idtac | false => idtac end;
             change (a <=? b) with v
         | |- context [?a =? ?b] =>
             let v := eval vm_compute in (a =? b) in
             match v with true => idtac | false => idtac end;
             change (a =? b) with v
         end; cbv iota;
  repeat match goal with
         | |- context [(153 * ?e + 2) / 5] =>
             let v := eval vm_compute in ((153 * e + 2) / 5) in
             match v with Z0 => idtac | Zpos _ => idtac end;
             change ((153 * e + 2) / 5) with v
         end.

(** The rows that make a user present on a day, whatever the month. *)
Definition present_on (st : Store) (email : string) : list Date :=
  map date (filter (fun r => email_iexact (employee_email r) email
                             && is_some (check_in_time r)) st).

(** The check-in times stored for an email on a day. *)
Definition checkins_on (st : Store) (email : string) (d : Date) : list Time :=
  flat_map (fun r => match check_in_time r with Some t => [t] | None => [] end)
    (filter (fun r => email_iexact (employee_email r) email
                      && date_eqb (date r) d) st).

(** * Properties *)

(** ** Strings *)

Lemma prefix_app (n h : string) :
  String.prefix n h = true <-> exists post, h = (n ++ post)%string.
Proof.
  revert h; induction n as [|c n IH]; intros h; simpl.
  - split; [intros _; now exists h | intros _; now destruct h].
  - destruct h as [|c' h]; simpl.
    + split; [discriminate | intros [post E]; discriminate].
    + destruct (Ascii.ascii_dec c c') as [->|Hne].
      * rewrite IH. split; intros [post E]; exists post.
        -- now rewrite E.
        -- now inversion E.
      * split; [discriminate | intros [post E]; inversion E; congruence].
Qed.

Lemma contains_nil (n : string) :
  PyStr.contains n "" = String.prefix n "".
Proof. change (PyStr.contains n "") with (if String.prefix n "" then true else false).
  now destruct (String.prefix n "").
Qed.

Lemma contains_cons (n : string) (c : ascii) (h : string) :
  PyStr.contains n (String c h)
  = String.prefix n (String c h) || PyStr.contains n h.
Proof. reflexivity. Qed.

Lemma contains_spec (n h : string) :
  PyStr.contains n h = true <-> Contains n h.
Proof.
  unfold Contains. induction h as [|c h IH].
  - rewrite contains_nil, prefix_app. split.
    + intros [post E]. now exists "", post.
    + intros (pre & post & E). destruct pre; [|discriminate]. now exists post.
  - rewrite contains_cons, orb_true_iff, prefix_app, IH. split.
    + intros [[post E]|(pre & post & ->)].
      * now exists "", post.
      * now exists (String c pre), post.
    + intros (pre & post & E). destruct pre as [|c' pre].
      * left. now exists post.
      * right. inversion E. now exists pre, post.
Qed.

Lemma contains_false (n h : string) :
  PyStr.contains n h = false <-> ~ Contains n h.
Proof.
  rewrite <- contains_spec. destruct (PyStr.contains n h); split; congruence.
Qed.

Lemma mem_In (x : string) (xs : list string) :
  PyStr.mem x xs = true <-> In x xs.
Proof.
  unfold PyStr.mem. rewrite existsb_exists. split.
  - intros (y & Hy & E). apply String.eqb_eq in E. now subst.
  - intros Hx. exists x. split; [assumption | apply String.eqb_refl].
Qed.

Lemma mem_not_In (x : string) (xs : list string) :
  PyStr.mem x xs = false <-> ~ In x xs.
Proof.
  rewrite <- mem_In. destruct (PyStr.mem x xs); split; congruence.
Qed.

(** ** Column resolution *)

Lemma find_FirstMatch (f : string -> bool) (P : string -> Prop) (l : list string) :
  (forall h, f h = true <-> P h) -> FirstMatch P l (find f l).
Proof.
  intros HfP. induction l as [|x l IH]; simpl.
  - constructor. intros h [].
  - destruct (f x) eqn:E.
    + apply (FirstMatch_some P [] x l); [now apply HfP | intros h' []].
    + inversion IH as [l' Hnone Hl Hr | pre h post Hh Hpre Hl Hr].
      * constructor. intros h [<-|Hin]; [|now apply Hnone].
        intros HP. apply HfP in HP. congruence.
      * apply (FirstMatch_some P (x :: pre) h post); [assumption|].
        intros h' [<-|Hin]; [|now apply Hpre].
        intros HP. apply HfP in HP. congruence.
Qed.

Lemma first_match_split (P : string -> Prop) (pre1 pre2 : list string)
    (h1 h2 : string) (post1 post2 : list string) :
  pre1 ++ h1 :: post1 = pre2 ++ h2 :: post2 ->
  P h1 -> P h2 ->
  (forall x, In x pre1 -> ~ P x) -> (forall x, In x pre2 -> ~ P x) ->
  h1 = h2.
Proof.
  revert pre2. induction pre1 as [|a pre1 IH]; intros [|b pre2] E P1 P2 N1 N2;
    simpl in E; inversion E; subst.
  - reflexivity.
  - exfalso. apply (N2 b); [now left | assumption].
  - exfalso. apply (N1 h2); [now left | assumption].
  - apply (IH pre2); try assumption.
    + intros x Hx. apply N1. now right.
    + intros x Hx. apply N2. now right.
Qed.

Lemma FirstMatch_unique (P : string -> Prop) (l : list string) (r1 r2 : option string) :
  FirstMatch P l r1 -> FirstMatch P l r2 -> r1 = r2.
Proof.
  intros H1 H2. destruct H1 as [l N1 | pre1 h1 post1 P1 N1].
  - inversion H2 as [l2 N2 | pre2 h2 post2 P2 N2 El]; subst; [reflexivity|].
    exfalso. apply (N1 h2); [apply in_elt | assumption].
  - remember (pre1 ++ h1 :: post1) as l eqn:El.
    destruct H2 as [l N2 | pre2 h2 post2 P2 N2].
    + subst l. exfalso. apply (N2 h1); [apply in_elt | assumption].
    + f_equal. symmetry in El.
      apply (first_match_split P pre1 pre2 h1 h2 post1 post2); assumption.
Qed.

Lemma date_like_dec (h : string) :
  PyStr.contains "date" h && negb (PyStr.contains "month" h)
  && negb (PyStr.contains "report" h) = true <-> date_like h.
Proof.
  unfold date_like. rewrite !andb_true_iff, !negb_true_iff.
  now rewrite contains_spec, !contains_false.
Qed.

Lemma time_like_dec (h : string) :
  PyStr.contains "time" h && negb (PyStr.contains "out" h)
  && negb (PyStr.contains "logout" h) = true <-> time_like h.
Proof.
  unfold time_like. rewrite !andb_true_iff, !negb_true_iff.
  now rewrite contains_spec, !contains_false.
Qed.

(** C4: on every list of normalised headers, the email column is the first
    header containing "email"; the date column is "date" when present and
    otherwise the first header containing "date" but neither "month" nor
    "report"; the time column is the first of the six listed names that is a
    header, else "time" when present, else the first header containing "time"
    but neither "out" nor "logout". *)
Theorem column_resolution_rules (hs : list string) :
  FirstMatch (Contains "email") hs (col_email hs)
  /\ ((In "date" hs /\ col_date hs = Some "date")
      \/ (~ In "date" hs /\ FirstMatch date_like hs (col_date hs)))
  /\ ((exists c,
         FirstMatch (fun c => In c hs)
           ["in time"; "in_time"; "intime"; "check in time"; "check-in"; "check_in"]
           (Some c)
         /\ col_time hs = Some c)
      \/ (FirstMatch (fun c => In c hs)
            ["in time"; "in_time"; "intime"; "check in time"; "check-in"; "check_in"]
            None
          /\ ((In "time" hs /\ col_time hs = Some "time")
              \/ (~ In "time" hs /\ FirstMatch time_like hs (col_time hs))))).
Proof.
  split; [|split].
  - apply find_FirstMatch. intros h. apply contains_spec.
  - unfold col_date. destruct (PyStr.mem "date" hs) eqn:E.
    + left. split; [now apply mem_In | reflexivity].
    + right. split; [now apply mem_not_In|].
      apply find_FirstMatch. apply date_like_dec.
  - unfold col_time.
    pose proof (find_FirstMatch (fun c => PyStr.mem c hs) (fun c => In c hs)
                  in_time_candidates (fun h => mem_In h hs)) as HF.
    destruct (find (fun c => PyStr.mem c hs) in_time_candidates) as [c|].
    + left. exists c. split; [exact HF | reflexivity].
    + right. split; [exact HF|].
      destruct (PyStr.mem "time" hs) eqn:E.
      * left. split; [now apply mem_In | reflexivity].
      * right. split; [now apply mem_not_In|].
        apply find_FirstMatch. apply time_like_dec.
Qed.

Lemma missing_spec (cols : list string) (label : string) :
  In label (missing cols) <-> unresolved cols label.
Proof.
  unfold missing, unresolved.
  destruct (col_date cols), (col_time cols), (col_email cols); simpl;
    intuition (try discriminate; try congruence; auto).
Qed.

Lemma missing_NoDup (cols : list string) : NoDup (missing cols).
Proof.
  unfold missing.
  destruct (col_date cols), (col_time cols), (col_email cols); simpl;
    repeat constructor; simpl; intuition discriminate.
Qed.

Lemma missing_nonempty (cols : list string) :
  col_date cols = None \/ col_time cols = None \/ col_email cols = None ->
  missing cols <> [].
Proof.
  unfold missing.
  destruct (col_date cols), (col_time cols), (col_email cols); simpl;
    intuition discriminate.
Qed.

Section ViewFacts.

Context `{Pandas}.

Lemma prepare_missing (df0 : DataFrame) :
  missing (normalize_columns (columns df0)) <> [] ->
  prepare df0 = Returned (MissingColumns (missing (normalize_columns (columns df0)))).
Proof.
  intros Hne. unfold prepare. cbn [columns].
  destruct (missing (normalize_columns (columns df0))); [contradiction | reflexivity].
Qed.

(** C5: when the date, time or email column cannot be resolved, the view
    returns the missing-columns error with exactly the labels of the
    unresolved fields, whatever the rows are, and leaves the attendance
    table as it was. *)
Theorem missing_columns_abort (users : list User) (st : Store) (df0 : DataFrame) :
  col_date (normalize_columns (columns df0)) = None
  \/ col_time (normalize_columns (columns df0)) = None
  \/ col_email (normalize_columns (columns df0)) = None ->
  exists labels,
    upload_attendance users st df0 = (MissingColumns labels, st)
    /\ NoDup labels
    /\ (forall label, In label labels
                      <-> unresolved (normalize_columns (columns df0)) label)
    /\ processed df0 = []
    /\ (forall rows',
          upload_attendance users st (mkDataFrame (columns df0) rows')
          = (MissingColumns labels, st)).
Proof.
  intros Hnone. apply missing_nonempty in Hnone.
  exists (missing (normalize_columns (columns df0))).
  pose proof (prepare_missing df0 Hnone) as Hp.
  repeat split.
  - unfold upload_attendance. now rewrite Hp.
  - apply missing_NoDup.
  - apply missing_spec.
  - apply missing_spec.
  - unfold processed. now rewrite Hp.
  - intros rows'. unfold upload_attendance.
    now rewrite (prepare_missing (mkDataFrame (columns df0) rows') Hnone).
Qed.

End ViewFacts.

Lemma missing_columns_abort_witness :
  exists labels,
    upload_attendance [] []
      (mkDataFrame ["Name"; "Report Date"; "Logout Time"]
                   [[CStr "a"; CStr "01/05/2024"; CStr "18:00"]])
    = (MissingColumns labels, [])
    /\ NoDup labels
    /\ (forall label, In label labels
                      <-> unresolved ["name"; "report date"; "logout time"] label)
    /\ processed (mkDataFrame ["Name"; "Report Date"; "Logout Time"]
                              [[CStr "a"; CStr "01/05/2024"; CStr "18:00"]]) = []
    /\ (forall rows',
          upload_attendance [] []
            (mkDataFrame ["Name"; "Report Date"; "Logout Time"] rows')
          = (MissingColumns labels, [])).
Proof.
  apply (missing_columns_abort (H := pandas_model) [] []
           (mkDataFrame ["Name"; "Report Date"; "Logout Time"]
                        [[CStr "a"; CStr "01/05/2024"; CStr "18:00"]])).
  left. vm_compute. reflexivity.
Defined.

(** ** Orders on dates, times and keys *)

Lemma date_eqb_eq (a b : Date) : date_eqb a b = true <-> a = b.
Proof.
  unfold date_eqb. rewrite !andb_true_iff, !Z.eqb_eq.
  destruct a, b; simpl. split.
  - intros [[-> ->] ->]. reflexivity.
  - intros E. inversion E. auto.
Qed.

Lemma key_eqb_eq (a b : Key) : key_eqb a b = true <-> a = b.
Proof.
  unfold key_eqb. rewrite andb_true_iff, String.eqb_eq, date_eqb_eq.
  destruct a, b; simpl. split.
  - intros [-> ->]. reflexivity.
  - intros E. inversion E. auto.
Qed.

Lemma key_eqb_refl (k : Key) : key_eqb k k = true.
Proof. now apply key_eqb_eq. Qed.

Lemma key_eqb_neq (a b : Key) : key_eqb a b = false <-> a <> b.
Proof.
  rewrite <- key_eqb_eq. destruct (key_eqb a b); split; congruence.
Qed.

Lemma time_leb_le (a b : Time) : time_leb a b = true <-> time_le a b.
Proof.
  unfold time_leb, time_compare, time_le.
  destruct (Z.compare_spec (hour a) (hour b));
    [destruct (Z.compare_spec (minute a) (minute b));
     [destruct (Z.compare_spec (second a) (second b));
      [destruct (Z.compare_spec (microsecond a) (microsecond b))|..]|..]|..];
    split; intros; try reflexivity; try discriminate; lia.
Qed.

Lemma time_leb_refl (a : Time) : time_leb a a = true.
Proof. apply time_leb_le. unfold time_le. lia. Qed.

Lemma time_leb_total (a b : Time) : time_leb a b = false -> time_leb b a = true.
Proof.
  intros Hab. apply time_leb_le.
  assert (~ time_le a b) as Hn by (rewrite <- time_leb_le; congruence).
  unfold time_le in *. lia.
Qed.

Lemma time_leb_trans (a b c : Time) :
  time_leb a b = true -> time_leb b c = true -> time_leb a c = true.
Proof.
  rewrite !time_leb_le. unfold time_le. lia.
Qed.

(** ** Sorting and grouping *)

Lemma insert_sorted_perm {T} (leb : T -> T -> bool) (x : T) (l : list T) :
  Permutation (insert_sorted leb x l) (x :: l).
Proof.
  induction l as [|y l IH]; simpl.
  - reflexivity.
  - destruct (leb x y); [reflexivity|].
    rewrite IH. apply perm_swap.
Qed.

Lemma sort_by_perm {T} (leb : T -> T -> bool) (l : list T) :
  Permutation (sort_by leb l) l.
Proof.
  induction l as [|x l IH]; simpl.
  - reflexivity.
  - unfold sort_by in *. simpl. rewrite insert_sorted_perm. now constructor.
Qed.

Lemma sort_by_In {T} (leb : T -> T -> bool) (l : list T) (x : T) :
  In x (sort_by leb l) <-> In x l.
Proof.
  split; apply Permutation_in; [|symmetry]; apply sort_by_perm.
Qed.

Lemma drop_duplicates_In (ks : list Key) (k : Key) :
  In k (drop_duplicates ks) <-> In k ks.
Proof.
  induction ks as [|a ks IH]; simpl; [tauto|].
  rewrite filter_In, IH, negb_true_iff, key_eqb_neq.
  destruct (key_eqb a k) eqn:E.
  - apply key_eqb_eq in E. subst. tauto.
  - apply key_eqb_neq in E. tauto.
Qed.

Lemma drop_duplicates_NoDup (ks : list Key) : NoDup (drop_duplicates ks).
Proof.
  induction ks as [|a ks IH]; simpl; constructor.
  - rewrite filter_In, negb_true_iff, key_eqb_neq. tauto.
  - now apply NoDup_filter.
Qed.

Lemma min_time_In (ts : list Time) (t : Time) : In (min_time t ts) (t :: ts).
Proof.
  unfold min_time. revert t. induction ts as [|x ts IH]; intros t; simpl.
  - now left.
  - destruct (IH (if time_leb t x then t else x)) as [E|Hin].
    + rewrite <- E. destruct (time_leb t x); auto.
    + auto.
Qed.

Lemma min_time_le_init (ts : list Time) (t : Time) :
  time_leb (min_time t ts) t = true.
Proof.
  unfold min_time. revert t. induction ts as [|x ts IH]; intros t; simpl.
  - apply time_leb_refl.
  - destruct (time_leb t x) eqn:E; [apply IH|].
    eapply time_leb_trans; [apply IH|]. now apply time_leb_total.
Qed.

Lemma min_time_least (ts : list Time) (t x : Time) :
  In x (t :: ts) -> time_leb (min_time t ts) x = true.
Proof.
  revert t. induction ts as [|y ts IH]; intros t [<-|Hin].
  - apply time_leb_refl.
  - destruct Hin.
  - apply min_time_le_init.
  - unfold min_time. simpl. fold (min_time (if time_leb t y then t else y) ts).
    destruct Hin as [<-|Hin].
    + destruct (time_leb t y) eqn:E.
      * eapply time_leb_trans; [apply min_time_le_init | exact E].
      * apply min_time_le_init.
    + apply IH. now right.
Qed.

Lemma group_times_In (k : Key) (df : list CleanRow) (t : Time) :
  In t (group_times k df) <-> exists r, In r df /\ key_of r = k /\ c_time r = t.
Proof.
  unfold group_times. rewrite in_map_iff. split.
  - intros (r & E & Hin). apply filter_In in Hin. destruct Hin as [Hin Hk].
    apply key_eqb_eq in Hk. now exists r.
  - intros (r & Hin & Hk & E). exists r. split; [assumption|].
    apply filter_In. split; [assumption | now apply key_eqb_eq].
Qed.

(** Each row of the grouped frame carries a key of [df] and the least time
    of that key's group. *)
Lemma groupby_min_In (df : list CleanRow) (g : CleanRow) :
  In g (groupby_min df) ->
  exists t ts, group_times (key_of g) df = t :: ts /\ c_time g = min_time t ts.
Proof.
  unfold groupby_min. rewrite in_flat_map. intros (k & _ & Hg).
  destruct (group_times k df) as [|t ts] eqn:E; [destruct Hg|].
  destruct Hg as [<-|[]]. unfold key_of. simpl.
  exists t, ts. split; [|reflexivity].
  now replace (fst k, snd k) with k by now destruct k.
Qed.

Lemma groupby_min_keys (df : list CleanRow) :
  map key_of (groupby_min df)
  = sort_by key_leb (drop_duplicates (map key_of df)).
Proof.
  unfold groupby_min.
  assert (forall k, In k (sort_by key_leb (drop_duplicates (map key_of df))) ->
                    group_times k df <> []) as Hne.
  { intros k Hk. apply sort_by_In, drop_duplicates_In, in_map_iff in Hk.
    destruct Hk as (r & Hr & Hin).
    assert (In (c_time r) (group_times k df)) as Ht
        by (apply group_times_In; now exists r).
    intros E. rewrite E in Ht. destruct Ht. }
  induction (sort_by key_leb (drop_duplicates (map key_of df))) as [|k ks IH];
    simpl; [reflexivity|].
  rewrite map_app, IH by (intros k' Hk'; apply Hne; now right).
  destruct (group_times k df) eqn:E.
  - exfalso. apply (Hne k); [now left | assumption].
  - simpl. unfold key_of. simpl. now destruct k.
Qed.

Lemma groupby_min_NoDup (df : list CleanRow) : NoDup (map key_of (groupby_min df)).
Proof.
  rewrite groupby_min_keys.
  apply (Permutation_NoDup (l := drop_duplicates (map key_of df))).
  - symmetry. apply sort_by_perm.
  - apply drop_duplicates_NoDup.
Qed.

Lemma sort_values_In (df : list CleanRow) (r : CleanRow) :
  In r (sort_values df) <-> In r df.
Proof. apply sort_by_In. Qed.

Lemma earliest_NoDup (df : list CleanRow) : NoDup (map key_of (earliest df)).
Proof. apply groupby_min_NoDup. Qed.

Lemma earliest_keys (df : list CleanRow) (k : Key) :
  In k (map key_of (earliest df)) <-> In k (map key_of df).
Proof.
  unfold earliest. rewrite groupby_min_keys, sort_by_In, drop_duplicates_In.
  rewrite !in_map_iff. split; intros (r & E & Hin); exists r;
    (split; [assumption | now apply sort_values_In]).
Qed.

Lemma earliest_min (df : list CleanRow) (g : CleanRow) :
  In g (earliest df) ->
  (exists r, In r df /\ key_of r = key_of g /\ c_time r = c_time g)
  /\ (forall r, In r df -> key_of r = key_of g ->
                time_leb (c_time g) (c_time r) = true).
Proof.
  intros Hg. apply groupby_min_In in Hg. destruct Hg as (t & ts & E & Et).
  split.
  - assert (In (c_time g) (group_times (key_of g) (sort_values df))) as Hin
        by (rewrite E, Et; apply min_time_In).
    apply group_times_In in Hin. destruct Hin as (r & Hr & Hk & Ht).
    exists r. repeat split; try assumption. now apply sort_values_In.
  - intros r Hr Hk. rewrite Et. apply min_time_least. rewrite <- E.
    apply group_times_In. exists r. repeat split; try assumption.
    now apply sort_values_In.
Qed.

(** ** The attendance table *)

Lemma filter_none {X} (f : X -> bool) (l : list X) :
  (forall x, In x l -> f x = false) -> filter f l = [].
Proof.
  induction l as [|x l IH]; intros Hf; simpl; [reflexivity|].
  rewrite (Hf x (or_introl eq_refl)). apply IH. intros y Hy. apply Hf. now right.
Qed.

Lemma filter_all {X} (f : X -> bool) (l : list X) :
  (forall x, In x l -> f x = true) -> filter f l = l.
Proof.
  induction l as [|x l IH]; intros Hf; simpl; [reflexivity|].
  rewrite (Hf x (or_introl eq_refl)). f_equal. apply IH.
  intros y Hy. apply Hf. now right.
Qed.

Lemma lower_char_idem (c : ascii) :
  PyStr.lower_char (PyStr.lower_char c) = PyStr.lower_char c.
Proof. destruct c as [[] [] [] [] [] [] [] []]; reflexivity. Qed.

Lemma lower_idem (s : string) : PyStr.lower (PyStr.lower s) = PyStr.lower s.
Proof.
  induction s as [|c s IH]; simpl; [reflexivity|].
  now rewrite lower_char_idem, IH.
Qed.

Lemma lower_empty (s : string) : PyStr.lower s = "" -> s = "".
Proof. destruct s; [reflexivity | discriminate]. Qed.

(** The folding of the database and Python's [lower]: a lower-cased text is
    its own folding, and lower-casing undoes nothing of the folding. *)
Lemma nocase_empty (s : string) : Sqlite.nocase s = "" -> s = "".
Proof. destruct s; [reflexivity | discriminate]. Qed.

Lemma nocase_lower_char (c : ascii) :
  Sqlite.lower_char (PyStr.lower_char c) = PyStr.lower_char c.
Proof. destruct c as [[] [] [] [] [] [] [] []]; reflexivity. Qed.

Lemma lower_nocase_char (c : ascii) :
  PyStr.lower_char (Sqlite.lower_char c) = PyStr.lower_char c.
Proof. destruct c as [[] [] [] [] [] [] [] []]; reflexivity. Qed.

Lemma nocase_lower (s : string) : Sqlite.nocase (PyStr.lower s) = PyStr.lower s.
Proof.
  induction s as [|c s IH]; simpl; [reflexivity|].
  now rewrite nocase_lower_char, IH.
Qed.

Lemma lower_nocase (s : string) : PyStr.lower (Sqlite.nocase s) = PyStr.lower s.
Proof.
  induction s as [|c s IH]; simpl; [reflexivity|].
  now rewrite lower_nocase_char, IH.
Qed.

Lemma first_by_pk_In (us : list User) (u : User) :
  first_by_pk us = Some u -> In u us.
Proof.
  unfold first_by_pk.
  assert (forall acc, fold_left
            (fun acc u => match acc with
                          | Some a => if user_id u <? user_id a then Some u else acc
                          | None => Some u
                          end) us acc = Some u -> In u us \/ acc = Some u) as G.
  { induction us as [|x us IH]; intros acc E; simpl in E; [now right|].
    destruct (IH _ E) as [Hin|Hacc]; [left; now right|].
    destruct acc as [a|].
    - destruct (user_id x <? user_id a).
      + inversion Hacc. left. now left.
      + now right.
    - inversion Hacc. left. now left. }
  intros E. destruct (G None E) as [Hin|Habs]; [assumption | discriminate].
Qed.

Lemma find_user_iexact (users : list User) (eml : string) (u : User) :
  find_user users eml = Some u -> iexact eml u = true.
Proof.
  intros E. apply first_by_pk_In, filter_In in E. tauto.
Qed.

Lemma find_user_none (users : list User) (eml : string) :
  find_user users eml = None <-> forall u, In u users -> iexact eml u = false.
Proof.
  unfold find_user, first_by_pk.
  assert (forall l acc,
            fold_left
              (fun acc u => match acc with
                            | Some a => if user_id u <? user_id a then Some u else acc
                            | None => Some u
                            end) l acc = None -> acc = None /\ l = []) as G.
  { induction l as [|x l IH]; intros acc E; simpl in E; [now split|].
    destruct (IH _ E) as [Habs _]. destruct acc as [a|].
    - destruct (user_id x <? user_id a); discriminate.
    - discriminate. }
  split.
  - intros E u Hu. destruct (G _ _ E) as [_ Hnil].
    destruct (iexact eml u) eqn:Eu; [|reflexivity].
    assert (In u (filter (iexact eml) users)) as Hin by (apply filter_In; now split).
    rewrite Hnil in Hin. destruct Hin.
  - intros Hall. now rewrite (filter_none _ _ Hall).
Qed.

Lemma matches_spec (e : string) (d : Date) (r : Attendance) :
  matches e d r = true <-> employee_email r = Some e /\ date r = d.
Proof.
  unfold matches. destruct (employee_email r) as [e'|].
  - rewrite andb_true_iff, String.eqb_eq, date_eqb_eq. split.
    + intros [-> ->]. auto.
    + intros [E ->]. inversion E. auto.
  - split; [discriminate | intros [E _]; discriminate].
Qed.

(** What [save] writes for the object the upsert loop builds. *)
Lemma save_upsert_object (users : list User) (eml : string) (d : Date)
    (t : Time) (s0 : Status) :
  Attendance_save (mkAttendance (find_user users eml) (Some eml) d (Some t) s0)
  = mkAttendance (find_user users eml) (Some eml) d (Some t) Present.
Proof.
  unfold Attendance_save. cbn [employee employee_email date check_in_time is_some is_none negb].
  destruct (find_user users eml) as [u|] eqn:E; [|reflexivity].
  assert (negb (truthy (Some eml)) && truthy (Some (user_email u)) = false) as ->;
    [|reflexivity].
  destruct (String.eqb eml "") eqn:Ee.
  - apply String.eqb_eq in Ee. subst eml.
    apply find_user_iexact in E. unfold iexact in E. apply String.eqb_eq in E.
    simpl in E. apply nocase_empty in E. rewrite E. apply andb_false_r.
  - simpl. now rewrite Ee.
Qed.

Lemma filter_replace {X} (f : X -> bool) (w : X) (l : list X) :
  f w = true ->
  filter f (map (fun r => if f r then w else r) l) = map (fun _ => w) (filter f l).
Proof.
  intros Hw. induction l as [|x l IH]; simpl; [reflexivity|].
  destruct (f x) eqn:E; simpl.
  - now rewrite Hw, IH.
  - now rewrite E, IH.
Qed.

Lemma filter_replace_other {X} (f g : X -> bool) (w : X) (l : list X) :
  g w = false -> (forall r, f r = true -> g r = false) ->
  filter g (map (fun r => if f r then w else r) l) = filter g l.
Proof.
  intros Hw Hfg. induction l as [|x l IH]; simpl; [reflexivity|].
  destruct (f x) eqn:E.
  - now rewrite Hw, (Hfg x E), IH.
  - now rewrite IH.
Qed.

Lemma matches_written (users : list User) (row : CleanRow) (k : Key) :
  matches (fst k) (snd k) (written users row) = key_eqb (upsert_key row) k.
Proof.
  unfold matches, written, key_eqb, upsert_key. reflexivity.
Qed.

Lemma matches_key (k k' : Key) (r : Attendance) :
  matches (fst k) (snd k) r = true -> k' <> k ->
  matches (fst k') (snd k') r = false.
Proof.
  intros Hk Hne. destruct (matches (fst k') (snd k') r) eqn:E; [|reflexivity].
  apply matches_spec in Hk, E. destruct Hk as [E1 E2], E as [E3 E4].
  exfalso. apply Hne. destruct k, k'; simpl in *. congruence.
Qed.

(** One turn of the upsert loop on a table that holds at most one row for
    the key. *)
Lemma upsert_step (users : list User) (st : Store) (row : CleanRow) :
  (List.length (stored st (upsert_key row)) <= 1)%nat ->
  exists st',
    update_or_create st (PyStr.lower (c_email row)) (c_date row)
      (mkDefaults (Some (c_time row)) Present
                  (find_user users (PyStr.lower (c_email row))))
    = Upserted st' (written users row) (fresh_in st row)
    /\ List.length st' = (List.length st + (if fresh_in st row then 1 else 0))%nat
    /\ stored st' (upsert_key row) = [written users row]
    /\ (forall k, k <> upsert_key row -> stored st' k = stored st k).
Proof.
  intros Hle. unfold update_or_create, fresh_in.
  cbn [d_employee d_check_in_time d_status].
  unfold stored in *. cbn [upsert_key fst snd] in *.
  set (eml := PyStr.lower (c_email row)) in *.
  set (d := c_date row) in *.
  assert (matches eml d (written users row) = true) as Hw.
  { apply matches_spec. split; reflexivity. }
  destruct (filter (matches eml d) st) as [|old [|x l]] eqn:E.
  - rewrite save_upsert_object. fold eml. fold d.
    change (mkAttendance (find_user users eml) (Some eml) d (Some (c_time row)) Present)
      with (written users row).
    exists (st ++ [written users row]). repeat split.
    + rewrite length_app. simpl. lia.
    + rewrite filter_app, E. simpl. now rewrite Hw.
    + intros k Hk. rewrite filter_app. simpl.
      rewrite (matches_key (eml, d) k (written users row) Hw Hk).
      apply app_nil_r.
  - assert (forall r, matches eml d r = true ->
              Attendance_save
                (mkAttendance (find_user users eml) (employee_email r) (date r)
                              (Some (c_time row)) Present)
              = written users row) as Hap.
    { intros r Hr. apply matches_spec in Hr. destruct Hr as [-> ->].
      apply save_upsert_object. }
    assert (In old (filter (matches eml d) st)) as Hold by (rewrite E; now left).
    apply filter_In in Hold. destruct Hold as [_ Hold].
    rewrite (Hap old Hold).
    rewrite (map_ext_in _ (fun r => if matches eml d r then written users row else r))
      by (intros r _; destruct (matches eml d r) eqn:Er; [now apply Hap | reflexivity]).
    eexists. repeat split.
    + rewrite length_map. lia.
    + rewrite (filter_replace _ _ _ Hw), E. reflexivity.
    + intros k Hk. apply filter_replace_other.
      * apply (matches_key (eml, d) k _ Hw Hk).
      * intros r Hr. apply (matches_key (eml, d) k r Hr Hk).
  - simpl in Hle. lia.
Qed.

(** The upsert loop over rows with distinct keys, on a table that holds at
    most one row for each of them: it never raises, creates a row for each
    key that is not stored yet and rewrites the stored row of every other
    key. *)
Lemma upsert_rows_spec (users : list User) (rows : list CleanRow) :
  NoDup (map upsert_key rows) ->
  forall (st : Store) (c u : nat),
    (forall g, In g rows -> (List.length (stored st (upsert_key g)) <= 1)%nat) ->
    exists st',
      upsert_rows users st rows c u
      = (Some ((c + List.length (filter (fresh_in st) rows))%nat,
               (u + List.length (filter (fun g => negb (fresh_in st g)) rows))%nat),
         st')
      /\ List.length st'
         = (List.length st + List.length (filter (fresh_in st) rows))%nat
      /\ (forall g, In g rows -> stored st' (upsert_key g) = [written users g])
      /\ (forall k, ~ In k (map upsert_key rows) -> stored st' k = stored st k).
Proof.
  induction rows as [|row rest IH]; intros ND st c u Hle.
  - exists st. simpl. repeat split.
    + now rewrite !Nat.add_0_r.
    + now rewrite Nat.add_0_r.
    + intros g [].
  - inversion ND as [|? ? Hnotin ND']; subst.
    destruct (upsert_step users st row (Hle row (or_introl eq_refl)))
      as (st1 & E1 & L1 & S1 & O1).
    assert (forall g, In g rest -> stored st1 (upsert_key g) = stored st (upsert_key g))
      as Hsame.
    { intros g Hg. apply O1. intros Ek. apply Hnotin. rewrite <- Ek.
      now apply in_map. }
    assert (forall g, In g rest -> fresh_in st1 g = fresh_in st g) as Hfresh.
    { intros g Hg. unfold fresh_in. now rewrite (Hsame g Hg). }
    assert (forall g, In g rest ->
              (List.length (stored st1 (upsert_key g)) <= 1)%nat) as Hle1.
    { intros g Hg. rewrite (Hsame g Hg). apply Hle. now right. }
    assert (filter (fresh_in st1) rest = filter (fresh_in st) rest) as F1
        by (apply filter_ext_in; exact Hfresh).
    assert (filter (fun g => negb (fresh_in st1 g)) rest
            = filter (fun g => negb (fresh_in st g)) rest) as F2
        by (apply filter_ext_in; intros g Hg; now rewrite (Hfresh g Hg)).
    cbn [upsert_rows]. rewrite E1.
    destruct (fresh_in st row) eqn:Ef.
    + destruct (IH ND' st1 (S c) u Hle1) as (st' & E & L & S & O).
      exists st'. cbn [filter]. rewrite Ef. cbn [negb List.length].
      rewrite E, L, L1, F1, F2. repeat split.
      * f_equal. f_equal. f_equal; lia.
      * lia.
      * intros g [<-|Hg]; [|now apply S].
        rewrite O by assumption. exact S1.
      * intros k Hk. rewrite O by (intros Hin; apply Hk; now right).
        apply O1. intros ->. apply Hk. now left.
    + destruct (IH ND' st1 c (S u) Hle1) as (st' & E & L & S & O).
      exists st'. cbn [filter]. rewrite Ef. cbn [negb List.length].
      rewrite E, L, L1, F1, F2. repeat split.
      * f_equal. f_equal. f_equal; lia.
      * lia.
      * intros g [<-|Hg]; [|now apply S].
        rewrite O by assumption. exact S1.
      * intros k Hk. rewrite O by (intros Hin; apply Hk; now right).
        apply O1. intros ->. apply Hk. now left.
Qed.

(** ** From the table to the rows of [earliest] *)

Lemma zip_rows_In (ds : list (option Date)) (es : list (option string))
    (ts : list (option Time)) (r : WorkRow) :
  In r (zip_rows ds es ts) ->
  In (w_date r) ds /\ In (w_email r) es /\ In (w_time r) ts.
Proof.
  revert es ts. induction ds as [|d ds IH]; intros [|e es] [|t ts] Hin;
    simpl in Hin; try contradiction.
  destruct Hin as [<-|Hin].
  - simpl. auto.
  - destruct (IH es ts Hin) as (H1 & H2 & H3). simpl. auto.
Qed.

Lemma dropna_all_In (work : list WorkRow) (c : CleanRow) :
  In c (dropna_all work) <->
  In (mkWorkRow (Some (c_date c)) (Some (c_email c)) (Some (c_time c))) work.
Proof.
  unfold dropna_all. rewrite in_flat_map. split.
  - intros (r & Hr & Hc).
    destruct r as [[d|] [e|] [t|]]; simpl in Hc; try contradiction.
    destruct Hc as [<-|[]]. exact Hr.
  - intros Hin. eexists. split; [exact Hin|]. simpl. left. now destruct c.
Qed.

Lemma key_eq_dec (a b : Key) : {a = b} + {a <> b}.
Proof.
  destruct (key_eqb a b) eqn:E.
  - left. now apply key_eqb_eq.
  - right. now apply key_eqb_neq.
Qed.

Section UploadFacts.

Context `{Pandas}.

Lemma prepare_ready (df0 : DataFrame) (used : string * string * string)
    (work : list WorkRow) :
  prepare df0 = Ready used work ->
  exists date_cells email_cells time_cells times,
    parse_time time_cells = Some times
    /\ work = zip_rows (parse_date date_cells) (parse_email email_cells) times.
Proof.
  unfold prepare. intros E.
  destruct (missing _); [|discriminate].
  destruct (col_date _); [|discriminate].
  destruct (col_time _); [|discriminate].
  destruct (col_email _); [|discriminate].
  destruct (getitem _ _) as [dc|]; [|discriminate].
  destruct (getitem _ _) as [ec|]; [|discriminate].
  destruct (getitem _ _) as [tc|]; [|discriminate].
  destruct (parse_time tc) as [tt|] eqn:Et; [|discriminate].
  inversion E. now exists dc, ec, tc, tt.
Qed.

(** The emails of the rows the loop goes through are lower-case already. *)
Lemma processed_lower (df0 : DataFrame) (g : CleanRow) :
  In g (processed df0) -> PyStr.lower (c_email g) = c_email g.
Proof.
  unfold processed. destruct (prepare df0) as [o|used work] eqn:E; [intros []|].
  intros Hg. apply prepare_ready in E. destruct E as (dc & ec & tc & tt & _ & ->).
  assert (In (key_of g) (map key_of (earliest (dropna_all
            (zip_rows (parse_date dc) (parse_email ec) tt)))))
    as Hk by now apply in_map.
  apply -> earliest_keys in Hk. apply in_map_iff in Hk.
  destruct Hk as (r & Hr & Hin).
  apply dropna_all_In, zip_rows_In in Hin. destruct Hin as (_ & He & _).
  cbn [w_email] in He. unfold parse_email in He. apply in_map_iff in He.
  destruct He as (c & Ec & _). inversion Ec as [Ee].
  assert (c_email g = c_email r) as -> by (unfold key_of in Hr; congruence).
  rewrite <- Ee. apply lower_idem.
Qed.

Lemma processed_upsert_key (df0 : DataFrame) (g : CleanRow) :
  In g (processed df0) -> upsert_key g = key_of g.
Proof.
  intros Hg. unfold upsert_key, key_of. now rewrite (processed_lower df0 g Hg).
Qed.

Lemma processed_NoDup (df0 : DataFrame) : NoDup (map upsert_key (processed df0)).
Proof.
  rewrite (map_ext_in _ _ _ (processed_upsert_key df0)).
  unfold processed. destruct (prepare df0); [constructor | apply earliest_NoDup].
Qed.

Lemma upload_returned (users : list User) (st : Store) (df0 : DataFrame)
    (o : Outcome) :
  prepare df0 = Returned o ->
  upload_attendance users st df0 = (o, st) /\ processed df0 = [].
Proof.
  intros E. unfold upload_attendance, processed. now rewrite E.
Qed.

(** A run that reaches the upsert loop, on a table that holds at most one
    row for each key of the batch. *)
Lemma upload_ready (users : list User) (st : Store) (df0 : DataFrame)
    (used : string * string * string) (work : list WorkRow) :
  prepare df0 = Ready used work ->
  (forall g, In g (processed df0) ->
             (List.length (stored st (upsert_key g)) <= 1)%nat) ->
  exists diag st',
    upload_attendance users st df0 = (Uploaded used diag, st')
    /\ processed_pairs diag = List.length (processed df0)
    /\ created diag = List.length (filter (fresh_in st) (processed df0))
    /\ updated diag
       = List.length (filter (fun g => negb (fresh_in st g)) (processed df0))
    /\ List.length st' = (List.length st + created diag)%nat
    /\ (forall g, In g (processed df0) ->
                  stored st' (upsert_key g) = [written users g])
    /\ (forall k, ~ In k (map upsert_key (processed df0)) ->
                  stored st' k = stored st k).
Proof.
  intros E Hle.
  destruct (upsert_rows_spec users (processed df0) (processed_NoDup df0) st 0 0 Hle)
    as (st' & Eu & L & S & O).
  unfold upload_attendance. unfold processed in *. rewrite E in *.
  rewrite Eu. eexists. exists st'. split; [reflexivity|]. cbn.
  repeat split; assumption.
Qed.

End UploadFacts.

(** ** Aggregation *)

Lemma upsert_rows_single (users : list User) (g : CleanRow) :
  upsert_rows users [] [g] 0 0 = (Some (1%nat, 0%nat), [written users g]).
Proof.
  destruct (upsert_rows_spec users [g]) with (st := @nil Attendance) (c := 0%nat) (u := 0%nat)
    as (st' & E & L & S & O).
  - repeat constructor. intros [].
  - intros g' _. simpl. lia.
  - rewrite E. simpl in L. specialize (S g (or_introl eq_refl)).
    unfold stored in S. destruct st' as [|a [|b l]]; simpl in L; try lia.
    simpl in S. destruct (matches _ _ a); [|discriminate].
    inversion S. reflexivity.
Qed.

(** C2: the aggregation keeps one row per (email, date) pair of the
    normalised rows, and the time of that row is the least time of the
    pair's rows; rows for a@x.com on 2024-05-01 at 09:10 and 08:55 give the
    single record with check-in 08:55. *)
Theorem earliest_is_group_minimum (df_clean : list CleanRow) :
  NoDup (map key_of (earliest df_clean))
  /\ (forall k, In k (map key_of (earliest df_clean)) <-> In k (map key_of df_clean))
  /\ (forall g, In g (earliest df_clean) ->
        (exists r, In r df_clean /\ key_of r = key_of g /\ c_time r = c_time g)
        /\ (forall r, In r df_clean -> key_of r = key_of g ->
                      time_le (c_time g) (c_time r)))
  /\ earliest [mkCleanRow "a@x.com" (mkDate 2024 5 1) (mkTime 9 10 0 0);
               mkCleanRow "a@x.com" (mkDate 2024 5 1) (mkTime 8 55 0 0)]
     = [mkCleanRow "a@x.com" (mkDate 2024 5 1) (mkTime 8 55 0 0)]
  /\ (forall users,
        upsert_rows users []
          (earliest [mkCleanRow "a@x.com" (mkDate 2024 5 1) (mkTime 9 10 0 0);
                     mkCleanRow "a@x.com" (mkDate 2024 5 1) (mkTime 8 55 0 0)])
          0 0
        = (Some (1%nat, 0%nat),
           [mkAttendance (find_user users "a@x.com") (Some "a@x.com")
                         (mkDate 2024 5 1) (Some (mkTime 8 55 0 0)) Present])).
Proof.
  assert (earliest [mkCleanRow "a@x.com" (mkDate 2024 5 1) (mkTime 9 10 0 0);
                    mkCleanRow "a@x.com" (mkDate 2024 5 1) (mkTime 8 55 0 0)]
          = [mkCleanRow "a@x.com" (mkDate 2024 5 1) (mkTime 8 55 0 0)]) as Hex
      by (vm_compute; reflexivity).
  split; [apply earliest_NoDup|].
  split; [apply earliest_keys|].
  split; [|split; [exact Hex|]].
  - intros g Hg. destruct (earliest_min df_clean g Hg) as [Hex' Hmin].
    split; [exact Hex'|]. intros r Hr Hk. apply time_leb_le. now apply Hmin.
  - intros users. rewrite Hex. apply upsert_rows_single.
Qed.

(** C1: the three-row table of the scenario, uploaded into an empty
    attendance table, creates the one record a@x.com / 2024-05-01 with
    check-in 08:30 and updates none; one row has an unparseable time, one
    pair is processed and two distinct pairs are counted. *)
Theorem end_to_end_scenario (users : list User) :
  upload_attendance (H := pandas_model) users []
    (mkDataFrame ["email"; "date"; "time"]
       [[CStr "a@x.com"; CStr "01/05/2024"; CStr "09:00"];
        [CStr "a@x.com"; CStr "01/05/2024"; CStr "08:30"];
        [CStr "b@y.com"; CStr "01/05/2024"; CStr "bad"]])
  = (Uploaded ("date", "time", "email")
       {| total_rows := 3; total_pairs_any_time := 2; null_time_rows := 1;
          processed_pairs := 1; created := 1; updated := 0 |},
     [mkAttendance (find_user users "a@x.com") (Some "a@x.com")
                   (mkDate 2024 5 1) (Some (mkTime 8 30 0 0)) Present]).
Proof.
  unfold upload_attendance.
  match goal with
  | |- context [prepare ?df] =>
      let p := eval vm_compute in (prepare (H := pandas_model) df) in
      change (prepare (H := pandas_model) df) with p
  end.
  cbv beta iota.
  match goal with
  | |- context [earliest ?l] =>
      let e := eval vm_compute in (earliest l) in
      change (earliest l) with e
  end.
  rewrite upsert_rows_single. vm_compute. reflexivity.
Qed.

(** ** Upsert *)

Section UpsertFacts.

Context `{Pandas}.

Lemma prepare_returned (df0 : DataFrame) (o : Outcome) :
  prepare df0 = Returned o ->
  match o with Uploaded _ _ => False | _ => True end.
Proof.
  unfold prepare. intros E.
  destruct (missing _); [|now inversion E].
  destruct (col_date _); [|now inversion E].
  destruct (col_time _); [|now inversion E].
  destruct (col_email _); [|now inversion E].
  destruct (getitem _ _) as [dc|]; [|now inversion E].
  destruct (getitem _ _) as [ec|]; [|now inversion E].
  destruct (getitem _ _) as [tc|]; [|now inversion E].
  destruct (parse_time tc); [discriminate | now inversion E].
Qed.

(** C3: on a table that holds no row for the keys of the batch, the first
    run creates one row per processed pair and updates none; the second run
    on the same input creates none and updates each of them, the number of
    stored rows stays the same and each key has exactly one stored row.  A
    run that returns before the loop leaves the table as it is. *)
Theorem idempotent_upsert (users : list User) (st : Store) (df0 : DataFrame) :
  (forall g r, In g (processed df0) -> In r st ->
               matches (c_email g) (c_date g) r = false) ->
  exists o st1,
    upload_attendance users st df0 = (o, st1)
    /\ match o with
       | Uploaded used d1 =>
           processed_pairs d1 = List.length (processed df0)
           /\ created d1 = List.length (processed df0)
           /\ updated d1 = 0%nat
           /\ List.length st1 = (List.length st + List.length (processed df0))%nat
           /\ exists d2 st2,
               upload_attendance users st1 df0 = (Uploaded used d2, st2)
               /\ created d2 = 0%nat
               /\ updated d2 = List.length (processed df0)
               /\ List.length st2 = List.length st1
               /\ (forall g, In g (processed df0) ->
                             List.length (stored st2 (key_of g)) = 1%nat)
       | _ =>
           st1 = st /\ processed df0 = []
           /\ upload_attendance users st1 df0 = (o, st1)
       end.
Proof.
  intros Hfresh. destruct (prepare df0) as [o|used work] eqn:E.
  - exists o, st. destruct (upload_returned users st df0 o E) as [Eu Ep].
    split; [exact Eu|].
    pose proof (prepare_returned df0 o E) as Ho.
    destruct o; try contradiction; auto.
  - assert (forall g, In g (processed df0) -> stored st (upsert_key g) = []) as Hst.
    { intros g Hg. unfold stored. apply filter_none. intros r Hr.
      rewrite (processed_upsert_key df0 g Hg). now apply Hfresh. }
    assert (forall g, In g (processed df0) -> fresh_in st g = true) as Hfr.
    { intros g Hg. unfold fresh_in. now rewrite (Hst g Hg). }
    destruct (upload_ready users st df0 used work E) as (d1 & st1 & E1 & P1 & C1 & U1 & L1 & S1 & O1).
    { intros g Hg. rewrite (Hst g Hg). simpl. lia. }
    rewrite (filter_all _ _ Hfr) in C1.
    rewrite filter_none in U1 by (intros g Hg; now rewrite (Hfr g Hg)).
    exists (Uploaded used d1), st1. split; [exact E1|].
    assert (forall g, In g (processed df0) -> fresh_in st1 g = false) as Hfr1.
    { intros g Hg. unfold fresh_in. now rewrite (S1 g Hg). }
    destruct (upload_ready users st1 df0 used work E) as (d2 & st2 & E2 & P2 & C2 & U2 & L2 & S2 & O2).
    { intros g Hg. rewrite (S1 g Hg). simpl. lia. }
    rewrite (filter_none _ _ Hfr1) in C2.
    rewrite filter_all in U2 by (intros g Hg; now rewrite (Hfr1 g Hg)).
    repeat split; try assumption.
    + rewrite L1, C1. reflexivity.
    + exists d2, st2. repeat split; try assumption.
      * rewrite L2, C2. simpl. lia.
      * intros g Hg. rewrite <- (processed_upsert_key df0 g Hg).
        now rewrite (S2 g Hg).
Qed.

(** A run on a table that satisfies the unique constraint. *)
Lemma upload_overwrites (users : list User) (st : Store) (df0 : DataFrame) :
  unique_store st ->
  unique_store (snd (upload_attendance users st df0))
  /\ (forall g, In g (processed df0) ->
        stored (snd (upload_attendance users st df0)) (key_of g)
        = [mkAttendance (find_user users (c_email g)) (Some (c_email g))
                        (c_date g) (Some (c_time g)) Present])
  /\ (forall k, ~ In k (map key_of (processed df0)) ->
        stored (snd (upload_attendance users st df0)) k = stored st k).
Proof.
  intros Hu. destruct (prepare df0) as [o|used work] eqn:E.
  - destruct (upload_returned users st df0 o E) as [-> Ep]. rewrite Ep. simpl.
    split; [exact Hu|]. split; [intros g []|reflexivity].
  - destruct (upload_ready users st df0 used work E) as (d1 & st1 & E1 & _ & _ & _ & _ & S1 & O1).
    { intros g _. apply Hu. }
    rewrite E1. cbn [snd].
    rewrite (map_ext_in _ _ _ (processed_upsert_key df0)) in O1.
    split; [|split].
    + intros k. destruct (in_dec key_eq_dec k (map key_of (processed df0))) as [Hin|Hout].
      * apply in_map_iff in Hin. destruct Hin as (g & <- & Hg).
        rewrite <- (processed_upsert_key df0 g Hg), (S1 g Hg). simpl. lia.
      * rewrite (O1 k Hout). apply Hu.
    + intros g Hg. rewrite <- (processed_upsert_key df0 g Hg), (S1 g Hg).
      unfold written. now rewrite (processed_lower df0 g Hg).
    + exact O1.
Qed.

End UpsertFacts.

Lemma idempotent_upsert_witness :
  exists o st1,
    upload_attendance (H := pandas_model) [] [] scenario_table = (o, st1)
    /\ match o with
       | Uploaded used d1 =>
           processed_pairs d1 = List.length (processed scenario_table)
           /\ created d1 = List.length (processed scenario_table)
           /\ updated d1 = 0%nat
           /\ List.length st1 = (0 + List.length (processed scenario_table))%nat
           /\ exists d2 st2,
               upload_attendance [] st1 scenario_table = (Uploaded used d2, st2)
               /\ created d2 = 0%nat
               /\ updated d2 = List.length (processed scenario_table)
               /\ List.length st2 = List.length st1
               /\ (forall g, In g (processed scenario_table) ->
                             List.length (stored st2 (key_of g)) = 1%nat)
       | _ =>
           st1 = [] /\ processed scenario_table = []
           /\ upload_attendance [] st1 scenario_table = (o, st1)
       end.
Proof.
  apply (idempotent_upsert (H := pandas_model) [] [] scenario_table).
  intros g r _ [].
Defined.

Section Overwrite.

Context `{Pandas}.

(** C10: on a table that satisfies the unique constraint, after an upload
    the stored row of every processed key is exactly the row built from the
    batch: its check-in time is the batch's earliest time for the key and its
    account is the one found now (or none), whatever was stored before; this
    also holds after any earlier upload, so the stored time is that of the
    latest batch.  Example: a stored 08:00 linked to an account becomes 09:00
    with no account. *)
Theorem upsert_replaces_stored_record (users : list User) (st : Store)
    (df0 : DataFrame) :
  unique_store st ->
  unique_store (snd (upload_attendance users st df0))
  /\ (forall g, In g (processed df0) ->
        stored (snd (upload_attendance users st df0)) (key_of g)
        = [mkAttendance (find_user users (c_email g)) (Some (c_email g))
                        (c_date g) (Some (c_time g)) Present])
  /\ (forall df1 g, In g (processed df0) ->
        stored (snd (upload_attendance users
                       (snd (upload_attendance users st df1)) df0)) (key_of g)
        = [mkAttendance (find_user users (c_email g)) (Some (c_email g))
                        (c_date g) (Some (c_time g)) Present])
  /\ (forall k, ~ In k (map key_of (processed df0)) ->
        stored (snd (upload_attendance users st df0)) k = stored st k)
  /\ (forall e, (find_user users e = None
                 <-> forall u, In u users -> iexact e u = false)
                /\ forall u, find_user users e = Some u ->
                             In u users /\ iexact e u = true)
  /\ upload_attendance (H := pandas_model) [] early_store late_table
     = (Uploaded ("date", "in time", "email")
          {| total_rows := 1; total_pairs_any_time := 1; null_time_rows := 0;
             processed_pairs := 1; created := 0; updated := 1 |},
        [mkAttendance None (Some "a@x.com") (mkDate 2024 5 1)
                      (Some (mkTime 9 0 0 0)) Present]).
Proof.
  intros Hu.
  destruct (upload_overwrites users st df0 Hu) as (U & S & O).
  split; [exact U|]. split; [exact S|]. split; [|split; [exact O|split]].
  - intros df1 g Hg.
    destruct (upload_overwrites users st df1 Hu) as (U1 & _ & _).
    destruct (upload_overwrites users _ df0 U1) as (_ & S2 & _).
    now apply S2.
  - intros e. split; [apply find_user_none|].
    intros u Eu. apply first_by_pk_In, filter_In in Eu. exact Eu.
  - vm_compute. reflexivity.
Qed.

End Overwrite.

Lemma upsert_replaces_stored_record_witness :
  unique_store (snd (upload_attendance (H := pandas_model) [] early_store late_table))
  /\ (forall g, In g (processed late_table) ->
        stored (snd (upload_attendance [] early_store late_table)) (key_of g)
        = [mkAttendance (find_user [] (c_email g)) (Some (c_email g))
                        (c_date g) (Some (c_time g)) Present])
  /\ (forall df1 g, In g (processed late_table) ->
        stored (snd (upload_attendance []
                       (snd (upload_attendance [] early_store df1)) late_table))
               (key_of g)
        = [mkAttendance (find_user [] (c_email g)) (Some (c_email g))
                        (c_date g) (Some (c_time g)) Present])
  /\ (forall k, ~ In k (map key_of (processed late_table)) ->
        stored (snd (upload_attendance [] early_store late_table)) k
        = stored early_store k)
  /\ (forall e, (find_user [] e = None
                 <-> forall u, In u [] -> iexact e u = false)
                /\ forall u, find_user [] e = Some u ->
                             In u [] /\ iexact e u = true)
  /\ upload_attendance (H := pandas_model) [] early_store late_table
     = (Uploaded ("date", "in time", "email")
          {| total_rows := 1; total_pairs_any_time := 1; null_time_rows := 0;
             processed_pairs := 1; created := 0; updated := 1 |},
        [mkAttendance None (Some "a@x.com") (mkDate 2024 5 1)
                      (Some (mkTime 9 0 0 0)) Present]).
Proof.
  apply (upsert_replaces_stored_record (H := pandas_model) [] early_store late_table).
  intros k. unfold stored, early_store. cbn [filter].
  destruct (matches _ _ _); simpl; lia.
Defined.

(** ** Status *)

Lemma save_status_consistent (r : Attendance) :
  status_consistent (Attendance_save r).
Proof.
  unfold status_consistent, Attendance_save. simpl.
  destruct (check_in_time r); simpl; split; congruence.
Qed.

Lemma save_check_in_time (r : Attendance) :
  check_in_time (Attendance_save r) = check_in_time r.
Proof. reflexivity. Qed.

(** The rows of the table after [update_or_create]: rows it held before, or
    rows that went through [save] with the check-in time of the defaults. *)
Lemma update_or_create_rows (st : Store) (eml : string) (d : Date)
    (dflt : Defaults) (st' : Store) (obj : Attendance) (c : bool) :
  update_or_create st eml d dflt = Upserted st' obj c ->
  In obj st'
  /\ (exists x, obj = Attendance_save x /\ check_in_time x = d_check_in_time dflt)
  /\ (forall r, In r st' ->
        In r st \/ exists x, r = Attendance_save x
                             /\ check_in_time x = d_check_in_time dflt).
Proof.
  unfold update_or_create.
  destruct (filter (matches eml d) st) as [|old [|y l]] eqn:E; intros Eq;
    inversion Eq; subst; clear Eq.
  - split; [apply in_or_app; right; now left|].
    split; [eexists; split; reflexivity|].
    intros r Hr. apply in_app_or in Hr. destruct Hr as [Hr|[<-|[]]]; [now left|].
    right. eexists. split; reflexivity.
  - assert (In old (filter (matches eml d) st)) as Hold by (rewrite E; now left).
    apply filter_In in Hold. destruct Hold as [Hin Hm].
    split.
    { apply in_map_iff. exists old. now rewrite Hm. }
    split; [eexists; split; reflexivity|].
    intros r Hr. apply in_map_iff in Hr. destruct Hr as (x & <- & Hx).
    destruct (matches eml d x); [|now left].
    right. eexists. split; reflexivity.
Qed.

Lemma upsert_rows_rows (users : list User) (rows : list CleanRow) :
  forall (st : Store) (c u : nat) res st',
    upsert_rows users st rows c u = (res, st') ->
    forall r, In r st' ->
      In r st \/ (status r = Present /\ check_in_time r <> None).
Proof.
  induction rows as [|row rest IH]; intros st c u res st' E r Hr; simpl in E.
  - inversion E; subst. now left.
  - destruct (update_or_create st _ _ _) as [st1 obj b|] eqn:Eu.
    + assert (forall r, In r st1 ->
                In r st \/ (status r = Present /\ check_in_time r <> None)) as H1.
      { intros r1 Hr1.
        destruct (update_or_create_rows _ _ _ _ _ _ _ Eu) as (_ & _ & Hrows).
        destruct (Hrows r1 Hr1) as [Hin|(x & -> & Hx)]; [now left|].
        right. cbn [d_check_in_time] in Hx.
        pose proof (save_status_consistent x) as Hc. unfold status_consistent in Hc.
        rewrite save_check_in_time, Hx in *.
        split; [apply Hc|]; discriminate. }
      destruct b.
      * destruct (IH _ _ _ _ _ E r Hr) as [Hin|Hp]; [now apply H1 | now right].
      * destruct (IH _ _ _ _ _ E r Hr) as [Hin|Hp]; [now apply H1 | now right].
    + inversion E; subst. now left.
Qed.

(** C9: [save] sets the status to Present exactly when a check-in time is
    present, whatever the status was, and leaves the time as it is; every row
    [update_or_create] writes has gone through [save]; every row the upsert
    loop writes is Present with a check-in time; and a table whose rows all
    agree with their check-in time still does after an upload. *)
Theorem status_follows_check_in :
  (forall r, status_consistent (Attendance_save r)
             /\ (status (Attendance_save r) = Absent <-> check_in_time r = None)
             /\ check_in_time (Attendance_save r) = check_in_time r)
  /\ (forall e em d t s1 s2,
        status (Attendance_save (mkAttendance e em d t s1))
        = status (Attendance_save (mkAttendance e em d t s2)))
  /\ (forall st eml d dflt,
        match update_or_create st eml d dflt with
        | Upserted st' obj _ =>
            In obj st' /\ status_consistent obj
            /\ check_in_time obj = d_check_in_time dflt
            /\ (Forall status_consistent st -> Forall status_consistent st')
        | MultipleObjectsReturned => True
        end)
  /\ (forall users st rows c u r,
        In r (snd (upsert_rows users st rows c u)) ->
        In r st \/ (status r = Present /\ check_in_time r <> None))
  /\ (forall (P : Pandas) users st df0,
        Forall status_consistent st ->
        Forall status_consistent (snd (upload_attendance users st df0))).
Proof.
  split; [|split; [|split; [|split]]].
  - intros r. split; [apply save_status_consistent|]. split; [|reflexivity].
    unfold Attendance_save. simpl. destruct (check_in_time r); simpl;
      split; congruence.
  - reflexivity.
  - intros st eml d dflt.
    destruct (update_or_create st eml d dflt) as [st' obj b|] eqn:E; [|exact I].
    destruct (update_or_create_rows _ _ _ _ _ _ _ E) as (Hin & (x & -> & Hx) & Hrows).
    split; [exact Hin|]. split; [apply save_status_consistent|].
    split; [now rewrite save_check_in_time|].
    intros Hall. apply Forall_forall. intros r Hr.
    destruct (Hrows r Hr) as [Hold|(y & -> & _)].
    + rewrite Forall_forall in Hall. now apply Hall.
    + apply save_status_consistent.
  - intros users st rows c u r Hr.
    destruct (upsert_rows users st rows c u) as [res st'] eqn:E.
    apply (upsert_rows_rows users rows st c u res st' E r Hr).
  - intros P users st df0 Hall. apply Forall_forall. intros r Hr.
    unfold upload_attendance in Hr.
    destruct (prepare df0) as [o|used work]; [rewrite Forall_forall in Hall; now apply Hall|].
    destruct (upsert_rows users st _ 0 0) as [res st'] eqn:E.
    assert (In r st') as Hr' by (destruct res as [[c u]|]; exact Hr).
    destruct (upsert_rows_rows users _ st _ _ res st' E r Hr') as [Hold|[Hs Ht]].
    + rewrite Forall_forall in Hall. now apply Hall.
    + unfold status_consistent. tauto.
Qed.

(** ** The time cascade *)

Lemma isna_map {X Y} (h : X -> option Y) (s : list X) :
  isna (map h s) = map (fun x => is_none (h x)) s.
Proof. unfold isna. apply map_map. Qed.

Lemma mask_and_map {X} (f g : X -> bool) (s : list X) :
  mask_and (map f s) (map g s) = map (fun x => f x && g x) s.
Proof. induction s as [|x s IH]; simpl; [reflexivity | now rewrite IH]. Qed.

Lemma any_map_false {X} (f : X -> bool) (s : list X) :
  any (map f s) = false -> forall x, In x s -> f x = false.
Proof.
  unfold any. induction s as [|a s IH]; simpl; intros E x Hx; [destruct Hx|].
  apply orb_false_iff in E. destruct E as [Ea Es].
  destruct Hx as [<-|Hx]; [exact Ea | now apply IH].
Qed.

(** Assigning new values under a mask computed cell by cell comes to a
    cell by cell choice. *)
Lemma loc_assign_map {X Y} (b : X -> bool) (h f : X -> Y) (s : list X) :
  loc_assign (map b s) (map h s) (map f (select (map b s) s))
  = map (fun x => if b x then f x else h x) s.
Proof.
  induction s as [|x s IH]; simpl; [reflexivity|].
  destruct (b x); simpl; now rewrite IH.
Qed.

Lemma select_map {X Y} (m : list bool) (g : X -> Y) (s : list X) :
  select m (map g s) = map g (select m s).
Proof.
  revert m. induction s as [|x s IH]; intros [|[] m]; simpl; try reflexivity.
  - now rewrite IH.
  - apply IH.
Qed.

Section Cascade.

Context `{Pandas}.

Lemma fill_format_map (fmt : string) (h : string -> option Timestamp)
    (s : list string) :
  fill_format fmt s (isna (map h s)) (map h s)
  = map (orelse h (to_datetime_format fmt)) s.
Proof.
  unfold fill_format. rewrite isna_map, loc_assign_map.
  apply map_ext. intros x. unfold orelse. now destruct (h x).
Qed.

Lemma orelse_unused (h f : string -> option Timestamp) (s : list string) :
  any (isna (map h s)) = false -> map (orelse h f) s = map h s.
Proof.
  rewrite isna_map. intros E. apply map_ext_in. intros x Hx.
  pose proof (any_map_false _ _ E x Hx) as Hn. cbv beta in Hn. unfold orelse.
  destruct (h x); [reflexivity | discriminate Hn].
Qed.

Lemma step_format (fmt : string) (h : string -> option Timestamp)
    (s : list string) :
  (if any (isna (map h s))
   then fill_format fmt s (isna (map h s)) (map h s) else map h s)
  = map (orelse h (to_datetime_format fmt)) s.
Proof.
  destruct (any (isna (map h s))) eqn:E.
  - apply fill_format_map.
  - symmetry. now apply orelse_unused.
Qed.

Lemma fill_serial_map (h : string -> option Timestamp) (s : list string) :
  fill_serial s (isna (map h s)) (map h s)
  = if any (map (fun x => is_none (h x) && is_some (to_numeric x)) s)
       && to_numeric_integer s
    then None
    else Some (map (orelse h serial_strategy) s).
Proof.
  unfold fill_serial.
  rewrite isna_map, (map_map to_numeric is_some), mask_and_map.
  set (b := fun x => is_none (h x) && is_some (to_numeric x)).
  destruct (any (map b s)) eqn:E; cbn [andb].
  - destruct (to_numeric_integer s); [reflexivity|]. f_equal.
    rewrite select_map, map_map.
    change (fun x => match to_numeric x with
                     | Some n => to_datetime_days "1899-12-30" n
                     | None => None
                     end) with serial_strategy.
    rewrite (loc_assign_map b h serial_strategy s).
    apply map_ext. intros x. unfold orelse, b, serial_strategy.
    destruct (h x); simpl; [reflexivity|]. now destruct (to_numeric x).
  - f_equal. apply map_ext_in. intros x Hx.
    pose proof (any_map_false _ _ E x Hx) as Hb. unfold b in Hb.
    unfold orelse, serial_strategy.
    destruct (h x); [reflexivity|]. simpl in Hb.
    destruct (to_numeric x); [discriminate Hb | reflexivity].
Qed.

(** The masked assignments of the view come to this: the serial step raises,
    or every text gets the value of the first strategy that yields one. *)
Lemma parse_time_dt_cascade (s : list Cell) :
  parse_time_dt s
  = if serial_raises (map time_text s) then None
    else Some (map (first_success (time_strategies (map time_text s)))
                   (map time_text s)).
Proof.
  unfold parse_time_dt. cbv zeta.
  set (s_str := map time_text s).
  set (h0 := fun x => to_datetime true (map CStr s_str) (CStr x)).
  rewrite (step_format "%d/%m/%Y %H:%M:%S" h0 s_str).
  rewrite (step_format "%m/%d/%Y %H:%M:%S").
  set (h2 := orelse (orelse h0 _) _).
  rewrite (fill_format_map "%H:%M:%S" h2 s_str).
  rewrite (fill_format_map "%H:%M").
  assert ((if any (isna (map h2 s_str))
           then map (orelse (orelse h2 (to_datetime_format "%H:%M:%S"))
                            (to_datetime_format "%H:%M")) s_str
           else map h2 s_str)
          = map (orelse (orelse h2 (to_datetime_format "%H:%M:%S"))
                        (to_datetime_format "%H:%M")) s_str) as ->.
  { destruct (any (isna (map h2 s_str))) eqn:E; [reflexivity|].
    apply map_ext_in. intros x Hx. rewrite isna_map in E.
    pose proof (any_map_false _ _ E x Hx) as Hn. cbv beta in Hn.
    unfold orelse at 1 2. destruct (h2 x); [reflexivity | discriminate Hn]. }
  set (h4 := orelse (orelse h2 _) _).
  assert (forall x, h4 x = first_success (text_strategies s_str) x) as Htext.
  { intros x. unfold text_strategies, first_success, h4, h2, orelse, h0.
    destruct (to_datetime true (map CStr s_str) (CStr x)); [reflexivity|].
    destruct (to_datetime_format "%d/%m/%Y %H:%M:%S" x); [reflexivity|].
    destruct (to_datetime_format "%m/%d/%Y %H:%M:%S" x); [reflexivity|].
    destruct (to_datetime_format "%H:%M:%S" x); [reflexivity|].
    destruct (to_datetime_format "%H:%M" x); reflexivity. }
  assert ((if any (isna (map h4 s_str))
           then fill_serial s_str (isna (map h4 s_str)) (map h4 s_str)
           else Some (map h4 s_str))
          = fill_serial s_str (isna (map h4 s_str)) (map h4 s_str)) as ->.
  { destruct (any (isna (map h4 s_str))) eqn:E; [reflexivity|].
    rewrite fill_serial_map.
    assert (any (map (fun x => is_none (h4 x) && is_some (to_numeric x)) s_str)
            = false) as ->.
    { rewrite isna_map in E. unfold any in *.
      destruct (existsb _ (map (fun x => is_none (h4 x) && _) s_str)) eqn:Eb;
        [|reflexivity].
      apply existsb_exists in Eb. destruct Eb as (b & Hb & ->).
      apply in_map_iff in Hb. destruct Hb as (x & Ex & Hx).
      assert (existsb (fun b => b) (map (fun x => is_none (h4 x)) s_str) = true)
        as Habs.
      { apply existsb_exists. exists true. split; [|reflexivity].
        apply in_map_iff. exists x. split; [|exact Hx].
        destruct (is_none (h4 x)); [reflexivity | discriminate Ex]. }
      congruence. }
    cbn [andb]. f_equal. symmetry. now apply orelse_unused. }
  rewrite fill_serial_map. unfold serial_raises.
  assert (map (fun x => is_none (h4 x) && is_some (to_numeric x)) s_str
          = map (fun x => is_none (first_success (text_strategies s_str) x)
                          && is_some (to_numeric x)) s_str) as ->
      by (apply map_ext; intros x; now rewrite Htext).
  destruct (_ && to_numeric_integer s_str); [reflexivity|]. f_equal.
  apply map_ext. intros x. unfold orelse. rewrite Htext.
  unfold time_strategies, text_strategies. cbn [app first_success].
  destruct (to_datetime true (map CStr s_str) (CStr x)); [reflexivity|].
  destruct (to_datetime_format "%d/%m/%Y %H:%M:%S" x); [reflexivity|].
  destruct (to_datetime_format "%m/%d/%Y %H:%M:%S" x); [reflexivity|].
  destruct (to_datetime_format "%H:%M:%S" x); [reflexivity|].
  destruct (to_datetime_format "%H:%M" x); [reflexivity|].
  now destruct (serial_strategy x).
Qed.

End Cascade.

(** C6, at a time column of whole numbers: the numbers that [to_numeric]
    gives have an integer dtype, on which the conversion to days raises
    TypeError, so the cell 45000 is not read as a day count: the view ends
    with the exception and the table is left as it was.  For every column the
    serial step raises exactly when a text that no text strategy reads is
    numeric and the column has an integer dtype.  The same number written as
    45000.0 is read as a day count, at midnight. *)
Theorem serial_step_raises_on_whole_numbers (users : list User) (st : Store) :
  cell_str (CInt 45000) = "45000"
  /\ parse_time (H := pandas_model) [CInt 45000] = None
  /\ upload_attendance (H := pandas_model) users st whole_number_table
     = (Unhandled, st)
  /\ parse_time (H := pandas_model) [CFloat (mkNum 450000 (-1))]
     = Some [Some (mkTime 0 0 0 0)]
  /\ (forall (P : Pandas) (s : list Cell),
        parse_time s = None <-> serial_raises (map time_text s) = true).
Proof.
  split; [reflexivity|]. split; [vm_compute; reflexivity|].
  split; [|split; [vm_compute; reflexivity|]].
  - unfold upload_attendance.
    match goal with
    | |- context [prepare ?df] =>
        let p := eval vm_compute in (prepare (H := pandas_model) df) in
        change (prepare (H := pandas_model) df) with p
    end.
    reflexivity.
  - intros P s. unfold parse_time. rewrite parse_time_dt_cascade.
    destruct (serial_raises (map time_text s)); cbn [option_map];
      split; intros E; try reflexivity; discriminate E.
Qed.

(** Where the serial step does not raise, the time column is parsed, cell
    by cell, by the first strategy that yields a value among: the generic
    day-first parse of the column, the formats day/month/year h:m:s,
    month/day/year h:m:s, h:m:s and h:m, and the reading of numeric text as
    days from 1899-12-30; the time of day is kept.  The text 9:15 gives
    09:15:00 and the number 45000.5 gives 12:00:00 (on 2023-03-15). *)
Theorem time_cascade_unless_serial_raises :
  (forall (P : Pandas) (s : list Cell),
     serial_raises (map time_text s) = false ->
     parse_time s
     = Some (map (fun x => option_map dt_time
                             (first_success (time_strategies (map time_text s)) x))
                 (map time_text s)))
  /\ (forall (P : Pandas) (s_str : list string),
        time_strategies s_str
        = [ (fun x => to_datetime true (map CStr s_str) (CStr x));
            to_datetime_format "%d/%m/%Y %H:%M:%S";
            to_datetime_format "%m/%d/%Y %H:%M:%S";
            to_datetime_format "%H:%M:%S";
            to_datetime_format "%H:%M";
            (fun x => match to_numeric x with
                      | Some n => to_datetime_days "1899-12-30" n
                      | None => None
                      end) ])
  /\ parse_time (H := pandas_model) [CStr "9:15"] = Some [Some (mkTime 9 15 0 0)]
  /\ parse_time (H := pandas_model) [CFloat (mkNum 450005 (-1))]
     = Some [Some (mkTime 12 0 0 0)]
  /\ option_map (map (option_map dt_date))
       (parse_time_dt (H := pandas_model) [CFloat (mkNum 450005 (-1))])
     = Some [Some (mkDate 2023 3 15)]
  /\ cell_str (CFloat (mkNum 450005 (-1))) = "45000.5".
Proof.
  split; [|split; [|split; [|split; [|split]]]].
  - intros P s E. unfold parse_time. rewrite parse_time_dt_cascade, E.
    cbn [option_map]. now rewrite map_map.
  - reflexivity.
  - vm_compute. reflexivity.
  - vm_compute. reflexivity.
  - vm_compute. reflexivity.
  - vm_compute. reflexivity.
Qed.

(** ** Day-first dates *)

Lemma range_In (lo : Z) (n : nat) (v : Z) :
  lo <= v < lo + Z.of_nat n -> In v (range lo n).
Proof.
  intros Hv. unfold range. apply in_map_iff.
  exists (Z.to_nat (v - lo)). split; [lia|].
  apply in_seq. lia.
Qed.











(** *** The calendar arithmetic *)

Lemma days_in_month_ge (y m : Z) : 28 <= Cal.days_in_month y m.
Proof.
  unfold Cal.days_in_month.
  destruct (m =? 2); [destruct (Cal.is_leap y); lia|].
  destruct ((m =? 4) || (m =? 6) || (m =? 9) || (m =? 11)); lia.
Qed.

Lemma year_of_era (yoe doy : Z) :
  0 <= yoe < 400 -> 0 <= doy <= 364 ->
  0 <= yoe * 365 + yoe / 4 - yoe / 100 + doy < 146097
  /\ (yoe * 365 + yoe / 4 - yoe / 100 + doy
      - (yoe * 365 + yoe / 4 - yoe / 100 + doy) / 1460
      + (yoe * 365 + yoe / 4 - yoe / 100 + doy) / 36524
      - (yoe * 365 + yoe / 4 - yoe / 100 + doy) / 146096) / 365 = yoe.
Proof.
  intros Hy Hd. split; Z.div_mod_to_equations; lia.
Qed.

Lemma month_of_day (mp d : Z) :
  0 <= mp <= 11 -> 1 <= d <= 28 ->
  0 <= (153 * mp + 2) / 5 + d - 1 <= 364
  /\ (5 * ((153 * mp + 2) / 5 + d - 1) + 2) / 153 = mp.
Proof.
  intros Hm Hd. split; Z.div_mod_to_equations; lia.
Qed.

Lemma civil_shape (y' mp d : Z) :
  0 <= mp <= 11 -> 1 <= d <= 28 ->
  Cal.civil_from_days
    (y' / 400 * 146097
     + ((y' - y' / 400 * 400) * 365 + (y' - y' / 400 * 400) / 4
        - (y' - y' / 400 * 400) / 100 + ((153 * mp + 2) / 5 + d - 1)) - 719468)
  = mkDate (if (if mp <? 10 then mp + 3 else mp - 9) <=? 2 then y' + 1 else y')
           (if mp <? 10 then mp + 3 else mp - 9) d.
Proof.
  intros Hm Hd.
  set (era := y' / 400). set (yoe := y' - era * 400).
  assert (0 <= yoe < 400) as Hyoe by (unfold yoe, era; Z.div_mod_to_equations; lia).
  destruct (month_of_day mp d Hm Hd) as [Hdoy Hmp].
  set (doy := (153 * mp + 2) / 5 + d - 1) in *.
  destruct (year_of_era yoe doy Hyoe Hdoy) as [Hdoe Hy].
  set (doe := yoe * 365 + yoe / 4 - yoe / 100 + doy) in *.
  unfold Cal.civil_from_days. cbv zeta.
  replace (era * 146097 + doe - 719468 + 719468) with (doe + era * 146097) by lia.
  rewrite Z.div_add by lia. rewrite (Z.div_small doe) by lia.
  replace (doe + era * 146097 - (0 + era) * 146097) with doe by lia.
  rewrite Hy.
  replace (doe - (365 * yoe + yoe / 4 - yoe / 100)) with doy by (unfold doe; lia).
  rewrite Hmp.
  replace (doy - (153 * mp + 2) / 5 + 1) with d by (unfold doy; lia).
  replace (yoe + (0 + era) * 400) with y' by (unfold yoe; lia).
  reflexivity.
Qed.

(** The day count of a date leads back to the date. *)
Lemma civil_roundtrip (y m d : Z) :
  1 <= m <= 12 -> 1 <= d <= 28 ->
  Cal.civil_from_days (Cal.days_from_civil y m d) = mkDate y m d.
Proof.
  intros Hm Hd. unfold Cal.days_from_civil. cbv zeta.
  destruct (m <=? 2) eqn:E; [apply Z.leb_le in E | apply Z.leb_gt in E].
  - rewrite civil_shape by lia.
    assert ((m + 9 <? 10) = false) as -> by (apply Z.ltb_ge; lia).
    replace (m + 9 - 9) with m by lia.
    assert ((m <=? 2) = true) as -> by (apply Z.leb_le; lia).
    f_equal. lia.
  - rewrite civil_shape by lia.
    assert ((m - 3 <? 10) = true) as -> by (apply Z.ltb_lt; lia).
    replace (m - 3 + 3) with m by lia.
    assert ((m <=? 2) = false) as -> by (apply Z.leb_gt; lia).
    reflexivity.
Qed.

Lemma is_leap_spec (y : Z) :
  Cal.is_leap y = true <-> (y mod 4 = 0 /\ (y mod 100 <> 0 \/ y mod 400 = 0)).
Proof.
  unfold Cal.is_leap.
  rewrite orb_true_iff, andb_true_iff, negb_true_iff, !Z.eqb_eq, Z.eqb_neq.
  split; [intros [[? ?]|?]|intros [? [?|?]]]; try tauto.
  split; [|tauto]. Z.div_mod_to_equations; lia.
Qed.

Lemma days_in_month_le (y m : Z) : Cal.days_in_month y m <= 31.
Proof.
  unfold Cal.days_in_month.
  destruct (m =? 2); [destruct (Cal.is_leap y); lia|].
  destruct ((m =? 4) || (m =? 6) || (m =? 9) || (m =? 11)); lia.
Qed.

Lemma year_of_era_leap (yoe doy : Z) :
  0 <= yoe < 400 -> 0 <= doy <= 365 ->
  (doy = 365 -> (yoe + 1) mod 4 = 0 /\ ((yoe + 1) mod 100 <> 0 \/ yoe = 399)) ->
  0 <= yoe * 365 + yoe / 4 - yoe / 100 + doy < 146097
  /\ (yoe * 365 + yoe / 4 - yoe / 100 + doy
      - (yoe * 365 + yoe / 4 - yoe / 100 + doy) / 1460
      + (yoe * 365 + yoe / 4 - yoe / 100 + doy) / 36524
      - (yoe * 365 + yoe / 4 - yoe / 100 + doy) / 146096) / 365 = yoe.
Proof.
  intros Hy Hd Hl. split; Z.div_mod_to_equations; lia.
Qed.

(** The day count of a date of March-based month [mp] leads back to it. *)
Lemma civil_shape_leap (y' mp d doy : Z) :
  doy = (153 * mp + 2) / 5 + d - 1 ->
  0 <= doy <= 365 ->
  (5 * doy + 2) / 153 = mp ->
  (doy = 365 ->
   ((y' - y' / 400 * 400) + 1) mod 4 = 0
   /\ (((y' - y' / 400 * 400) + 1) mod 100 <> 0 \/ y' - y' / 400 * 400 = 399)) ->
  Cal.civil_from_days
    (y' / 400 * 146097
     + ((y' - y' / 400 * 400) * 365 + (y' - y' / 400 * 400) / 4
        - (y' - y' / 400 * 400) / 100 + doy) - 719468)
  = mkDate (if (if mp <? 10 then mp + 3 else mp - 9) <=? 2 then y' + 1 else y')
           (if mp <? 10 then mp + 3 else mp - 9) d.
Proof.
  intros Edoy Hdoy Hmp Hleap.
  set (era := y' / 400) in *. set (yoe := y' - era * 400) in *.
  assert (0 <= yoe < 400) as Hyoe by (unfold yoe, era; Z.div_mod_to_equations; lia).
  destruct (year_of_era_leap yoe doy Hyoe Hdoy Hleap) as [Hdoe Hy].
  set (doe := yoe * 365 + yoe / 4 - yoe / 100 + doy) in *.
  unfold Cal.civil_from_days. cbv zeta.
  replace (era * 146097 + doe - 719468 + 719468) with (doe + era * 146097) by lia.
  rewrite Z.div_add by lia. rewrite (Z.div_small doe) by lia.
  replace (doe + era * 146097 - (0 + era) * 146097) with doe by lia.
  rewrite Hy.
  replace (doe - (365 * yoe + yoe / 4 - yoe / 100)) with doy by (unfold doe; lia).
  rewrite Hmp.
  replace (doy - (153 * mp + 2) / 5 + 1) with d by lia.
  replace (yoe + (0 + era) * 400) with y' by (unfold yoe; lia).
  reflexivity.
Qed.

Lemma month_of_day_full (mp d : Z) :
  0 <= mp <= 9 -> 1 <= d ->
  (153 * mp + 2) / 5 + d - 1 < (153 * (mp + 1) + 2) / 5 ->
  0 <= (153 * mp + 2) / 5 + d - 1 <= 365
  /\ (5 * ((153 * mp + 2) / 5 + d - 1) + 2) / 153 = mp.
Proof.
  intros Hm Hd Hlt. split; Z.div_mod_to_equations; lia.
Qed.

Lemma civil_roundtrip_full (y m d : Z) :
  1 <= m <= 12 -> 1 <= d <= Cal.days_in_month y m ->
  Cal.civil_from_days (Cal.days_from_civil y m d) = mkDate y m d.
Proof.
  intros Hm Hd.
  destruct (Z_le_gt_dec d 28) as [Hs|Hbig]; [apply civil_roundtrip; lia|].
  unfold Cal.days_from_civil. cbv zeta.
  destruct (m <=? 2) eqn:E; [apply Z.leb_le in E | apply Z.leb_gt in E].
  - assert (m = 1 \/ m = 2) as [-> | ->] by lia.
    + unfold Cal.days_in_month in Hd. simpl in Hd.
      rewrite (civil_shape_leap (y - 1) (1 + 9) d ((153 * (1 + 9) + 2) / 5 + d - 1));
        [change (1 + 9 <? 10) with false; cbv iota;
         change (1 + 9 - 9) with 1; change (1 <=? 2) with true; cbv iota;
         f_equal; lia | reflexivity | | | ].
      * change ((153 * (1 + 9) + 2) / 5) with 306. lia.
      * change ((153 * (1 + 9) + 2) / 5) with 306. Z.div_mod_to_equations; lia.
      * change ((153 * (1 + 9) + 2) / 5) with 306. lia.
    + unfold Cal.days_in_month in Hd. simpl in Hd.
      destruct (Cal.is_leap y) eqn:El; [|lia].
      apply is_leap_spec in El.
      rewrite (civil_shape_leap (y - 1) (2 + 9) d ((153 * (2 + 9) + 2) / 5 + d - 1));
        [change (2 + 9 <? 10) with false; cbv iota;
         change (2 + 9 - 9) with 2; change (2 <=? 2) with true; cbv iota;
         f_equal; lia | reflexivity | | | ].
      * change ((153 * (2 + 9) + 2) / 5) with 337. lia.
      * change ((153 * (2 + 9) + 2) / 5) with 337. Z.div_mod_to_equations; lia.
      * change ((153 * (2 + 9) + 2) / 5) with 337. intros _.
        Z.div_mod_to_equations; lia.
  - assert (d <= 31) by (pose proof (days_in_month_le y m); lia).
    assert ((153 * (m - 3) + 2) / 5 + d - 1 < (153 * (m - 3 + 1) + 2) / 5) as Hlt.
    { unfold Cal.days_in_month in Hd.
      assert ((m =? 2) = false) as E2 by (apply Z.eqb_neq; lia). rewrite E2 in Hd.
      destruct ((m =? 4) || (m =? 6) || (m =? 9) || (m =? 11)) eqn:E30.
      - rewrite !orb_true_iff, !Z.eqb_eq in E30.
        cbv iota in Hd.
        destruct E30 as [[[-> | ->] | ->] | ->]; Z.div_mod_to_equations; lia.
      - rewrite !orb_false_iff, !Z.eqb_neq in E30.
        assert (m = 3 \/ m = 5 \/ m = 7 \/ m = 8 \/ m = 10 \/ m = 12) as Hc by lia.
        cbv iota in Hd.
        repeat (destruct Hc as [->|Hc]); try subst m; Z.div_mod_to_equations; lia. }
    destruct (month_of_day_full (m - 3) d) as [Hdoy Hmp]; [lia | lia | exact Hlt |].
    rewrite (civil_shape_leap y (m - 3) d ((153 * (m - 3) + 2) / 5 + d - 1));
      [ | reflexivity | exact Hdoy | exact Hmp | ].
    + assert ((m - 3 <? 10) = true) as -> by (apply Z.ltb_lt; lia).
      replace (m - 3 + 3) with m by lia.
      assert ((m <=? 2) = false) as -> by (apply Z.leb_gt; lia).
      reflexivity.
    + intros E365. exfalso.
      assert ((153 * (m - 3 + 1) + 2) / 5 <= 306) by (Z.div_mod_to_equations; lia).
      lia.
Qed.










(** ** Rows without an identity *)

(** C8, at a row whose email cell holds only blanks: the cell becomes the
    empty string, which is not a missing value, so the row is kept, counted
    as a processed pair, and stored under the empty email. *)
Theorem blank_identity_row_is_stored (users : list User) :
  parse_email [CStr "   "; CNaN] = [Some ""; Some "nan"]
  /\ upload_attendance (H := pandas_model) users [] blank_email_table
     = (Uploaded ("date", "time", "email")
          {| total_rows := 1; total_pairs_any_time := 1; null_time_rows := 0;
             processed_pairs := 1; created := 1; updated := 0 |},
        [mkAttendance (find_user users "") (Some "") (mkDate 2024 5 1)
                      (Some (mkTime 9 0 0 0)) Present]).
Proof.
  split; [vm_compute; reflexivity|].
  unfold upload_attendance.
  match goal with
  | |- context [prepare ?df] =>
      let p := eval vm_compute in (prepare (H := pandas_model) df) in
      change (prepare (H := pandas_model) df) with p
  end.
  cbv beta iota.
  match goal with
  | |- context [earliest ?l] =>
      let e := eval vm_compute in (earliest l) in
      change (earliest l) with e
  end.
  rewrite upsert_rows_single. vm_compute. reflexivity.
Qed.

(** * Properties of the further views *)

(** ** More on Python strings *)

Lemma isspace_lower_char (c : ascii) :
  PyStr.isspace (PyStr.lower_char c) = PyStr.isspace c.
Proof. destruct c as [[] [] [] [] [] [] [] []]; reflexivity. Qed.

Lemma lstrip_lower (s : string) :
  PyStr.lstrip (PyStr.lower s) = PyStr.lower (PyStr.lstrip s).
Proof.
  induction s as [|c s IH]; simpl; [reflexivity|].
  rewrite isspace_lower_char. destruct (PyStr.isspace c); [exact IH | reflexivity].
Qed.

Lemma rstrip_lower (s : string) :
  PyStr.rstrip (PyStr.lower s) = PyStr.lower (PyStr.rstrip s).
Proof.
  induction s as [|c s IH]; simpl; [reflexivity|].
  rewrite IH, isspace_lower_char.
  destruct (PyStr.rstrip s); simpl; [destruct (PyStr.isspace c)|]; reflexivity.
Qed.

Lemma strip_lower (s : string) :
  PyStr.strip (PyStr.lower s) = PyStr.lower (PyStr.strip s).
Proof. unfold PyStr.strip. now rewrite lstrip_lower, rstrip_lower. Qed.

Lemma rstrip_idem (s : string) : PyStr.rstrip (PyStr.rstrip s) = PyStr.rstrip s.
Proof.
  induction s as [|c s IH]; simpl; [reflexivity|].
  destruct (PyStr.rstrip s) as [|c' r] eqn:E.
  - destruct (PyStr.isspace c) eqn:Ec; simpl; [reflexivity | now rewrite Ec].
  - change (PyStr.rstrip (String c (String c' r)))
      with (match PyStr.rstrip (String c' r) with
            | EmptyString => if PyStr.isspace c then EmptyString else String c EmptyString
            | r' => String c r'
            end).
    now rewrite IH.
Qed.

Lemma lstrip_head (s : string) :
  match PyStr.lstrip s with
  | EmptyString => True
  | String c _ => PyStr.isspace c = false
  end.
Proof.
  induction s as [|c s IH]; simpl; [exact I|].
  destruct (PyStr.isspace c) eqn:E; [exact IH | exact E].
Qed.

Lemma lstrip_rstrip_head (s : string) :
  match s with
  | EmptyString => True
  | String c _ => PyStr.isspace c = false
  end ->
  PyStr.lstrip (PyStr.rstrip s) = PyStr.rstrip s.
Proof.
  destruct s as [|c s]; [reflexivity|]. intros Hc. simpl.
  destruct (PyStr.rstrip s); rewrite ?Hc; simpl; rewrite ?Hc; reflexivity.
Qed.

Lemma strip_idem (s : string) : PyStr.strip (PyStr.strip s) = PyStr.strip s.
Proof.
  unfold PyStr.strip.
  rewrite (lstrip_rstrip_head _ (lstrip_head s)). apply rstrip_idem.
Qed.

(** ** Linking rows to accounts *)

Lemma link_blank (user : User) (st : Store) :
  PyStr.strip (user_email user) = "" -> link_attendance_to_user user st = st.
Proof. intros E. unfold link_attendance_to_user. now rewrite E. Qed.

Lemma link_columns (user : User) (st : Store) :
  map employee_email (link_attendance_to_user user st) = map employee_email st
  /\ map date (link_attendance_to_user user st) = map date st
  /\ map check_in_time (link_attendance_to_user user st) = map check_in_time st
  /\ map status (link_attendance_to_user user st) = map status st.
Proof.
  unfold link_attendance_to_user.
  destruct (String.eqb _ ""); [repeat split|].
  rewrite !map_map.
  repeat split; apply map_ext; intros r;
    destruct (is_none (employee r) && email_iexact _ _); reflexivity.
Qed.

Lemma link_stored (user : User) (st : Store) (k : Key) :
  stored (link_attendance_to_user user st) k
  = link_attendance_to_user user (stored st k).
Proof.
  unfold stored, link_attendance_to_user.
  destruct (String.eqb _ ""); [reflexivity|].
  induction st as [|r st IH]; simpl; [reflexivity|].
  assert (matches (fst k) (snd k)
            (if is_none (employee r) && email_iexact (employee_email r)
                                          (PyStr.lower (PyStr.strip (user_email user)))
             then mkAttendance (Some user) (employee_email r) (date r)
                               (check_in_time r) (status r)
             else r)
          = matches (fst k) (snd k) r) as ->
      by (destruct (is_none (employee r) && email_iexact _ _); reflexivity).
  destruct (matches (fst k) (snd k) r); simpl; now rewrite IH.
Qed.

Lemma link_length (user : User) (st : Store) :
  List.length (link_attendance_to_user user st) = List.length st.
Proof.
  unfold link_attendance_to_user.
  destruct (String.eqb _ ""); [reflexivity | apply length_map].
Qed.

(** Linking touches nothing but the account of orphan rows whose email is
    the account's: the table keeps its length and its email, date, time and
    status columns, and each row is either unchanged or was an orphan row with
    the account's email and now carries the account. *)
Theorem link_changes_only_orphans (user : User) (st : Store) :
  List.length (link_attendance_to_user user st) = List.length st
  /\ map employee_email (link_attendance_to_user user st) = map employee_email st
  /\ map date (link_attendance_to_user user st) = map date st
  /\ map check_in_time (link_attendance_to_user user st) = map check_in_time st
  /\ map status (link_attendance_to_user user st) = map status st
  /\ Forall2 (fun r r' =>
                r' = r
                \/ (employee r = None
                    /\ PyStr.strip (user_email user) <> ""
                    /\ email_iexact (employee_email r)
                         (PyStr.lower (PyStr.strip (user_email user))) = true
                    /\ employee r' = Some user))
             st (link_attendance_to_user user st).
Proof.
  split; [apply link_length|].
  destruct (link_columns user st) as (H1 & H2 & H3 & H4).
  repeat (split; [assumption|]).
  unfold link_attendance_to_user.
  destruct (String.eqb (PyStr.lower (PyStr.strip (user_email user))) "") eqn:E.
  - clear H1 H2 H3 H4. induction st as [|r st IH]; constructor; [now left | exact IH].
  - assert (PyStr.strip (user_email user) <> "") as Hne.
    { intros Eq. rewrite Eq in E. discriminate E. }
    clear H1 H2 H3 H4.
    induction st as [|r st IH]; simpl; constructor; [|exact IH].
    destruct (employee r) eqn:Er; simpl; [now left|].
    destruct (email_iexact (employee_email r) _) eqn:Em; [|now left].
    right. repeat split; assumption.
Qed.

Lemma lower_strip_nonempty (s : string) :
  PyStr.strip s <> "" -> String.eqb (PyStr.lower (PyStr.strip s)) "" = false.
Proof.
  intros Hne. apply String.eqb_neq. intros E. apply Hne. now apply lower_empty.
Qed.

(** A row that the lookup of the link matches carries an account after the
    link. *)
Lemma link_no_orphan (user : User) (st : Store) (r : Attendance) :
  PyStr.strip (user_email user) <> "" ->
  In r (link_attendance_to_user user st) ->
  email_iexact (employee_email r) (PyStr.lower (PyStr.strip (user_email user)))
  = true ->
  employee r <> None.
Proof.
  intros Hne Hin Hm. unfold link_attendance_to_user in Hin.
  rewrite (lower_strip_nonempty _ Hne) in Hin.
  apply in_map_iff in Hin. destruct Hin as (r0 & <- & _).
  destruct (employee r0) eqn:E0; cbn [is_none andb] in *.
  - rewrite E0. discriminate.
  - destruct (email_iexact (employee_email r0)
                (PyStr.lower (PyStr.strip (user_email user)))) eqn:Em.
    + cbn. discriminate.
    + rewrite Em in Hm. discriminate Hm.
Qed.

(** After linking an account whose email is not blank, no row that the
    lookup of the link matches is left without an account: no row whose
    email is the account's stripped and lower-cased email up to the case of
    the letters A to Z.  Where lower-casing the account's email changes only
    letters A to Z, these are the rows whose email is the account's
    stripped email up to that case. *)
Theorem link_leaves_no_orphan (user : User) (st : Store) (r : Attendance) :
  PyStr.strip (user_email user) <> "" ->
  In r (link_attendance_to_user user st) ->
  (email_iexact (employee_email r) (PyStr.lower (PyStr.strip (user_email user)))
   = true ->
   employee r <> None)
  /\ (Sqlite.nocase (PyStr.strip (user_email user))
      = PyStr.lower (PyStr.strip (user_email user)) ->
      email_iexact (employee_email r) (PyStr.strip (user_email user)) = true ->
      employee r <> None).
Proof.
  intros Hne Hin. split; [now apply (link_no_orphan user st)|].
  intros Hfold Hm. apply (link_no_orphan user st r Hne Hin).
  unfold email_iexact in *. destruct (employee_email r); [|discriminate Hm].
  now rewrite nocase_lower, <- Hfold.
Qed.

Lemma link_leaves_no_orphan_witness :
  (email_iexact (Some "a@x.com") (PyStr.lower (PyStr.strip " A@x.com ")) = true ->
   employee (mkAttendance (Some (mkUser 7 " A@x.com ")) (Some "a@x.com")
                          (mkDate 2024 5 1) None Absent) <> None)
  /\ (Sqlite.nocase (PyStr.strip " A@x.com ") = PyStr.lower (PyStr.strip " A@x.com ") ->
      email_iexact (Some "a@x.com") (PyStr.strip " A@x.com ") = true ->
      employee (mkAttendance (Some (mkUser 7 " A@x.com ")) (Some "a@x.com")
                             (mkDate 2024 5 1) None Absent) <> None).
Proof.
  apply (link_leaves_no_orphan (mkUser 7 " A@x.com ")
           [mkAttendance None (Some "a@x.com") (mkDate 2024 5 1) None Absent]
           (mkAttendance (Some (mkUser 7 " A@x.com ")) (Some "a@x.com")
                         (mkDate 2024 5 1) None Absent)).
  - vm_compute. discriminate.
  - vm_compute. left. reflexivity.
Defined.

(** Linking the same account twice is the same as linking it once. *)
Theorem link_idempotent (user : User) (st : Store) :
  link_attendance_to_user user (link_attendance_to_user user st)
  = link_attendance_to_user user st.
Proof.
  unfold link_attendance_to_user.
  destruct (String.eqb (PyStr.lower (PyStr.strip (user_email user))) "") eqn:E;
    [reflexivity|].
  rewrite map_map. apply map_ext. intros r.
  destruct (is_none (employee r) && email_iexact (employee_email r) _) eqn:Eb.
  - reflexivity.
  - now rewrite Eb.
Qed.

Lemma link_unique_store (user : User) (st : Store) :
  unique_store (link_attendance_to_user user st) <-> unique_store st.
Proof.
  unfold unique_store. split; intros Hu k; specialize (Hu k);
    rewrite link_stored, link_length in *; exact Hu.
Qed.

(** Linking neither breaks nor repairs the unique constraint, and the rows
    agree with their check-in time after it exactly when they did before. *)
Theorem link_preserves_invariants (user : User) (st : Store) :
  (unique_store (link_attendance_to_user user st) <-> unique_store st)
  /\ (Forall status_consistent (link_attendance_to_user user st)
      <-> Forall status_consistent st).
Proof.
  split; [apply link_unique_store|].
  destruct (link_columns user st) as (_ & _ & Ht & Hs).
  revert Ht Hs. generalize (link_attendance_to_user user st) as st'.
  induction st as [|r st IH]; intros [|r' st'] Ht Hs; simpl in *;
    try discriminate; [split; constructor|].
  inversion Ht. inversion Hs.
  split; intros Hall; inversion Hall; subst; constructor;
    try (apply (IH st'); assumption);
    unfold status_consistent in *; congruence.
Qed.

(** Two accounts whose normalised emails differ can be linked in either
    order. *)
Theorem link_commutes (u1 u2 : User) (st : Store) :
  PyStr.lower (PyStr.strip (user_email u1))
  <> PyStr.lower (PyStr.strip (user_email u2)) ->
  link_attendance_to_user u1 (link_attendance_to_user u2 st)
  = link_attendance_to_user u2 (link_attendance_to_user u1 st).
Proof.
  intros Hne. unfold link_attendance_to_user.
  set (e1 := PyStr.lower (PyStr.strip (user_email u1))) in *.
  set (e2 := PyStr.lower (PyStr.strip (user_email u2))) in *.
  destruct (String.eqb e1 "") eqn:E1; destruct (String.eqb e2 "") eqn:E2;
    try reflexivity.
  rewrite !map_map. apply map_ext. intros r.
  destruct r as [emp em d t s].
  cbn [employee employee_email date check_in_time status].
  destruct emp as [u|]; cbn [is_none andb employee employee_email]; [reflexivity|].
  destruct (email_iexact em e1) eqn:M1; destruct (email_iexact em e2) eqn:M2;
    cbn [employee employee_email date check_in_time status is_none andb];
    rewrite ?M1, ?M2; try reflexivity.
  exfalso. apply Hne. unfold email_iexact in M1, M2.
  destruct em; [|discriminate].
    apply String.eqb_eq in M1, M2. unfold e1, e2 in *.
    rewrite nocase_lower in M1, M2. congruence.
Qed.

Lemma link_commutes_witness :
  link_attendance_to_user (mkUser 1 "a@x.com")
    (link_attendance_to_user (mkUser 2 "b@y.com")
       [mkAttendance None (Some "a@x.com") (mkDate 2024 5 1) None Absent])
  = link_attendance_to_user (mkUser 2 "b@y.com")
      (link_attendance_to_user (mkUser 1 "a@x.com")
         [mkAttendance None (Some "a@x.com") (mkDate 2024 5 1) None Absent]).
Proof.
  apply (link_commutes (mkUser 1 "a@x.com") (mkUser 2 "b@y.com")).
  vm_compute. discriminate.
Defined.

Section LinkAfterUpload.

Context `{Pandas}.

(** Linking a registered account does not change the rows an upload has
    just written, provided the upload finds the account under the email that
    the link looks up: the account's email has no outer blanks and no
    capital letter other than A to Z.  The upload has then already given each
    row the account its email resolves to. *)
Theorem link_after_upload_unchanged (users : list User) (st : Store)
    (df0 : DataFrame) (user : User) (g : CleanRow) :
  unique_store st ->
  In user users ->
  Sqlite.nocase (user_email user) = PyStr.lower (PyStr.strip (user_email user)) ->
  In g (processed df0) ->
  stored (link_attendance_to_user user (snd (upload_attendance users st df0)))
         (key_of g)
  = stored (snd (upload_attendance users st df0)) (key_of g).
Proof.
  intros Hu Hin Hs Hg.
  destruct (upload_overwrites users st df0 Hu) as (_ & S & _).
  rewrite link_stored, (S g Hg). unfold link_attendance_to_user.
  destruct (String.eqb _ ""); [reflexivity|].
  cbn [map employee employee_email].
  destruct (find_user users (c_email g)) as [u|] eqn:Ef; [reflexivity|].
  cbn [is_none andb].
  destruct (email_iexact (Some (c_email g)) _) eqn:Em; [|reflexivity].
  exfalso. unfold email_iexact in Em. apply String.eqb_eq in Em.
  rewrite nocase_lower, <- Hs in Em.
  pose proof (proj1 (find_user_none users (c_email g)) Ef user Hin) as Hn.
  unfold iexact in Hn. rewrite Em, String.eqb_refl in Hn. discriminate.
Qed.

End LinkAfterUpload.

Lemma link_after_upload_unchanged_witness :
  stored (link_attendance_to_user (mkUser 7 "A@x.com")
            (snd (upload_attendance (H := pandas_model)
                    [mkUser 7 "A@x.com"] [] scenario_table)))
         (key_of (mkCleanRow "a@x.com" (mkDate 2024 5 1) (mkTime 8 30 0 0)))
  = stored (snd (upload_attendance (H := pandas_model)
                   [mkUser 7 "A@x.com"] [] scenario_table))
           (key_of (mkCleanRow "a@x.com" (mkDate 2024 5 1) (mkTime 8 30 0 0))).
Proof.
  apply (link_after_upload_unchanged (H := pandas_model)
           [mkUser 7 "A@x.com"] [] scenario_table (mkUser 7 "A@x.com")).
  - intros k. simpl. lia.
  - left. reflexivity.
  - vm_compute. reflexivity.
  - vm_compute. left. reflexivity.
Defined.

(** ** Signing up *)

Lemma existsb_iexact (users : list User) (e : string) :
  existsb (iexact e) users = true
  <-> exists u, In u users /\ Sqlite.nocase (user_email u) = Sqlite.nocase e.
Proof.
  rewrite existsb_exists. unfold iexact.
  split; intros (u & Hu & E); exists u; (split; [assumption|]);
    [now apply String.eqb_eq | now apply String.eqb_eq].
Qed.

(** An accepted email is the field stripped and lower-cased, and resolves to
    no account. *)
Lemma clean_email_accepted (users : list User) (email_field e : string) :
  clean_email users email_field = Some e ->
  e = PyStr.lower (PyStr.strip email_field)
  /\ PyStr.lower e = e /\ PyStr.strip e = e
  /\ find_user users e = None.
Proof.
  unfold clean_email.
  destruct (existsb (iexact (PyStr.lower (PyStr.strip email_field))) users) eqn:E;
    [discriminate|].
  intros Ee. inversion Ee; subst. repeat split.
  - apply lower_idem.
  - now rewrite strip_lower, strip_idem.
  - apply find_user_none. intros u Hu.
    destruct (iexact _ u) eqn:Ei; [|reflexivity].
    assert (existsb (iexact (PyStr.lower (PyStr.strip email_field))) users = true)
      as Habs by (apply existsb_exists; now exists u).
    congruence.
Qed.

(** [clean_email] rejects the field exactly when the lookup finds an
    account: one whose email, with its letters A to Z lower-cased, is the
    field stripped and lower-cased.  An accepted email is the field stripped
    and lower-cased, is left alone by another strip or lower, and resolves to
    no account yet. *)
Theorem clean_email_spec (users : list User) (email_field : string) :
  (clean_email users email_field = None
   <-> exists u, In u users
                 /\ Sqlite.nocase (user_email u)
                    = PyStr.lower (PyStr.strip email_field))
  /\ (forall e, clean_email users email_field = Some e ->
        e = PyStr.lower (PyStr.strip email_field)
        /\ PyStr.lower e = e /\ PyStr.strip e = e
        /\ find_user users e = None).
Proof.
  split; [|apply clean_email_accepted].
  unfold clean_email.
  destruct (existsb (iexact (PyStr.lower (PyStr.strip email_field))) users) eqn:E.
  - split; [intros _|reflexivity].
    apply existsb_iexact in E. destruct E as (u & Hu & Eu).
    exists u. split; [assumption|]. now rewrite nocase_lower in Eu.
  - split; [discriminate|]. intros (u & Hu & Eu).
    assert (existsb (iexact (PyStr.lower (PyStr.strip email_field))) users = true)
      as Habs by (apply existsb_iexact; exists u; now rewrite nocase_lower).
    congruence.
Qed.

Lemma signup_view_accepted (users : list User) (st : Store) (pk : Z)
    (email_field e : string) :
  clean_email users email_field = Some e ->
  signup_view users st pk email_field
  = (users ++ [mkUser pk e], link_attendance_to_user (mkUser pk e) st)
  /\ PyStr.lower e = e /\ PyStr.strip e = e /\ find_user users e = None.
Proof.
  intros E.
  destruct (clean_email_accepted users email_field e E) as (He & Hl & Hs & Hf).
  unfold signup_view, SignupForm_save. rewrite E, Hs, Hl. auto.
Qed.

(** A lower-cased email is its own folding. *)
Lemma nocase_fixed (e : string) : PyStr.lower e = e -> Sqlite.nocase e = e.
Proof. intros <-. apply nocase_lower. Qed.

(** Signing up never makes two accounts share an email, as the lookup
    compares them. *)
Theorem signup_keeps_emails_unique (users : list User) (st : Store) (pk : Z)
    (email_field : string) :
  emails_unique users ->
  emails_unique (fst (signup_view users st pk email_field)).
Proof.
  intros Hu. destruct (clean_email users email_field) as [e|] eqn:E.
  - destruct (signup_view_accepted users st pk email_field e E) as (-> & Hl & _ & Hf).
    unfold emails_unique in *. cbn [fst]. rewrite map_app. cbn [map user_email].
    apply NoDup_app_remove_l with (l := []). simpl.
    apply Permutation_NoDup
      with (l := Sqlite.nocase e :: map (fun u => Sqlite.nocase (user_email u)) users).
    + apply Permutation_cons_append.
    + constructor; [|exact Hu]. intros Hin. apply in_map_iff in Hin.
      destruct Hin as (u & Eu & Hin).
      pose proof (proj1 (find_user_none users e) Hf u Hin) as Hn.
      unfold iexact in Hn. rewrite Eu, String.eqb_refl in Hn. discriminate.
  - unfold signup_view. rewrite E. exact Hu.
Qed.

Lemma signup_keeps_emails_unique_witness :
  emails_unique (fst (signup_view [mkUser 1 "b@y.com"] [] 2 " A@x.com ")).
Proof.
  apply (signup_keeps_emails_unique [mkUser 1 "b@y.com"] [] 2 " A@x.com ").
  unfold emails_unique. simpl. constructor; [intros [] | constructor].
Defined.

(** The new account is the one its email resolves to. *)
Lemma find_user_new_account (users : list User) (pk : Z) (e : string) :
  find_user users e = None ->
  find_user (users ++ [mkUser pk e]) e = Some (mkUser pk e).
Proof.
  intros Hf. unfold find_user. rewrite filter_app.
  rewrite (filter_none (iexact e) users (proj1 (find_user_none users e) Hf)).
  cbn [filter app]. unfold iexact at 1. cbn [user_email].
  now rewrite String.eqb_refl.
Qed.

(** After an accepted signup the email resolves to the new account, every
    email that the lookup does not take for it resolves as before, and no
    stored row that the lookup takes for it is left without an account. *)
Theorem signup_resolves_to_new_account (users : list User) (st : Store)
    (pk : Z) (email_field e : string) :
  clean_email users email_field = Some e ->
  fst (signup_view users st pk email_field) = users ++ [mkUser pk e]
  /\ find_user (users ++ [mkUser pk e]) e = Some (mkUser pk e)
  /\ (forall e', Sqlite.nocase e' <> e ->
        find_user (users ++ [mkUser pk e]) e' = find_user users e')
  /\ (e <> "" ->
      forall r, In r (snd (signup_view users st pk email_field)) ->
                email_iexact (employee_email r) e = true ->
                employee r <> None).
Proof.
  intros E.
  destruct (signup_view_accepted users st pk email_field e E) as (Ev & Hl & Hs & Hf).
  rewrite Ev. cbn [fst snd]. split; [reflexivity|]. split; [|split].
  - now apply find_user_new_account.
  - intros e' Hne. unfold find_user. rewrite filter_app. cbn [filter].
    assert (iexact e' (mkUser pk e) = false) as ->.
    { unfold iexact. cbn [user_email]. apply String.eqb_neq.
      rewrite (nocase_fixed e Hl). congruence. }
    now rewrite app_nil_r.
  - intros Hne r Hr Hm.
    apply (link_no_orphan (mkUser pk e) st r); cbn [user_email];
      rewrite ?Hs, ?Hl; assumption.
Qed.

Lemma signup_resolves_to_new_account_witness :
  fst (signup_view [mkUser 1 "b@y.com"] [] 2 " A@x.com ")
  = [mkUser 1 "b@y.com"] ++ [mkUser 2 "a@x.com"]
  /\ find_user ([mkUser 1 "b@y.com"] ++ [mkUser 2 "a@x.com"]) "a@x.com"
     = Some (mkUser 2 "a@x.com")
  /\ (forall e', Sqlite.nocase e' <> "a@x.com" ->
        find_user ([mkUser 1 "b@y.com"] ++ [mkUser 2 "a@x.com"]) e'
        = find_user [mkUser 1 "b@y.com"] e')
  /\ ("a@x.com" <> "" ->
      forall r, In r (snd (signup_view [mkUser 1 "b@y.com"] [] 2 " A@x.com ")) ->
                email_iexact (employee_email r) "a@x.com" = true ->
                employee r <> None).
Proof.
  apply (signup_resolves_to_new_account [mkUser 1 "b@y.com"] [] 2 " A@x.com " "a@x.com").
  vm_compute. reflexivity.
Defined.

Section UploadAfterSignup.

Context `{Pandas}.

(** An upload that follows an accepted signup gives the rows of the new
    account's email that account. *)
Theorem upload_after_signup_links_account (users : list User) (st : Store)
    (pk : Z) (email_field e : string) (df0 : DataFrame) (g : CleanRow) :
  clean_email users email_field = Some e ->
  unique_store st ->
  In g (processed df0) ->
  c_email g = e ->
  stored (snd (upload_attendance (fst (signup_view users st pk email_field))
                 (snd (signup_view users st pk email_field)) df0))
         (key_of g)
  = [mkAttendance (Some (mkUser pk e)) (Some e) (c_date g)
                  (Some (c_time g)) Present].
Proof.
  intros E Hu Hg He.
  destruct (signup_view_accepted users st pk email_field e E) as (Es & _ & _ & Hn).
  pose proof (find_user_new_account users pk e Hn) as Hf.
  rewrite Es. cbn [fst snd].
  assert (unique_store (link_attendance_to_user (mkUser pk e) st)) as Hu'
      by now apply link_unique_store.
  destruct (upload_overwrites (users ++ [mkUser pk e]) _ df0 Hu') as (_ & S & _).
  rewrite (S g Hg), He, Hf. reflexivity.
Qed.

End UploadAfterSignup.

Lemma upload_after_signup_links_account_witness :
  stored (snd (upload_attendance (H := pandas_model)
                 (fst (signup_view [] [] 7 " A@x.com "))
                 (snd (signup_view [] [] 7 " A@x.com ")) scenario_table))
         (key_of (mkCleanRow "a@x.com" (mkDate 2024 5 1) (mkTime 8 30 0 0)))
  = [mkAttendance (Some (mkUser 7 "a@x.com")) (Some "a@x.com")
                  (c_date (mkCleanRow "a@x.com" (mkDate 2024 5 1) (mkTime 8 30 0 0)))
                  (Some (c_time (mkCleanRow "a@x.com" (mkDate 2024 5 1) (mkTime 8 30 0 0))))
                  Present].
Proof.
  apply (upload_after_signup_links_account (H := pandas_model) [] [] 7
           " A@x.com " "a@x.com" scenario_table).
  - vm_compute. reflexivity.
  - intros k. simpl. lia.
  - vm_compute. left. reflexivity.
  - reflexivity.
Defined.

(** ** Names *)

Lemma rstrip_head (s : string) :
  match s with
  | EmptyString => True
  | String c _ => PyStr.isspace c = false
  end ->
  match PyStr.rstrip s with
  | EmptyString => s = EmptyString
  | String c _ => PyStr.isspace c = false
  end.
Proof.
  destruct s as [|c s]; [reflexivity|]. intros Hc. simpl.
  destruct (PyStr.rstrip s); [rewrite Hc|]; exact Hc.
Qed.

Lemma strip_head (s : string) :
  match PyStr.strip s with
  | EmptyString => True
  | String c _ => PyStr.isspace c = false
  end.
Proof.
  unfold PyStr.strip. pose proof (rstrip_head _ (lstrip_head s)) as H.
  destruct (PyStr.rstrip (PyStr.lstrip s)); [exact I | exact H].
Qed.

Lemma strip_rstrip (s : string) : PyStr.rstrip (PyStr.strip s) = PyStr.strip s.
Proof. apply rstrip_idem. Qed.

Lemma lstrip_nonspace_head (s : string) :
  match s with
  | EmptyString => True
  | String c _ => PyStr.isspace c = false
  end ->
  PyStr.lstrip s = s.
Proof. destruct s as [|c s]; [reflexivity|]. intros Hc. simpl. now rewrite Hc. Qed.

Lemma rstrip_app_kept (x b : string) :
  PyStr.rstrip b = b -> b <> EmptyString ->
  PyStr.rstrip (x ++ b) = (x ++ b)%string.
Proof.
  intros Hb Hne. induction x as [|c x IH]; [exact Hb|].
  change (String c x ++ b)%string with (String c (x ++ b)).
  change (PyStr.rstrip (String c (x ++ b)))
    with (match PyStr.rstrip (x ++ b) with
          | EmptyString => if PyStr.isspace c then EmptyString else String c EmptyString
          | r => String c r
          end).
  rewrite IH. destruct (x ++ b)%string eqn:E; [|reflexivity].
  destruct x; simpl in E; [contradiction | discriminate].
Qed.

Lemma rstrip_app_blank (a : string) :
  PyStr.rstrip (a ++ " ") = PyStr.rstrip a.
Proof.
  induction a as [|c a IH]; [reflexivity|].
  change (PyStr.rstrip (String c a ++ " "))
    with (match PyStr.rstrip (a ++ " ") with
          | EmptyString => if PyStr.isspace c then EmptyString else String c EmptyString
          | r => String c r
          end).
  now rewrite IH.
Qed.

Lemma append_assoc_str (a b c : string) :
  ((a ++ b) ++ c)%string = (a ++ (b ++ c))%string.
Proof. induction a as [|x a IH]; simpl; [reflexivity | now rewrite IH]. Qed.

(** The full name is the two trimmed name parts, joined by one blank when
    both are there; it carries no outer blanks. *)
Lemma full_name_cases (n : Names) :
  full_name n
  = (if String.eqb (PyStr.strip (first_name n)) "" then PyStr.strip (last_name n)
     else if String.eqb (PyStr.strip (last_name n)) "" then PyStr.strip (first_name n)
          else PyStr.strip (first_name n) ++ " " ++ PyStr.strip (last_name n))%string.
Proof.
  unfold full_name.
  pose proof (strip_head (first_name n)) as Ha.
  pose proof (strip_head (last_name n)) as Hb.
  pose proof (strip_rstrip (first_name n)) as Ra.
  pose proof (strip_rstrip (last_name n)) as Rb.
  set (a := PyStr.strip (first_name n)) in *.
  set (b := PyStr.strip (last_name n)) in *.
  destruct (String.eqb a "") eqn:Ea.
  - apply String.eqb_eq in Ea. rewrite Ea.
    change (PyStr.strip ("" ++ " " ++ b)) with (PyStr.rstrip (PyStr.lstrip b)).
    now rewrite (lstrip_nonspace_head b Hb).
  - apply String.eqb_neq in Ea.
    assert (forall x, PyStr.lstrip (a ++ x) = (a ++ x)%string) as La.
    { intros x. destruct a as [|c a']; [contradiction|]. simpl. now rewrite Ha. }
    unfold PyStr.strip at 1. rewrite La.
    destruct (String.eqb b "") eqn:Eb.
    + apply String.eqb_eq in Eb. rewrite Eb.
      change (a ++ " " ++ "")%string with (a ++ " ")%string.
      now rewrite rstrip_app_blank.
    + apply String.eqb_neq in Eb.
      replace (a ++ " " ++ b)%string with ((a ++ " ") ++ b)%string
        by apply append_assoc_str.
      now apply rstrip_app_kept.
Qed.

(** [display_name] is the trimmed full name when a name part is given, else
    the username when there is one, else the email; it is empty only when
    all four are. *)
Theorem display_name_spec (n : Names) (user : User) :
  PyStr.strip (full_name n) = full_name n
  /\ (full_name n = ""
      <-> PyStr.strip (first_name n) = "" /\ PyStr.strip (last_name n) = "")
  /\ (full_name n <> "" -> display_name n user = full_name n)
  /\ (full_name n = "" -> username n <> "" -> display_name n user = username n)
  /\ (full_name n = "" -> username n = "" ->
      display_name n user = user_email user)
  /\ (display_name n user = ""
      <-> PyStr.strip (first_name n) = "" /\ PyStr.strip (last_name n) = ""
          /\ username n = "" /\ user_email user = "").
Proof.
  assert (full_name n = ""
          <-> PyStr.strip (first_name n) = "" /\ PyStr.strip (last_name n) = "") as Hempty.
  { rewrite full_name_cases.
    destruct (String.eqb (PyStr.strip (first_name n)) "") eqn:Ea.
    - apply String.eqb_eq in Ea. tauto.
    - apply String.eqb_neq in Ea.
      destruct (String.eqb (PyStr.strip (last_name n)) "") eqn:Eb.
      + tauto.
      + split; [|tauto]. intros E.
        destruct (PyStr.strip (first_name n)); [contradiction | discriminate]. }
  split; [apply strip_idem|]. split; [exact Hempty|].
  unfold display_name, or_str. split; [|split; [|split]].
  - intros Hne. apply String.eqb_neq in Hne. now rewrite Hne.
  - intros He Hu. rewrite He. simpl. apply String.eqb_neq in Hu. now rewrite Hu.
  - intros He Hu. rewrite He, Hu. reflexivity.
  - destruct (String.eqb (full_name n) "") eqn:Ef;
      [apply String.eqb_eq in Ef | apply String.eqb_neq in Ef].
    + destruct (String.eqb (username n) "") eqn:Eu;
        [apply String.eqb_eq in Eu | apply String.eqb_neq in Eu]; tauto.
    + tauto.
Qed.

(** ** Report and export rows *)

Lemma save_employee_email_some (r : Attendance) :
  employee_email r <> None -> employee_email (Attendance_save r) <> None.
Proof.
  unfold Attendance_save. simpl. intros Hne.
  destruct (employee r); [|exact Hne].
  match goal with |- context [if ?c then _ else _] => destruct c end;
    [discriminate | exact Hne].
Qed.

(** The rows of the table after [update_or_create]: rows it held before, or
    the object it returns, which has an email. *)
Lemma update_or_create_identity (st : Store) (eml : string) (d : Date)
    (dflt : Defaults) (st' : Store) (obj : Attendance) (c : bool) :
  update_or_create st eml d dflt = Upserted st' obj c ->
  employee_email obj <> None
  /\ (forall r, In r st' -> In r st \/ r = obj).
Proof.
  unfold update_or_create.
  destruct (filter (matches eml d) st) as [|old [|y l]] eqn:E; intros Eq;
    inversion Eq; subst; clear Eq.
  - split; [apply save_employee_email_some; discriminate|].
    intros r Hr. apply in_app_or in Hr. destruct Hr as [Hr|[<-|[]]]; auto.
  - assert (In old (filter (matches eml d) st)) as Hold by (rewrite E; now left).
    apply filter_In in Hold. destruct Hold as [Hin Hm].
    apply matches_spec in Hm. destruct Hm as [He Hd].
    split; [apply save_employee_email_some; simpl; rewrite He; discriminate|].
    intros r Hr. apply in_map_iff in Hr. destruct Hr as (x & <- & Hx).
    destruct (matches eml d x) eqn:Ex; [|now left].
    right. apply matches_spec in Ex. destruct Ex as [Ex1 Ex2].
    now rewrite Ex1, Ex2, He, Hd.
Qed.

Lemma upsert_rows_identity (users : list User) (rows : list CleanRow) :
  forall (st : Store) (c u : nat) res st',
    upsert_rows users st rows c u = (res, st') ->
    Forall has_identity st -> Forall has_identity st'.
Proof.
  induction rows as [|row rest IH]; intros st c u res st' E Hall; simpl in E.
  - inversion E; subst. exact Hall.
  - destruct (update_or_create st _ _ _) as [st1 obj b|] eqn:Eu.
    + destruct (update_or_create_identity _ _ _ _ _ _ _ Eu) as [Hobj Hrows].
      assert (Forall has_identity st1) as H1.
      { apply Forall_forall. intros r Hr. destruct (Hrows r Hr) as [Hin| ->].
        - rewrite Forall_forall in Hall. now apply Hall.
        - now right. }
      destruct b; apply (IH _ _ _ _ _ E H1).
    + inversion E; subst. exact Hall.
Qed.

Lemma upsert_rows_consistent (users : list User) (rows : list CleanRow)
    (st : Store) (c u : nat) :
  Forall status_consistent st ->
  Forall status_consistent (snd (upsert_rows users st rows c u)).
Proof.
  intros Hall. apply Forall_forall. intros r Hr.
  destruct (upsert_rows users st rows c u) as [res st'] eqn:E.
  destruct (upsert_rows_rows users rows st c u res st' E r Hr) as [Hold|[Hs Ht]].
  - rewrite Forall_forall in Hall. now apply Hall.
  - unfold status_consistent. tauto.
Qed.

Section ReportFacts.

Context `{Pandas}.

Lemma upload_rows_invariant (P : Attendance -> Prop) (users : list User)
    (st : Store) (df0 : DataFrame) :
  (forall rows c u, Forall P st -> Forall P (snd (upsert_rows users st rows c u))) ->
  Forall P st -> Forall P (snd (upload_attendance users st df0)).
Proof.
  intros Hrows Hall. unfold upload_attendance.
  destruct (prepare df0) as [o|used work]; [exact Hall|].
  specialize (Hrows (earliest (dropna_all work)) 0%nat 0%nat Hall).
  destruct (upsert_rows users st _ 0 0) as [[[c u]|] st']; exact Hrows.
Qed.

Lemma export_row_none (names : User -> Names) (r : Attendance) :
  export_row names r = None -> employee r = None /\ employee_email r = None.
Proof.
  unfold export_row.
  destruct (employee r) as [u|]; [|destruct (employee_email r) as [e|]];
    cbn [option_map]; intros E; try discriminate E. now split.
Qed.

(** The export of a row fails exactly when the row has neither an account
    nor an email; otherwise it has five fields. *)
Theorem export_row_fails_only_without_identity (names : User -> Names)
    (r : Attendance) :
  (export_row names r = None <-> employee r = None /\ employee_email r = None)
  /\ (forall fields, export_row names r = Some fields ->
                     List.length fields = 5%nat /\ has_identity r).
Proof.
  unfold export_row, has_identity.
  destruct (employee r) as [u|]; [|destruct (employee_email r) as [e|]];
    cbn [option_map]; split;
    try (split; [discriminate | intros [? ?]; discriminate]);
    try (intros fields E; inversion E; split; [reflexivity|]);
    try (left; discriminate); try (right; discriminate).
  - split; [auto | reflexivity].
  - intros fields E. discriminate.
Qed.

(** Every row an upload leaves in a table whose rows had an account or an
    email has one too, so the export of such a table never fails. *)
Theorem export_never_fails_after_upload (names : User -> Names)
    (users : list User) (st : Store) (df0 : DataFrame) :
  Forall has_identity st ->
  Forall (fun r => has_identity r /\ export_row names r <> None)
         (snd (upload_attendance users st df0)).
Proof.
  intros Hall.
  assert (Forall has_identity (snd (upload_attendance users st df0))) as Hafter.
  { apply upload_rows_invariant; [|exact Hall].
    intros rows c u Hst.
    destruct (upsert_rows users st rows c u) as [res st'] eqn:E.
    apply (upsert_rows_identity users rows st c u res st' E Hst). }
  apply Forall_forall. intros r Hr. rewrite Forall_forall in Hafter.
  split; [now apply Hafter|]. intros Habs.
  apply export_row_none in Habs.
  destruct (Hafter r Hr) as [Hn|Hn]; tauto.
Qed.

(** The status that the report and the export show is derived from the
    check-in time and not from the stored status: it is "Present" exactly
    when the row has a check-in time and "Absent" exactly when it has none,
    whatever status is stored (a row stored as absent with a check-in time is
    shown as present), and the export shows the same word as the report.  On
    a table whose rows agree with their check-in time the word is the stored
    status, also after an upload. *)
Theorem report_status_from_check_in (names : User -> Names)
    (users : list User) (st : Store) (df0 : DataFrame) :
  Forall status_consistent st ->
  (forall r : Attendance,
     (rr_status (report_row names r) = "Present" <-> check_in_time r <> None)
     /\ (rr_status (report_row names r) = "Absent" <-> check_in_time r = None)
     /\ (forall fields, export_row names r = Some fields ->
           nth 3 fields "" = rr_status (report_row names r)))
  /\ (forall u e d t,
        rr_status (report_row names (mkAttendance u e d (Some t) Absent))
        = "Present"
        /\ rr_status (report_row names (mkAttendance u e d None Present))
           = "Absent")
  /\ Forall (fun r =>
               rr_status (report_row names r)
               = match status r with Present => "Present" | Absent => "Absent" end
               /\ forall fields, export_row names r = Some fields ->
                    nth 3 fields ""
                    = match status r with Present => "Present" | Absent => "Absent" end)
            (snd (upload_attendance users st df0)).
Proof.
  intros Hall.
  assert (forall r fields, export_row names r = Some fields ->
            nth 3 fields "" = rr_status (report_row names r)) as Hexport.
  { intros r fields E. unfold export_row in E.
    destruct (match employee r with
              | Some u => Some (full_name (names u))
              | None => option_map before_at (employee_email r)
              end); [|discriminate].
    inversion E. reflexivity. }
  split; [|split].
  - intros r. split; [|split; [|now apply Hexport]];
      unfold report_row, status_label; cbn [rr_status];
      destruct (check_in_time r); cbn [is_some is_none negb];
      split; intros E;
      first [ discriminate E | reflexivity | discriminate
            | exfalso; apply E; reflexivity ].
  - intros u e d t. split; reflexivity.
  - assert (Forall status_consistent (snd (upload_attendance users st df0))) as Hafter.
    { apply upload_rows_invariant; [|exact Hall].
      intros rows c u Hst. now apply upsert_rows_consistent. }
    apply Forall_forall. intros r Hr. rewrite Forall_forall in Hafter.
    specialize (Hafter r Hr). unfold status_consistent in Hafter.
    assert (status_label (check_in_time r)
            = match status r with Present => "Present" | Absent => "Absent" end) as Hl.
    { unfold status_label. destruct (check_in_time r), (status r); simpl;
        try reflexivity; exfalso.
      - assert (Absent = Present) by (apply Hafter; discriminate). discriminate.
      - destruct Hafter as [Hp _]. now apply Hp. }
    split; [exact Hl|].
    intros fields E. rewrite (Hexport r fields E). exact Hl.
Qed.

End ReportFacts.

Section ReportAfterUpload.

Context `{Pandas}.

(** After an upload, the report shows one line for each day of the batch: its
    date, "Present", and an email that is the batch's email up to letter
    case (the account's email when an account matches, the stored one
    otherwise). *)
Theorem report_shows_uploaded_row (names : User -> Names) (users : list User)
    (st : Store) (df0 : DataFrame) (g : CleanRow) :
  unique_store st ->
  In g (processed df0) ->
  exists line e,
    map (report_row names) (stored (snd (upload_attendance users st df0)) (key_of g))
    = [line]
    /\ rr_date line = c_date g
    /\ rr_status line = "Present"
    /\ rr_email line = Some e
    /\ PyStr.lower e = c_email g
    /\ (find_user users (c_email g) = None ->
        e = c_email g /\ rr_employee_name line = before_at (c_email g)).
Proof.
  intros Hu Hg.
  destruct (upload_overwrites users st df0 Hu) as (_ & Hst & _).
  rewrite (Hst g Hg). cbn [map].
  pose proof (processed_lower df0 g Hg) as Hl.
  destruct (find_user users (c_email g)) as [u|] eqn:Ef.
  - exists (report_row names
              (mkAttendance (Some u) (Some (c_email g)) (c_date g)
                            (Some (c_time g)) Present)), (user_email u).
    unfold report_row. cbn.
    repeat split; try reflexivity; try discriminate.
    apply find_user_iexact in Ef. unfold iexact in Ef.
    apply String.eqb_eq in Ef.
    now rewrite <- (lower_nocase (user_email u)), Ef, lower_nocase.
  - exists (report_row names
              (mkAttendance None (Some (c_email g)) (c_date g)
                            (Some (c_time g)) Present)), (c_email g).
    unfold report_row. cbn.
    repeat split; try reflexivity; try assumption.
    destruct (String.eqb (c_email g) "") eqn:Ee; cbn; [|reflexivity].
    apply String.eqb_eq in Ee. now rewrite Ee.
Qed.

End ReportAfterUpload.

Lemma export_never_fails_after_upload_witness :
  Forall (fun r => has_identity r
                   /\ export_row (fun _ => mkNames "" "" "") r <> None)
         (snd (upload_attendance (H := pandas_model)
                 [mkUser 7 "a@x.com"] early_store late_table)).
Proof.
  apply (export_never_fails_after_upload (H := pandas_model)
           (fun _ => mkNames "" "" "") [mkUser 7 "a@x.com"] early_store late_table).
  constructor; [left; discriminate | constructor].
Defined.

Lemma report_status_from_check_in_witness :
  (forall r : Attendance,
     (rr_status (report_row (fun _ => mkNames "" "" "") r) = "Present"
      <-> check_in_time r <> None)
     /\ (rr_status (report_row (fun _ => mkNames "" "" "") r) = "Absent"
         <-> check_in_time r = None)
     /\ (forall fields,
           export_row (fun _ => mkNames "" "" "") r = Some fields ->
           nth 3 fields "" = rr_status (report_row (fun _ => mkNames "" "" "") r)))
  /\ (forall u e d t,
        rr_status (report_row (fun _ => mkNames "" "" "")
                     (mkAttendance u e d (Some t) Absent))
        = "Present"
        /\ rr_status (report_row (fun _ => mkNames "" "" "")
                        (mkAttendance u e d None Present))
           = "Absent")
  /\ Forall (fun r =>
               rr_status (report_row (fun _ => mkNames "" "" "") r)
               = match status r with Present => "Present" | Absent => "Absent" end
               /\ forall fields,
                    export_row (fun _ => mkNames "" "" "") r = Some fields ->
                    nth 3 fields ""
                    = match status r with Present => "Present" | Absent => "Absent" end)
            (snd (upload_attendance (H := pandas_model)
                    [mkUser 7 "a@x.com"] early_store late_table)).
Proof.
  apply (report_status_from_check_in (H := pandas_model)
           (fun _ => mkNames "" "" "") [mkUser 7 "a@x.com"] early_store late_table).
  constructor; [split; intros _; [discriminate | reflexivity] | constructor].
Defined.

Lemma report_shows_uploaded_row_witness :
  exists line e,
    map (report_row (fun _ => mkNames "" "" ""))
        (stored (snd (upload_attendance (H := pandas_model) [] early_store late_table))
                (key_of (mkCleanRow "a@x.com" (mkDate 2024 5 1) (mkTime 9 0 0 0))))
    = [line]
    /\ rr_date line = mkDate 2024 5 1
    /\ rr_status line = "Present"
    /\ rr_email line = Some e
    /\ PyStr.lower e = "a@x.com"
    /\ (find_user [] "a@x.com" = None ->
        e = "a@x.com" /\ rr_employee_name line = before_at "a@x.com").
Proof.
  apply (report_shows_uploaded_row (H := pandas_model)
           (fun _ => mkNames "" "" "") [] early_store late_table
           (mkCleanRow "a@x.com" (mkDate 2024 5 1) (mkTime 9 0 0 0))).
  - intros k. unfold early_store, stored. cbn [filter].
    destruct (matches (fst k) (snd k) _); simpl; lia.
  - vm_compute. left. reflexivity.
Defined.

(** ** Clearing *)

Lemma upsert_rows_fresh (users : list User) (rows : list CleanRow) :
  NoDup (map upsert_key rows) ->
  forall (st : Store) (c u : nat),
    (forall g, In g rows -> stored st (upsert_key g) = []) ->
    upsert_rows users st rows c u
    = (Some ((c + List.length rows)%nat, u), st ++ map (written users) rows).
Proof.
  induction rows as [|row rest IH]; intros ND st c u Hfresh.
  - simpl. now rewrite Nat.add_0_r, app_nil_r.
  - inversion ND as [|? ? Hnotin ND']; subst.
    cbn [upsert_rows]. unfold update_or_create.
    pose proof (Hfresh row (or_introl eq_refl)) as Hrow.
    unfold stored in Hrow. cbn [upsert_key fst snd] in Hrow. rewrite Hrow.
    cbn [d_employee d_check_in_time d_status]. rewrite save_upsert_object.
    change (mkAttendance (find_user users (PyStr.lower (c_email row)))
              (Some (PyStr.lower (c_email row))) (c_date row)
              (Some (c_time row)) Present) with (written users row).
    rewrite (IH ND' (st ++ [written users row]) (S c) u).
    + cbn [map List.length]. rewrite <- app_assoc. cbn [app].
      now rewrite Nat.add_succ_r.
    + intros g Hg. unfold stored. rewrite filter_app.
      pose proof (Hfresh g (or_intror Hg)) as Hgs. unfold stored in Hgs.
      rewrite Hgs. cbn [app filter].
      destruct (matches (fst (upsert_key g)) (snd (upsert_key g))
                  (written users row)) eqn:Em; [|reflexivity].
      exfalso. apply Hnotin. apply matches_spec in Em. destruct Em as [Ee Ed].
      cbn [written employee_email date upsert_key fst snd] in Ee, Ed.
      apply in_map_iff. exists g. split; [|exact Hg].
      unfold upsert_key. inversion Ee. now rewrite Ed.
Qed.

Section ClearFacts.

Context `{Pandas}.

(** Clearing reports the number of rows it deleted; an upload into the
    cleared table leaves exactly one row for each day of the batch, in the
    batch's sorted order, and counts every one as created. *)
Theorem upload_after_clear_creates_all (users : list User) (st : Store)
    (df0 : DataFrame) :
  fst (clear_attendance st) = List.length st
  /\ snd (upload_attendance users (snd (clear_attendance st)) df0)
     = map (fun g => mkAttendance (find_user users (c_email g)) (Some (c_email g))
                                  (c_date g) (Some (c_time g)) Present)
           (processed df0)
  /\ (forall used diag,
        fst (upload_attendance users (snd (clear_attendance st)) df0)
        = Uploaded used diag ->
        created diag = List.length (processed df0) /\ updated diag = 0%nat).
Proof.
  split; [reflexivity|]. cbn [clear_attendance snd].
  unfold upload_attendance.
  pose proof (processed_NoDup df0) as ND.
  pose proof (processed_lower df0) as Hl.
  unfold processed in *.
  destruct (prepare df0) as [o|used work] eqn:Ep.
  - split; [reflexivity|]. intros used diag E.
    cbn in E. subst o. now apply prepare_returned in Ep.
  - rewrite (upsert_rows_fresh users _ ND [] 0 0) by (intros; reflexivity).
    cbn [fst snd app Nat.add]. split.
    + apply map_ext_in. intros g Hg. unfold written. now rewrite (Hl g Hg).
    + intros used' diag E. inversion E. cbn. split; reflexivity.
Qed.

End ClearFacts.

(** ** The calendar of the month views *)

Lemma days_linear (y m d : Z) :
  Cal.days_from_civil y m d = Cal.days_from_civil y m 1 + (d - 1).
Proof. unfold Cal.days_from_civil. cbv zeta. lia. Qed.

Lemma month_step (y m : Z) :
  1 <= m <= 12 ->
  Cal.days_from_civil y m 1 + Cal.days_in_month y m
  = if m =? 12 then Cal.days_from_civil (y + 1) 1 1
    else Cal.days_from_civil y (m + 1) 1.
Proof.
  intros Hm.
  assert (m = 1 \/ m = 2 \/ m = 3 \/ m = 4 \/ m = 5 \/ m = 6 \/ m = 7 \/ m = 8
          \/ m = 9 \/ m = 10 \/ m = 11 \/ m = 12) as Hc by lia.
  repeat (destruct Hc as [->|Hc]); try subst m;
    unfold Cal.days_from_civil, Cal.days_in_month; cbv zeta;
    cbn [orb]; eval_closed; cbn [orb]; cbv iota; try lia.
  all: try (replace (y + 1 - 1) with y by lia; lia).
  destruct (Cal.is_leap y) eqn:E;
    [apply is_leap_spec in E
    | assert (~ (y mod 4 = 0 /\ (y mod 100 <> 0 \/ y mod 400 = 0)))
        by (rewrite <- is_leap_spec; congruence)];
    Z.div_mod_to_equations; lia.
Qed.

Lemma days_range (y m d : Z) :
  1 <= y <= 9999 -> 1 <= m <= 12 -> 1 <= d <= Cal.days_in_month y m ->
  PyDate.min_days <= Cal.days_from_civil y m d <= PyDate.max_days.
Proof.
  intros Hy Hm Hd. pose proof (days_in_month_le y m) as Hle.
  unfold PyDate.min_days, PyDate.max_days, Cal.days_from_civil. cbv zeta.
  destruct (m <=? 2) eqn:E; [apply Z.leb_le in E | apply Z.leb_gt in E];
    Z.div_mod_to_equations; lia.
Qed.

Lemma range_cons (lo : Z) (n : nat) : range lo (S n) = lo :: range (lo + 1) n.
Proof.
  unfold range. cbn [seq map]. f_equal; [lia|].
  rewrite <- seq_shift, map_map. apply map_ext. intros k. lia.
Qed.

Lemma make_valid (y m d : Z) :
  1 <= y <= 9999 -> 1 <= m <= 12 -> 1 <= d <= Cal.days_in_month y m ->
  PyDate.make y m d = Some (mkDate y m d).
Proof.
  intros Hy Hm Hd. unfold PyDate.make.
  assert ((1 <=? y) && (y <=? 9999) && (1 <=? m) && (m <=? 12) && (1 <=? d)
          && (d <=? Cal.days_in_month y m) = true) as ->
      by (rewrite !andb_true_iff, !Z.leb_le; lia).
  reflexivity.
Qed.

Lemma in_c_int_spec (z : Z) :
  PyDate.in_c_int z = true <-> -2147483648 <= z <= 2147483647.
Proof. unfold PyDate.in_c_int. rewrite andb_true_iff, !Z.leb_le. tauto. Qed.

Lemma new_valid (y m d : Z) :
  1 <= y <= 9999 -> 1 <= m <= 12 -> 1 <= d <= Cal.days_in_month y m ->
  PyDate.new y m d = Done (mkDate y m d).
Proof.
  intros Hy Hm Hd. unfold PyDate.new.
  pose proof (days_in_month_le y m) as Hle.
  assert (PyDate.in_c_int y && PyDate.in_c_int m && PyDate.in_c_int d = true) as ->
      by (rewrite !andb_true_iff, !in_c_int_spec; lia).
  now rewrite make_valid.
Qed.

(** The first day of a month: the arguments must fit a C int, then name a
    month. *)
Lemma new_first (y m : Z) :
  PyDate.new y m 1
  = if PyDate.in_c_int y && PyDate.in_c_int m
    then if (1 <=? y) && (y <=? 9999) && (1 <=? m) && (m <=? 12)
         then Done (mkDate y m 1) else Raise ValueError
    else Raise OverflowError.
Proof.
  unfold PyDate.new, PyDate.make. pose proof (days_in_month_ge y m) as Hge.
  assert ((1 <=? Cal.days_in_month y m) = true) as -> by (apply Z.leb_le; lia).
  change (PyDate.in_c_int 1) with true. change (1 <=? 1) with true.
  rewrite !andb_true_r.
  destruct (PyDate.in_c_int y && PyDate.in_c_int m); [|reflexivity].
  now destruct ((1 <=? y) && (y <=? 9999) && (1 <=? m) && (m <=? 12)).
Qed.

Lemma monthrange_valid (y m : Z) :
  1 <= y <= 9999 -> 1 <= m <= 12 ->
  Calendar.monthrange y m
  = Done (PyDate.weekday (mkDate y m 1), Cal.days_in_month y m).
Proof.
  intros Hy Hm. unfold Calendar.monthrange, Calendar.weekday.
  assert ((1 <=? m) && (m <=? 12) = true) as ->
      by (rewrite andb_true_iff, !Z.leb_le; lia).
  assert ((1 <=? y) && (y <=? 9999) = true) as ->
      by (rewrite andb_true_iff, !Z.leb_le; lia).
  pose proof (days_in_month_ge y m) as Hge.
  rewrite new_valid by lia. reflexivity.
Qed.

Lemma month_bounds_spec (y m : Z) :
  month_bounds y m
  = if PyDate.in_c_int y && PyDate.in_c_int m
    then if (1 <=? y) && (y <=? 9999) && (1 <=? m) && (m <=? 12)
         then Done (mkDate y m 1, mkDate y m (Cal.days_in_month y m))
         else Raise ValueError
    else Raise OverflowError.
Proof.
  unfold month_bounds. rewrite new_first.
  destruct (PyDate.in_c_int y && PyDate.in_c_int m); [|reflexivity].
  destruct ((1 <=? y) && (y <=? 9999) && (1 <=? m) && (m <=? 12)) eqn:E;
    [|reflexivity].
  rewrite !andb_true_iff, !Z.leb_le in E.
  cbn [bind]. rewrite monthrange_valid by lia.
  cbn [bind snd].
  pose proof (days_in_month_ge y m) as Hge.
  rewrite new_valid by lia. reflexivity.
Qed.

(** A year and a month that name a month fit a C int. *)
Lemma valid_fits (y m : Z) :
  (1 <=? y) && (y <=? 9999) && (1 <=? m) && (m <=? 12) = true ->
  PyDate.in_c_int y && PyDate.in_c_int m = true.
Proof.
  rewrite !andb_true_iff, !Z.leb_le, !in_c_int_spec. lia.
Qed.

Lemma month_bounds_valid (y m : Z) :
  1 <= y <= 9999 -> 1 <= m <= 12 ->
  month_bounds y m = Done (mkDate y m 1, mkDate y m (Cal.days_in_month y m)).
Proof.
  intros Hy Hm. rewrite month_bounds_spec.
  assert ((1 <=? y) && (y <=? 9999) && (1 <=? m) && (m <=? 12) = true) as E
      by (rewrite !andb_true_iff, !Z.leb_le; lia).
  now rewrite (valid_fits y m E), E.
Qed.

Lemma add_days_in_month (y m d k : Z) :
  1 <= y <= 9999 -> 1 <= m <= 12 ->
  1 <= d <= Cal.days_in_month y m -> 1 <= d + k <= Cal.days_in_month y m ->
  PyDate.add_days (mkDate y m d) k = Some (mkDate y m (d + k)).
Proof.
  intros Hy Hm Hd Hk. unfold PyDate.add_days, PyDate.days. cbn [year month day].
  replace (Cal.days_from_civil y m d + k) with (Cal.days_from_civil y m (d + k))
    by (rewrite (days_linear y m (d + k)), (days_linear y m d); lia).
  pose proof (days_range y m (d + k) Hy Hm Hk) as Hr.
  assert ((PyDate.min_days <=? Cal.days_from_civil y m (d + k))
          && (Cal.days_from_civil y m (d + k) <=? PyDate.max_days) = true) as ->
      by (rewrite andb_true_iff, !Z.leb_le; lia).
  now rewrite civil_roundtrip_full.
Qed.

(** The day after the last day of a month is the first day of the next. *)
Lemma days_next_month (y m : Z) :
  1 <= m <= 12 ->
  Cal.days_from_civil y m (Cal.days_in_month y m) + 1
  = Cal.days_from_civil (fst (Calendar.nextmonth y m)) (snd (Calendar.nextmonth y m)) 1.
Proof.
  intros Hm. rewrite (days_linear y m (Cal.days_in_month y m)).
  pose proof (month_step y m Hm) as Hs. unfold Calendar.nextmonth.
  destruct (m =? 12); cbn [fst snd]; lia.
Qed.

Lemma nextmonth_valid (y m : Z) :
  1 <= y <= 9999 -> 1 <= m <= 12 -> (y =? 9999) && (m =? 12) = false ->
  1 <= fst (Calendar.nextmonth y m) <= 9999 /\ 1 <= snd (Calendar.nextmonth y m) <= 12.
Proof.
  intros Hy Hm He. unfold Calendar.nextmonth.
  destruct (m =? 12) eqn:E12; cbn [fst snd].
  - rewrite andb_true_r in He. apply Z.eqb_neq in He. lia.
  - apply Z.eqb_neq in E12. lia.
Qed.

Lemma add_days_next_month (y m k : Z) :
  1 <= y <= 9999 -> 1 <= m <= 12 -> 1 <= k <= 28 ->
  PyDate.add_days (mkDate y m (Cal.days_in_month y m)) k
  = if (y =? 9999) && (m =? 12) then None
    else Some (mkDate (fst (Calendar.nextmonth y m)) (snd (Calendar.nextmonth y m)) k).
Proof.
  intros Hy Hm Hk. unfold PyDate.add_days, PyDate.days. cbn [year month day].
  replace (Cal.days_from_civil y m (Cal.days_in_month y m) + k)
    with (Cal.days_from_civil (fst (Calendar.nextmonth y m)) (snd (Calendar.nextmonth y m)) k)
    by (rewrite (days_linear _ _ k), <- days_next_month by lia; lia).
  destruct ((y =? 9999) && (m =? 12)) eqn:He.
  - apply andb_true_iff in He. destruct He as [Ey Em].
    apply Z.eqb_eq in Ey. apply Z.eqb_eq in Em. subst y m.
    rewrite (days_linear _ _ k). 
    change (Cal.days_from_civil (fst (Calendar.nextmonth 9999 12)) (snd (Calendar.nextmonth 9999 12)) 1)
      with 2932897.
    unfold PyDate.min_days, PyDate.max_days.
    assert ((2932897 + (k - 1) <=? 2932896) = false) as -> by (apply Z.leb_gt; lia).
    now rewrite andb_false_r.
  - destruct (nextmonth_valid y m Hy Hm He) as [Hny Hnm].
    pose proof (days_in_month_ge (fst (Calendar.nextmonth y m)) (snd (Calendar.nextmonth y m))) as Hge.
    pose proof (days_range _ _ k Hny Hnm ltac:(lia)) as Hr.
    assert ((PyDate.min_days <=? Cal.days_from_civil (fst (Calendar.nextmonth y m)) (snd (Calendar.nextmonth y m)) k)
            && (Cal.days_from_civil (fst (Calendar.nextmonth y m)) (snd (Calendar.nextmonth y m)) k <=? PyDate.max_days) = true) as ->
        by (rewrite andb_true_iff, !Z.leb_le; lia).
    now rewrite civil_roundtrip by lia.
Qed.

Lemma leb_same_month (y m d e : Z) :
  PyDate.leb (mkDate y m d) (mkDate y m e) = (d <=? e).
Proof.
  unfold PyDate.leb, date_compare. cbn [year month day].
  rewrite !Z.compare_refl. unfold Z.leb. reflexivity.
Qed.

Lemma leb_next_month (y m d e : Z) :
  1 <= m <= 12 ->
  PyDate.leb (mkDate (fst (Calendar.nextmonth y m)) (snd (Calendar.nextmonth y m)) d) (mkDate y m e)
  = false.
Proof.
  intros Hm. unfold PyDate.leb, date_compare, Calendar.nextmonth. cbn [year month day].
  destruct (m =? 12) eqn:E; cbn [fst snd].
  - assert ((y + 1 ?= y) = Gt) as -> by (apply Z.compare_gt_iff; lia). reflexivity.
  - apply Z.eqb_neq in E. rewrite Z.compare_refl.
    assert ((m + 1 ?= m) = Gt) as -> by (apply Z.compare_gt_iff; lia). reflexivity.
Qed.

Lemma working_days_loop_spec (y m : Z) (hs : list Date) :
  1 <= y <= 9999 -> 1 <= m <= 12 ->
  forall (n : nat) (d : Z) (acc : list Date) (fuel : nat),
    1 <= d -> d + Z.of_nat n = Cal.days_in_month y m ->
    (S (S n) <= fuel)%nat ->
    working_days_loop fuel (mkDate y m d) (mkDate y m (Cal.days_in_month y m)) hs acc
    = if (y =? 9999) && (m =? 12) then Raise OverflowError
      else Done (acc ++ filter (is_working_day hs)
                          (map (mkDate y m) (range d (S n)))).
Proof.
  intros Hy Hm. induction n as [|n IH]; intros d acc fuel Hd Hn Hfuel.
  - destruct fuel as [|[|fuel]]; [lia | lia |].
    cbn [working_days_loop]. rewrite leb_same_month.
    assert ((d <=? Cal.days_in_month y m) = true) as -> by (apply Z.leb_le; lia).
    replace d with (Cal.days_in_month y m) by lia.
    rewrite (add_days_next_month y m 1) by lia.
    destruct ((y =? 9999) && (m =? 12)); [reflexivity|].
    cbn [or_raise bind]. rewrite leb_next_month by lia.
    rewrite range_cons. cbn [range seq map filter].
    fold (is_working_day hs (mkDate y m (Cal.days_in_month y m))).
    destruct (is_working_day hs _); [reflexivity | now rewrite app_nil_r].
  - destruct fuel as [|fuel]; [lia|].
    cbn [working_days_loop]. rewrite leb_same_month.
    assert ((d <=? Cal.days_in_month y m) = true) as -> by (apply Z.leb_le; lia).
    rewrite (add_days_in_month y m d 1) by lia.
    cbn [or_raise bind]. rewrite IH by lia.
    destruct ((y =? 9999) && (m =? 12)); [reflexivity|].
    f_equal. rewrite (range_cons d (S n)). cbn [map filter].
    fold (is_working_day hs (mkDate y m d)).
    destruct (is_working_day hs (mkDate y m d)); [|reflexivity].
    now rewrite <- app_assoc.
Qed.

(** [working_days_in_month] raises OverflowError for a year or a month that
    does not fit a C int, ValueError for another year outside 1..9999 or
    month outside 1..12, and OverflowError for December 9999, whose last day
    has no next day; otherwise it returns, in ascending order, the days of
    the month from Monday to Friday that are not in the holiday set. *)
Theorem working_days_in_month_spec (y m : Z) (holiday_set : list Date) :
  working_days_in_month y m holiday_set
  = if PyDate.in_c_int y && PyDate.in_c_int m
    then if (1 <=? y) && (y <=? 9999) && (1 <=? m) && (m <=? 12)
         then if (y =? 9999) && (m =? 12)
              then Raise OverflowError
              else Done (filter (is_working_day holiday_set) (month_days y m))
         else Raise ValueError
    else Raise OverflowError.
Proof.
  unfold working_days_in_month. rewrite month_bounds_spec.
  destruct (PyDate.in_c_int y && PyDate.in_c_int m); [|reflexivity].
  destruct ((1 <=? y) && (y <=? 9999) && (1 <=? m) && (m <=? 12)) eqn:E;
    [|reflexivity].
  rewrite !andb_true_iff, !Z.leb_le in E. cbn [bind fst snd].
  pose proof (days_in_month_ge y m) as Hge.
  pose proof (days_in_month_le y m) as Hle.
  rewrite (working_days_loop_spec y m holiday_set ltac:(lia) ltac:(lia)
             (Z.to_nat (Cal.days_in_month y m - 1)) 1 []) by lia.
  unfold month_days.
  replace (S (Z.to_nat (Cal.days_in_month y m - 1)))
    with (Z.to_nat (Cal.days_in_month y m)) by lia.
  reflexivity.
Qed.

Lemma next_of_prev (y m : Z) :
  1 <= m <= 12 ->
  Calendar.nextmonth (fst (Calendar.prevmonth y m)) (snd (Calendar.prevmonth y m)) = (y, m).
Proof.
  intros Hm. unfold Calendar.prevmonth, Calendar.nextmonth.
  destruct (m =? 1) eqn:E1; cbn [fst snd].
  - apply Z.eqb_eq in E1. subst m. change (12 =? 12) with true. cbv iota.
    f_equal. lia.
  - apply Z.eqb_neq in E1.
    assert ((m - 1 =? 12) = false) as -> by (apply Z.eqb_neq; lia).
    f_equal. lia.
Qed.

Lemma prevmonth_valid (y m : Z) :
  1 <= y <= 9999 -> 1 <= m <= 12 -> (y =? 1) && (m =? 1) = false ->
  1 <= fst (Calendar.prevmonth y m) <= 9999 /\ 1 <= snd (Calendar.prevmonth y m) <= 12.
Proof.
  intros Hy Hm He. unfold Calendar.prevmonth.
  destruct (m =? 1) eqn:E1; cbn [fst snd].
  - rewrite andb_true_r in He. apply Z.eqb_neq in He. lia.
  - apply Z.eqb_neq in E1. lia.
Qed.

Lemma prevmonth_month (y m : Z) :
  1 <= m <= 12 -> 1 <= snd (Calendar.prevmonth y m) <= 12 /\ snd (Calendar.prevmonth y m) <> m.
Proof.
  intros Hm. unfold Calendar.prevmonth. destruct (m =? 1) eqn:E1; cbn [snd].
  - apply Z.eqb_eq in E1. lia.
  - apply Z.eqb_neq in E1. lia.
Qed.

Lemma nextmonth_month (y m : Z) :
  1 <= m <= 12 -> 1 <= snd (Calendar.nextmonth y m) <= 12 /\ snd (Calendar.nextmonth y m) <> m.
Proof.
  intros Hm. unfold Calendar.nextmonth. destruct (m =? 12) eqn:E1; cbn [snd].
  - apply Z.eqb_eq in E1. lia.
  - apply Z.eqb_neq in E1. lia.
Qed.

(** The day before the first day of a month is the last day of the month
    before. *)
Lemma days_prev_month (y m : Z) :
  1 <= m <= 12 ->
  Cal.days_from_civil (fst (Calendar.prevmonth y m)) (snd (Calendar.prevmonth y m))
    (Cal.days_in_month (fst (Calendar.prevmonth y m)) (snd (Calendar.prevmonth y m))) + 1
  = Cal.days_from_civil y m 1.
Proof.
  intros Hm. destruct (prevmonth_month y m Hm) as [Hp _].
  rewrite days_next_month by lia. now rewrite next_of_prev.
Qed.

Lemma add_days_prev_month (y m k : Z) :
  1 <= y <= 9999 -> 1 <= m <= 12 -> 0 <= k < 28 ->
  PyDate.add_days (mkDate y m 1) (- 1 - k)
  = if (y =? 1) && (m =? 1) then None
    else Some (mkDate (fst (Calendar.prevmonth y m)) (snd (Calendar.prevmonth y m))
                 (Cal.days_in_month (fst (Calendar.prevmonth y m)) (snd (Calendar.prevmonth y m)) - k)).
Proof.
  intros Hy Hm Hk. unfold PyDate.add_days, PyDate.days. cbn [year month day].
  destruct ((y =? 1) && (m =? 1)) eqn:He.
  - apply andb_true_iff in He. destruct He as [Ey Em].
    apply Z.eqb_eq in Ey. apply Z.eqb_eq in Em. subst y m.
    change (Cal.days_from_civil 1 1 1) with (-719162).
    unfold PyDate.min_days.
    assert ((-719162 <=? -719162 + (- 1 - k)) = false) as -> by (apply Z.leb_gt; lia).
    reflexivity.
  - destruct (prevmonth_valid y m Hy Hm He) as [Hpy Hpm].
    set (py := fst (Calendar.prevmonth y m)) in *. set (pm := snd (Calendar.prevmonth y m)) in *.
    pose proof (days_in_month_ge py pm) as Hge.
    replace (Cal.days_from_civil y m 1 + (- 1 - k))
      with (Cal.days_from_civil py pm (Cal.days_in_month py pm - k))
      by (rewrite <- (days_prev_month y m Hm); fold py pm;
          rewrite (days_linear py pm (Cal.days_in_month py pm - k)),
                  (days_linear py pm (Cal.days_in_month py pm)); lia).
    pose proof (days_range py pm (Cal.days_in_month py pm - k) Hpy Hpm ltac:(lia)) as Hr.
    assert ((PyDate.min_days <=? Cal.days_from_civil py pm (Cal.days_in_month py pm - k))
            && (Cal.days_from_civil py pm (Cal.days_in_month py pm - k) <=? PyDate.max_days)
            = true) as -> by (rewrite andb_true_iff, !Z.leb_le; lia).
    now rewrite civil_roundtrip_full by lia.
Qed.

Lemma dashboard_navigation_cases (y m : Z) :
  dashboard_navigation y m
  = if PyDate.in_c_int y && PyDate.in_c_int m
    then if (1 <=? y) && (y <=? 9999) && (1 <=? m) && (m <=? 12)
         then if ((y =? 1) && (m =? 1)) || ((y =? 9999) && (m =? 12))
              then Raise OverflowError
              else Done (mkDate (fst (Calendar.prevmonth y m)) (snd (Calendar.prevmonth y m))
                           (Cal.days_in_month (fst (Calendar.prevmonth y m)) (snd (Calendar.prevmonth y m))),
                         mkDate (fst (Calendar.nextmonth y m)) (snd (Calendar.nextmonth y m)) 1)
         else Raise ValueError
    else Raise OverflowError.
Proof.
  unfold dashboard_navigation. rewrite new_first.
  destruct (PyDate.in_c_int y && PyDate.in_c_int m); [|reflexivity].
  destruct ((1 <=? y) && (y <=? 9999) && (1 <=? m) && (m <=? 12)) eqn:E;
    [|reflexivity].
  rewrite !andb_true_iff, !Z.leb_le in E. cbn [or_raise bind].
  change (-1) with (- 1 - 0). rewrite add_days_prev_month by lia.
  destruct ((y =? 1) && (m =? 1)) eqn:E1; [reflexivity|].
  cbn [or_raise bind orb]. unfold PyDate.replace_day. cbn [year month day].
  pose proof (days_in_month_ge y m) as Hge.
  pose proof (days_in_month_le y m) as Hle.
  rewrite new_valid by lia. cbn [or_raise bind].
  assert (PyDate.add_days (mkDate y m 28) 10
          = PyDate.add_days (mkDate y m (Cal.days_in_month y m))
              (38 - Cal.days_in_month y m)) as ->.
  { unfold PyDate.add_days, PyDate.days. cbn [year month day].
    rewrite (days_linear y m 28), (days_linear y m (Cal.days_in_month y m)).
    replace (Cal.days_from_civil y m 1 + (28 - 1) + 10)
      with (Cal.days_from_civil y m 1 + (Cal.days_in_month y m - 1)
            + (38 - Cal.days_in_month y m)) by lia.
    reflexivity. }
  rewrite add_days_next_month by lia.
  destruct ((y =? 9999) && (m =? 12)) eqn:E2; [reflexivity|].
  cbn [or_raise bind year month day].
  destruct (nextmonth_valid y m ltac:(lia) ltac:(lia) E2) as [Hny Hnm].
  pose proof (days_in_month_ge (fst (Calendar.nextmonth y m)) (snd (Calendar.nextmonth y m))).
  rewrite new_valid by lia. cbn [or_raise bind]. now rewrite Z.sub_0_r.
Qed.

Lemma dashboard_navigation_valid (y m : Z) :
  1 <= y <= 9999 -> 1 <= m <= 12 ->
  dashboard_navigation y m
  = if ((y =? 1) && (m =? 1)) || ((y =? 9999) && (m =? 12))
    then Raise OverflowError
    else Done (mkDate (fst (Calendar.prevmonth y m)) (snd (Calendar.prevmonth y m))
                 (Cal.days_in_month (fst (Calendar.prevmonth y m)) (snd (Calendar.prevmonth y m))),
               mkDate (fst (Calendar.nextmonth y m)) (snd (Calendar.nextmonth y m)) 1).
Proof.
  intros Hy Hm. rewrite dashboard_navigation_cases.
  assert ((1 <=? y) && (y <=? 9999) && (1 <=? m) && (m <=? 12) = true) as E
      by (rewrite !andb_true_iff, !Z.leb_le; lia).
  now rewrite (valid_fits y m E), E.
Qed.

(** Computing [prev_dt] and [next_dt] raises OverflowError for a year or a
    month that does not fit a C int, ValueError for another year outside
    1..9999 or month outside 1..12, and OverflowError for January of year 1
    and December of year 9999; otherwise [prev_dt] is the day before the
    first day of the month and [next_dt] is the day after its last day, the
    first day of a month. *)
Theorem dashboard_navigation_spec (y m : Z) :
  let fits := PyDate.in_c_int y && PyDate.in_c_int m in
  let valid := (1 <=? y) && (y <=? 9999) && (1 <=? m) && (m <=? 12) in
  let at_end := ((y =? 1) && (m =? 1)) || ((y =? 9999) && (m =? 12)) in
  (fits = false -> dashboard_navigation y m = Raise OverflowError)
  /\ (fits = true -> valid = false ->
      dashboard_navigation y m = Raise ValueError)
  /\ (valid = true -> at_end = true ->
      dashboard_navigation y m = Raise OverflowError)
  /\ (valid = true -> at_end = false ->
      exists prev_dt next_dt,
        dashboard_navigation y m = Done (prev_dt, next_dt)
        /\ PyDate.add_days prev_dt 1 = Some (mkDate y m 1)
        /\ PyDate.add_days (mkDate y m (Cal.days_in_month y m)) 1 = Some next_dt
        /\ day next_dt = 1
        /\ (year prev_dt, month prev_dt) = Calendar.prevmonth y m
        /\ (year next_dt, month next_dt) = Calendar.nextmonth y m).
Proof.
  intros fits valid at_end. rewrite dashboard_navigation_cases.
  fold fits valid at_end.
  split; [intros ->; reflexivity|]. split; [intros -> ->; reflexivity|].
  split; [intros Hv ->;
          assert (fits = true) as Hf by (now apply valid_fits);
          now rewrite Hf, Hv|].
  intros Hv He. assert (fits = true) as Hf by (now apply valid_fits).
  rewrite Hf, Hv, He. unfold valid in Hv.
  rewrite !andb_true_iff, !Z.leb_le in Hv.
  unfold at_end in He. apply orb_false_iff in He. destruct He as [E1 E2].
  destruct (prevmonth_valid y m ltac:(lia) ltac:(lia) E1) as [Hpy Hpm].
  eexists. eexists. split; [reflexivity|].
  split; [|split; [|split; [reflexivity|]]].
  - rewrite add_days_next_month by lia.
    rewrite next_of_prev by lia. cbn [fst snd].
    assert ((fst (Calendar.prevmonth y m) =? 9999)
            && (snd (Calendar.prevmonth y m) =? 12) = false) as ->; [|reflexivity].
    unfold Calendar.prevmonth in *. destruct (m =? 1) eqn:Em; cbn [fst snd] in *.
    + apply andb_false_iff. left. apply Z.eqb_neq. lia.
    + apply andb_false_iff. right. apply Z.eqb_neq.
      apply Z.eqb_neq in Em. lia.
  - rewrite add_days_next_month by lia. now rewrite E2.
  - cbn [year month]. split.
    + now destruct (Calendar.prevmonth y m).
    + now destruct (Calendar.nextmonth y m).
Qed.

(** *** The grid *)

Lemma range_In_iff (lo : Z) (n : nat) (v : Z) :
  In v (range lo n) <-> lo <= v < lo + Z.of_nat n.
Proof.
  split; [|apply range_In].
  unfold range. intros Hin. apply in_map_iff in Hin.
  destruct Hin as (k & <- & Hk). apply in_seq in Hk. lia.
Qed.

Lemma traverse_app {A B} (f : A -> Result B) (l1 l2 : list A) (r1 r2 : list B) :
  traverse f l1 = Done r1 -> traverse f l2 = Done r2 ->
  traverse f (l1 ++ l2) = Done (r1 ++ r2).
Proof.
  revert r1. induction l1 as [|x l1 IH]; intros r1 E1 E2; simpl in *.
  - inversion E1. exact E2.
  - destruct (f x) as [v| |]; cbn [bind] in *; try discriminate.
    destruct (traverse f l1) as [vs| |]; cbn [bind] in *; try discriminate.
    inversion E1. now rewrite (IH vs eq_refl E2).
Qed.

Lemma traverse_map {A B C} (f : A -> Result B) (g : C -> A) (h : C -> B)
    (l : list C) :
  (forall x, In x l -> f (g x) = Done (h x)) ->
  traverse f (map g l) = Done (map h l).
Proof.
  induction l as [|x l IH]; intros Hf; simpl; [reflexivity|].
  rewrite (Hf x (or_introl eq_refl)), IH; [reflexivity|].
  intros z Hz. apply Hf. now right.
Qed.

Lemma itermonthdates_spec (fw y m : Z) :
  1 <= y <= 9999 -> 1 <= m <= 12 ->
  ((y =? 1) && (m =? 1)) || ((y =? 9999) && (m =? 12)) = false ->
  Calendar.itermonthdates fw y m
  = Done (map (mkDate (fst (Calendar.prevmonth y m)) (snd (Calendar.prevmonth y m)))
              (py_range
                 (Cal.days_in_month (fst (Calendar.prevmonth y m)) (snd (Calendar.prevmonth y m)) + 1
                  - (PyDate.weekday (mkDate y m 1) - fw) mod 7)
                 (Cal.days_in_month (fst (Calendar.prevmonth y m)) (snd (Calendar.prevmonth y m)) + 1))
          ++ month_days y m
          ++ map (mkDate (fst (Calendar.nextmonth y m)) (snd (Calendar.nextmonth y m)))
                 (py_range 1 ((fw - PyDate.weekday (mkDate y m 1)
                               - Cal.days_in_month y m) mod 7 + 1))).
Proof.
  intros Hy Hm He. apply orb_false_iff in He. destruct He as [E1 E2].
  unfold Calendar.itermonthdates, Calendar.itermonthdays3.
  rewrite monthrange_valid by lia. cbn [bind].
  destruct (prevmonth_valid y m Hy Hm E1) as [Hpy Hpm].
  destruct (nextmonth_valid y m Hy Hm E2) as [Hny Hnm].
  destruct (Calendar.prevmonth y m) as [py pm]. destruct (Calendar.nextmonth y m) as [ny nm].
  cbn [fst snd] in *.
  set (w1 := PyDate.weekday (mkDate y m 1)).
  pose proof (Z.mod_pos_bound (w1 - fw) 7 ltac:(lia)) as Hb.
  pose proof (Z.mod_pos_bound (fw - w1 - Cal.days_in_month y m) 7 ltac:(lia)) as Ha.
  pose proof (days_in_month_ge py pm) as Hgp.
  pose proof (days_in_month_ge y m) as Hg.
  pose proof (days_in_month_ge ny nm) as Hgn.
  apply traverse_app; [|apply traverse_app].
  - rewrite <- (map_map (fun d => (py, pm, d)) (fun '(y', m', d) => mkDate y' m' d)).
    rewrite map_map. apply traverse_map. intros d Hd.
    unfold py_range in Hd. apply range_In_iff in Hd.
    apply new_valid; lia.
  - unfold month_days, py_range.
    replace (Z.to_nat (Cal.days_in_month y m + 1 - 1))
      with (Z.to_nat (Cal.days_in_month y m)) by lia.
    apply traverse_map. intros d Hd. apply range_In_iff in Hd.
    apply new_valid; lia.
  - apply traverse_map. intros d Hd.
    unfold py_range in Hd. apply range_In_iff in Hd.
    apply new_valid; lia.
Qed.

(** *** Chunks of seven *)

Lemma weeks_concat (n : nat) :
  forall l : list Date,
    (List.length l <= 7 * n)%nat ->
    concat (map (fun k => firstn 7 (skipn (7 * k) l)) (seq 0 n)) = l.
Proof.
  induction n as [|n IH]; intros l Hl.
  - destruct l; [reflexivity | simpl in Hl; lia].
  - cbn [seq map concat]. rewrite <- seq_shift, map_map.
    rewrite (map_ext _ (fun k => firstn 7 (skipn (7 * k) (skipn 7 l)))).
    + rewrite IH; [apply firstn_skipn|]. rewrite length_skipn. lia.
    + intros k. rewrite skipn_skipn. do 2 f_equal. lia.
Qed.

Lemma weeks_of_concat (l : list Date) : concat (weeks_of l) = l.
Proof.
  unfold weeks_of. apply weeks_concat.
  pose proof (Nat.div_mod_eq (List.length l + 6) 7) as Hd.
  pose proof (Nat.mod_upper_bound (List.length l + 6) 7 ltac:(lia)). lia.
Qed.

Lemma weeks_of_length (l : list Date) (n : nat) :
  List.length l = (7 * n)%nat ->
  List.length (weeks_of l) = n
  /\ Forall (fun w => List.length w = 7%nat) (weeks_of l).
Proof.
  intros Hl. unfold weeks_of.
  assert ((List.length l + 6) / 7 = n)%nat as ->.
  { rewrite Hl. symmetry. apply (Nat.div_unique _ 7 n 6); lia. }
  split; [now rewrite length_map, length_seq|].
  apply Forall_forall. intros w Hw. apply in_map_iff in Hw.
  destruct Hw as (k & <- & Hk). apply in_seq in Hk.
  rewrite length_firstn, length_skipn. lia.
Qed.

(** *** The loops over the grid *)

Section GridLoops.

Variable cell : nat * nat -> Date -> DayCell * (nat * nat).
Variable content : Date -> DayCell.
Variables counted_present counted_working : Date -> bool.

Hypothesis cell_spec :
  forall c d,
    cell c d
    = (content d,
       ((fst c + if counted_present d then 1 else 0)%nat,
        (snd c + if counted_working d then 1 else 0)%nat)).

Lemma week_row_spec (week : list Date) (c : nat * nat) :
  week_row cell c week
  = (map content week,
     ((fst c + List.length (filter counted_present week))%nat,
      (snd c + List.length (filter counted_working week))%nat)).
Proof.
  unfold week_row.
  assert (forall acc c,
            fold_left (fun acc d => let '(x, counts') := cell (snd acc) d in
                                    (fst acc ++ [x], counts')) week (acc, c)
            = (acc ++ map content week,
               ((fst c + List.length (filter counted_present week))%nat,
                (snd c + List.length (filter counted_working week))%nat))) as G.
  { induction week as [|d week IH]; intros acc c0.
    - simpl. rewrite app_nil_r, !Nat.add_0_r. now destruct c0.
    - cbn [fold_left snd fst]. rewrite cell_spec, IH. cbn [fst snd map filter].
      rewrite <- app_assoc. cbn [app].
      destruct (counted_present d), (counted_working d); cbn [List.length];
        (f_equal; f_equal; lia). }
  apply (G [] c).
Qed.

Lemma grid_rows_spec (weeks : list (list Date)) :
  grid_rows cell weeks
  = (map (map content) weeks,
     (List.length (filter counted_present (concat weeks)),
      List.length (filter counted_working (concat weeks)))).
Proof.
  unfold grid_rows.
  assert (forall acc c,
            fold_left (fun acc week =>
                         let '(row, counts') := week_row cell (snd acc) week in
                         (fst acc ++ [row], counts')) weeks (acc, c)
            = (acc ++ map (map content) weeks,
               ((fst c + List.length (filter counted_present (concat weeks)))%nat,
                (snd c + List.length (filter counted_working (concat weeks)))%nat)))
    as G.
  { induction weeks as [|w weeks IH]; intros acc c0.
    - simpl. rewrite app_nil_r, !Nat.add_0_r. now destruct c0.
    - cbn [fold_left snd fst]. rewrite week_row_spec, IH.
      cbn [fst snd map concat]. rewrite <- app_assoc. cbn [app].
      rewrite !filter_app, !length_app. f_equal; f_equal; lia. }
  apply (G [] (0%nat, 0%nat)).
Qed.

End GridLoops.

(** What the loop body does with the counters, and the cell it builds. *)
Lemma day_cell_spec (month_arg : Z) (holiday_set present_dates : list Date)
    (checkins : list (Date * Time)) (holidays : list (Date * Holiday))
    (yesterday : Date) (c : nat * nat) (d : Date) :
  day_cell month_arg holiday_set present_dates checkins holidays yesterday c d
  = (fst (day_cell month_arg holiday_set present_dates checkins holidays
            yesterday (0%nat, 0%nat) d),
     ((fst c + if (month d =? month_arg)%Z
                  && counts_present holiday_set present_dates d
               then 1 else 0)%nat,
      (snd c + if (month d =? month_arg)%Z && is_working_day holiday_set d
               then 1 else 0)%nat)).
Proof.
  unfold day_cell, counts_present, is_working_day. destruct c as [p t].
  destruct (month d =? month_arg); cbn [andb fst snd];
    [|now rewrite !Nat.add_0_r].
  rewrite Z.ltb_antisym.
  destruct (PyDate.mem d holiday_set), (PyDate.mem d present_dates),
    (5 <=? PyDate.weekday d); cbn [andb orb negb fst snd];
    (f_equal; f_equal; lia).
Qed.

Lemma day_cell_content (month_arg : Z) (holiday_set present_dates : list Date)
    (checkins : list (Date * Time)) (holidays : list (Date * Holiday))
    (yesterday : Date) (c : nat * nat) (d : Date) :
  let x := fst (day_cell month_arg holiday_set present_dates checkins holidays
                  yesterday c d) in
  cell_date x = d
  /\ in_month x = (month d =? month_arg)
  /\ (In "Present" (badges x)
      <-> (month d =? month_arg) && counts_present holiday_set present_dates d = true)
  /\ (In "Holiday" (badges x)
      <-> (month d =? month_arg) && PyDate.mem d holiday_set = true)
  /\ (In "Absent" (badges x)
      <-> (month d =? month_arg) && is_working_day holiday_set d
          && negb (PyDate.mem d present_dates) && PyDate.leb d yesterday = true)
  /\ ((month d =? month_arg) = false -> badges x = [] /\ tips x = []).
Proof.
  unfold day_cell, counts_present, is_working_day. destruct c as [p t].
  destruct (month d =? month_arg); cbn [andb fst snd cell_date in_month badges].
  - rewrite Z.ltb_antisym.
    destruct (PyDate.mem d holiday_set), (PyDate.mem d present_dates),
      (5 <=? PyDate.weekday d), (PyDate.leb d yesterday);
      cbn [andb orb negb fst snd cell_date in_month badges In];
      repeat split; try reflexivity; try discriminate; try tauto;
      try (intros [E|[E|[]]]; discriminate);
      try (intros [E|[]]; discriminate); auto.
  - repeat split; try reflexivity; try discriminate; intros [].
Qed.

Lemma filter_nonempty {X} (f : X -> bool) (l : list X) (x : X) :
  In x l -> f x = true -> (1 <= List.length (filter f l))%nat.
Proof.
  intros Hin Hf. assert (In x (filter f l)) as Hx by (apply filter_In; tauto).
  destruct (filter f l); [destruct Hx | simpl; lia].
Qed.

Lemma range_app (lo : Z) (n k : nat) :
  range lo n ++ range (lo + Z.of_nat n) k = range lo (n + k).
Proof.
  revert lo. induction n as [|n IH]; intros lo.
  - simpl. f_equal. lia.
  - cbn [Nat.add]. rewrite !range_cons. cbn [app]. f_equal.
    rewrite <- IH. do 2 f_equal. lia.
Qed.

Lemma range_length (lo : Z) (n : nat) : List.length (range lo n) = n.
Proof. unfold range. now rewrite length_map, length_seq. Qed.

Lemma days_of_range (y m lo : Z) (n : nat) :
  map (fun d => PyDate.days (mkDate y m d)) (range lo n)
  = range (Cal.days_from_civil y m lo) n.
Proof.
  unfold range. rewrite map_map. apply map_ext. intros k.
  unfold PyDate.days. cbn [year month day].
  rewrite (days_linear y m (lo + Z.of_nat k)), (days_linear y m lo). lia.
Qed.

Lemma mem_spec (d : Date) (s : list Date) : PyDate.mem d s = true <-> In d s.
Proof.
  unfold PyDate.mem. rewrite existsb_exists. split.
  - intros (x & Hx & E). apply date_eqb_eq in E. now subst.
  - intros Hin. exists d. split; [exact Hin | now apply date_eqb_eq].
Qed.

Lemma mem_ext (d : Date) (s1 s2 : list Date) :
  (In d s1 <-> In d s2) -> PyDate.mem d s1 = PyDate.mem d s2.
Proof.
  intros Hiff. destruct (PyDate.mem d s1) eqn:E1, (PyDate.mem d s2) eqn:E2;
    try reflexivity.
  - apply mem_spec, Hiff, mem_spec in E1. congruence.
  - apply mem_spec, Hiff, mem_spec in E2. congruence.
Qed.

Section MonthGrid.

Variables (fw y m : Z).
Hypothesis Hy : 1 <= y <= 9999.
Hypothesis Hm : 1 <= m <= 12.

Lemma month_days_In (d : Date) :
  In d (month_days y m)
  <-> year d = y /\ month d = m /\ 1 <= day d <= Cal.days_in_month y m.
Proof.
  unfold month_days. rewrite in_map_iff. split.
  - intros (k & <- & Hk). apply range_In_iff in Hk. cbn. lia.
  - intros (Ey & Em & Hd). exists (day d). split.
    + destruct d; cbn in *. now subst.
    + apply range_In_iff. lia.
Qed.

Lemma month_days_in_range (d : Date) :
  In d (month_days y m) ->
  date_range (mkDate y m 1) (mkDate y m (Cal.days_in_month y m)) d = true.
Proof.
  intros Hd. apply month_days_In in Hd. destruct Hd as (Ey & Em & Hd).
  destruct d as [y' m' d']. cbn in *. subst. unfold date_range.
  rewrite !leb_same_month. apply andb_true_iff. rewrite !Z.leb_le. lia.
Qed.

(** Of the dates of the grid, the ones of the month are its days, once each
    and in order. *)
Lemma filter_grid (P : Date -> bool) (before after : list Z) :
  filter (fun d => (month d =? m) && P d)
         (map (mkDate (fst (Calendar.prevmonth y m)) (snd (Calendar.prevmonth y m))) before
          ++ month_days y m
          ++ map (mkDate (fst (Calendar.nextmonth y m)) (snd (Calendar.nextmonth y m))) after)
  = filter P (month_days y m).
Proof.
  destruct (prevmonth_month y m Hm) as [_ Hp].
  destruct (nextmonth_month y m Hm) as [_ Hn].
  rewrite !filter_app.
  rewrite (filter_none _ (map _ before)), (filter_none _ (map _ after)).
  - rewrite app_nil_r. cbn [app]. apply filter_ext_in. intros d Hd.
    apply month_days_In in Hd. destruct Hd as (_ & Em & _).
    apply Z.eqb_eq in Em. now rewrite Em.
  - intros d Hd. apply in_map_iff in Hd. destruct Hd as (k & <- & _).
    cbn [month]. apply Z.eqb_neq in Hn. now rewrite Hn.
  - intros d Hd. apply in_map_iff in Hd. destruct Hd as (k & <- & _).
    cbn [month]. apply Z.eqb_neq in Hp. now rewrite Hp.
Qed.

(** The grid is a run of consecutive days, a whole number of weeks long,
    that starts on the weekday [fw]. *)
Lemma grid_days :
  let w1 := PyDate.weekday (mkDate y m 1) in
  let before := (w1 - fw) mod 7 in
  let after := (fw - w1 - Cal.days_in_month y m) mod 7 in
  let py := fst (Calendar.prevmonth y m) in
  let pm := snd (Calendar.prevmonth y m) in
  let grid :=
    map (mkDate py pm)
        (py_range (Cal.days_in_month py pm + 1 - before)
                  (Cal.days_in_month py pm + 1))
    ++ month_days y m
    ++ map (mkDate (fst (Calendar.nextmonth y m)) (snd (Calendar.nextmonth y m)))
           (py_range 1 (after + 1)) in
  exists n : nat,
    map PyDate.days grid = range (Cal.days_from_civil y m 1 - before) (7 * n)
    /\ (Cal.days_from_civil y m 1 - before + 3 - fw) mod 7 = 0
    /\ (4 <= n <= 6)%nat.
Proof.
  intros w1 before after py pm grid.
  pose proof (Z.mod_pos_bound (w1 - fw) 7 ltac:(lia)) as Hb.
  pose proof (Z.mod_pos_bound (fw - w1 - Cal.days_in_month y m) 7 ltac:(lia)) as Ha.
  fold before in Hb. fold after in Ha.
  pose proof (days_in_month_ge y m) as Hg.
  pose proof (days_in_month_le y m) as Hl.
  set (dim := Cal.days_in_month y m) in *.
  assert ((before + dim + after) mod 7 = 0) as Hmod.
  { unfold before, after. Z.div_mod_to_equations. lia. }
  exists (Z.to_nat ((before + dim + after) / 7)).
  assert (Z.of_nat (7 * Z.to_nat ((before + dim + after) / 7))
          = before + dim + after) as Hlen.
  { Z.div_mod_to_equations. lia. }
  split; [|split].
  - unfold grid, month_days, py_range. rewrite !map_app, !map_map.
    rewrite (days_of_range py pm), (days_of_range y m),
            (days_of_range (fst (Calendar.nextmonth y m)) (snd (Calendar.nextmonth y m))).
    fold dim.
    replace (Cal.days_from_civil py pm (Cal.days_in_month py pm + 1 - before))
      with (Cal.days_from_civil y m 1 - before)
      by (rewrite <- (days_prev_month y m Hm); fold py pm;
          rewrite (days_linear py pm (Cal.days_in_month py pm + 1 - before)),
                  (days_linear py pm (Cal.days_in_month py pm)); lia).
    rewrite <- days_next_month by lia. fold dim.
    replace (Cal.days_from_civil y m dim + 1)
      with (Cal.days_from_civil y m 1 + Z.of_nat (Z.to_nat dim))
      by (rewrite (days_linear y m dim); lia).
    rewrite (range_app (Cal.days_from_civil y m 1)).
    replace (Cal.days_from_civil y m 1)
      with (Cal.days_from_civil y m 1 - before
            + Z.of_nat (Z.to_nat (Cal.days_in_month py pm + 1
                                  - (Cal.days_in_month py pm + 1 - before))))
      at 2 by lia.
    rewrite range_app. f_equal. lia.
  - unfold before, w1, PyDate.weekday, PyDate.days. cbn [year month day].
    Z.div_mod_to_equations. lia.
  - Z.div_mod_to_equations. lia.
Qed.

End MonthGrid.

Lemma month_grid (fw y m : Z) :
  1 <= y <= 9999 -> 1 <= m <= 12 ->
  ((y =? 1) && (m =? 1)) || ((y =? 9999) && (m =? 12)) = false ->
  exists (month_dates : list Date) (n : nat) (start : Z),
    Calendar.itermonthdates fw y m = Done month_dates
    /\ List.length month_dates = (7 * n)%nat
    /\ (4 <= n <= 6)%nat
    /\ map PyDate.days month_dates = range start (7 * n)
    /\ (start + 3 - fw) mod 7 = 0
    /\ (forall P, filter (fun d => (month d =? m) && P d) month_dates
                  = filter P (month_days y m)).
Proof.
  intros Hy Hm He.
  destruct (grid_days fw y m Hm) as (n & Hdays & Hstart & Hn).
  eexists. exists n. eexists.
  split; [apply (itermonthdates_spec fw y m Hy Hm He)|].
  split; [|split; [exact Hn|split; [exact Hdays|split; [exact Hstart|]]]].
  - rewrite <- (length_map PyDate.days), Hdays. apply range_length.
  - intros P. apply (filter_grid y m Hm).
Qed.

Lemma working_days_valid (y m : Z) (holiday_set : list Date) :
  1 <= y <= 9999 -> 1 <= m <= 12 -> (y =? 9999) && (m =? 12) = false ->
  working_days_in_month y m holiday_set
  = Done (filter (is_working_day holiday_set) (month_days y m)).
Proof.
  intros Hy Hm He. unfold working_days_in_month.
  rewrite month_bounds_valid by assumption.
  cbn [bind fst snd].
  pose proof (days_in_month_ge y m) as Hge.
  pose proof (days_in_month_le y m) as Hle.
  rewrite (working_days_loop_spec y m holiday_set Hy Hm
             (Z.to_nat (Cal.days_in_month y m - 1)) 1 []) by lia.
  rewrite He. unfold month_days.
  replace (S (Z.to_nat (Cal.days_in_month y m - 1)))
    with (Z.to_nat (Cal.days_in_month y m)) by lia.
  reflexivity.
Qed.

Section Dashboard.

Variables (names : Names) (user : User) (today yesterday : Date) (y m : Z).
Variables (holiday_table : list Holiday) (st : Store).

Hypothesis Hy : 1 <= y <= 9999.
Hypothesis Hm : 1 <= m <= 12.
Hypothesis Hedge : ((y =? 1) && (m =? 1)) || ((y =? 9999) && (m =? 12)) = false.
Hypothesis Hyesterday : PyDate.add_days today (-1) = Some yesterday.

(** The context of a month that has a month before and a month after. *)
Lemma dashboard_done :
  let first := mkDate y m 1 in
  let last := mkDate y m (Cal.days_in_month y m) in
  let holidays_qs :=
    filter (fun h => date_range first last (h_date h)) holiday_table in
  let holiday_set := map h_date holidays_qs in
  let email := PyStr.lower (PyStr.strip (user_email user)) in
  let present_dates := map date (present_rows st email first last) in
  let content :=
    fun d => fst (day_cell m holiday_set present_dates
                    (checkin_by_date (present_qs st email first last))
                    (holiday_map holidays_qs) yesterday (0%nat, 0%nat) d) in
  exists (month_dates : list Date) (n : nat) (start : Z),
    List.length month_dates = (7 * n)%nat
    /\ (4 <= n <= 6)%nat
    /\ map PyDate.days month_dates = range start (7 * n)
    /\ (start + 3 - 6) mod 7 = 0
    /\ (forall P, filter (fun d => (month d =? m) && P d) month_dates
                  = filter P (month_days y m))
    /\ dashboard names user today y m holiday_table st
       = Done (mkDashboardContext (display_name names user)
                 (List.length (filter (counts_present holiday_set present_dates)
                                 (month_days y m)))
                 (List.length (filter (is_working_day holiday_set)
                                 (month_days y m)))
                 (map (map content) (weeks_of month_dates))
                 (fst (Calendar.prevmonth y m)) (snd (Calendar.prevmonth y m))
                 (fst (Calendar.nextmonth y m)) (snd (Calendar.nextmonth y m))).
Proof.
  intros first last holidays_qs holiday_set email present_dates content.
  destruct (month_grid 6 y m Hy Hm Hedge)
    as (md & n & start & Emd & Hlen & Hn & Hdays & Hstart & Hfilter).
  exists md, n, start.
  split; [exact Hlen|]. split; [exact Hn|]. split; [exact Hdays|].
  split; [exact Hstart|]. split; [exact Hfilter|].
  unfold dashboard. rewrite month_bounds_valid by assumption.
  cbn [bind fst snd]. rewrite dashboard_navigation_valid by assumption.
  rewrite Hedge. cbn [bind fst snd year month].
  rewrite Emd. cbn [or_raise bind].
  rewrite Hyesterday. cbn [or_raise bind].
  fold first last. fold holidays_qs. fold holiday_set. fold email.
  fold present_dates.
  rewrite (grid_rows_spec _ content
             (fun d => (month d =? m) && counts_present holiday_set present_dates d)
             (fun d => (month d =? m) && is_working_day holiday_set d))
    by (intros c d; apply day_cell_spec).
  cbn [fst snd]. rewrite weeks_of_concat, !Hfilter.
  reflexivity.
Qed.

End Dashboard.

Lemma holiday_set_month (y m : Z) (holiday_table : list Holiday) (d : Date) :
  In d (month_days y m) ->
  PyDate.mem d
    (map h_date
       (filter (fun h => date_range (mkDate y m 1)
                           (mkDate y m (Cal.days_in_month y m)) (h_date h))
               holiday_table))
  = PyDate.mem d (map h_date holiday_table).
Proof.
  intros Hd. apply mem_ext. rewrite !in_map_iff. split.
  - intros (h & E & Hh). apply filter_In in Hh. exists h. tauto.
  - intros (h & E & Hh). exists h. split; [exact E|].
    apply filter_In. split; [exact Hh|]. rewrite E.
    now apply month_days_in_range.
Qed.

Lemma present_dates_month (y m : Z) (st : Store) (email : string) (d : Date) :
  In d (month_days y m) ->
  PyDate.mem d
    (map date (present_rows st email (mkDate y m 1)
                 (mkDate y m (Cal.days_in_month y m))))
  = PyDate.mem d (present_on st email).
Proof.
  intros Hd. apply mem_ext. unfold present_on, present_rows.
  rewrite !in_map_iff. split.
  - intros (r & E & Hr). apply filter_In in Hr. destruct Hr as [Hin Hr].
    rewrite !andb_true_iff in Hr. exists r. split; [exact E|].
    apply filter_In. rewrite andb_true_iff. tauto.
  - intros (r & E & Hr). apply filter_In in Hr. destruct Hr as [Hin Hr].
    rewrite andb_true_iff in Hr. exists r. split; [exact E|].
    apply filter_In. split; [exact Hin|]. rewrite !andb_true_iff, E.
    pose proof (month_days_in_range y m d Hd). tauto.
Qed.

Section DashboardTheorems.

Variables (names : Names) (user : User) (today : Date) (y m : Z).
Variables (holiday_table : list Holiday) (st : Store).

(** The dashboard raises OverflowError for a year or a month that does not
    fit a C int, ValueError for another year outside 1..9999 or month outside
    1..12, and OverflowError for January of year 1 and December of year
    9999, which have no month before or after (and when today has no
    yesterday); otherwise it renders, with the month before and the month
    after for the navigation. *)
Theorem dashboard_outcome :
  let fits := PyDate.in_c_int y && PyDate.in_c_int m in
  let valid := (1 <=? y) && (y <=? 9999) && (1 <=? m) && (m <=? 12) in
  let at_end := ((y =? 1) && (m =? 1)) || ((y =? 9999) && (m =? 12)) in
  (fits = false ->
   dashboard names user today y m holiday_table st = Raise OverflowError)
  /\ (fits = true -> valid = false ->
      dashboard names user today y m holiday_table st = Raise ValueError)
  /\ (valid = true -> at_end = true ->
      dashboard names user today y m holiday_table st = Raise OverflowError)
  /\ (valid = true -> at_end = false ->
      PyDate.add_days today (-1) = None ->
      dashboard names user today y m holiday_table st = Raise OverflowError)
  /\ (valid = true -> at_end = false ->
      PyDate.add_days today (-1) <> None ->
      exists ctx,
        dashboard names user today y m holiday_table st = Done ctx
        /\ employee_name ctx = display_name names user
        /\ (prev_year ctx, prev_month ctx) = Calendar.prevmonth y m
        /\ (next_year ctx, next_month ctx) = Calendar.nextmonth y m).
Proof.
  intros fits valid at_end.
  split; [|split; [|split; [|split]]].
  - intros Hf. unfold dashboard. rewrite month_bounds_spec. fold fits.
    now rewrite Hf.
  - intros Hf Hv. unfold dashboard. rewrite month_bounds_spec. fold fits valid.
    now rewrite Hf, Hv.
  - intros Hv He. unfold valid in Hv.
    rewrite !andb_true_iff, !Z.leb_le in Hv. unfold dashboard.
    rewrite month_bounds_valid, dashboard_navigation_valid by lia.
    fold at_end. now rewrite He.
  - intros Hv He Hyes. unfold valid in Hv.
    rewrite !andb_true_iff, !Z.leb_le in Hv.
    unfold dashboard.
    rewrite month_bounds_valid, dashboard_navigation_valid by lia.
    fold at_end. rewrite He. cbn [bind fst snd].
    rewrite (itermonthdates_spec 6 y m) by (try exact He; lia).
    cbn [or_raise bind]. now rewrite Hyes.
  - intros Hv He Hyes. unfold valid in Hv.
    rewrite !andb_true_iff, !Z.leb_le in Hv.
    destruct (PyDate.add_days today (-1)) as [yesterday|] eqn:E; [|congruence].
    destruct (dashboard_done names user today yesterday y m holiday_table st
                ltac:(lia) ltac:(lia) He E) as (md & n & start & _ & _ & _ & _ & _ & Hd).
    eexists. split; [exact Hd|]. cbn.
    repeat split; now destruct (Calendar.prevmonth y m), (Calendar.nextmonth y m).
Qed.

End DashboardTheorems.

Section DashboardRendered.

Variables (names : Names) (user : User) (today yesterday : Date) (y m : Z).
Variables (holiday_table : list Holiday) (st : Store).

Hypothesis Hy : 1 <= y <= 9999.
Hypothesis Hm : 1 <= m <= 12.
Hypothesis Hedge : ((y =? 1) && (m =? 1)) || ((y =? 9999) && (m =? 12)) = false.
Hypothesis Hyesterday : PyDate.add_days today (-1) = Some yesterday.

(** The working days that the dashboard counts are the days that
    [working_days_in_month] lists for the dates of all holidays; the days
    present are the days of the month with a check-in of the user's email
    that fall on a weekday or on a holiday. *)
Theorem dashboard_counts :
  exists ctx working_days,
    dashboard names user today y m holiday_table st = Done ctx
    /\ working_days_in_month y m (map h_date holiday_table) = Done working_days
    /\ total_days ctx = List.length working_days
    /\ days_present ctx
       = List.length
           (filter (counts_present (map h_date holiday_table)
                      (present_on st (PyStr.lower (PyStr.strip (user_email user)))))
                   (month_days y m)).
Proof.
  destruct (dashboard_done names user today yesterday y m holiday_table st
              Hy Hm Hedge Hyesterday) as (md & n & start & _ & _ & _ & _ & _ & Hd).
  apply orb_false_iff in Hedge. destruct Hedge as [_ E2].
  eexists.
  exists (filter (is_working_day (map h_date holiday_table)) (month_days y m)).
  split; [exact Hd|].
  split; [apply (working_days_valid y m _ Hy Hm E2)|].
  cbn [total_days days_present]. split.
  - f_equal. apply filter_ext_in. intros d Hin. unfold is_working_day.
    now rewrite (holiday_set_month y m holiday_table d Hin).
  - f_equal. apply filter_ext_in. intros d Hin. unfold counts_present.
    now rewrite (holiday_set_month y m holiday_table d Hin),
                (present_dates_month y m st _ d Hin).
Qed.

(** The grid is whole weeks, four to six of them, of consecutive days from a
    Sunday on, and the cells of the month are its days, once each and in
    order. *)
Theorem dashboard_grid_is_whole_weeks :
  exists ctx start,
    dashboard names user today y m holiday_table st = Done ctx
    /\ Forall (fun w => List.length w = 7%nat) (weeks ctx)
    /\ (4 <= List.length (weeks ctx) <= 6)%nat
    /\ map (fun c => PyDate.days (cell_date c)) (concat (weeks ctx))
       = range start (7 * List.length (weeks ctx))
    /\ (start + 3) mod 7 = 6
    /\ map cell_date (filter in_month (concat (weeks ctx))) = month_days y m.
Proof.
  destruct (dashboard_done names user today yesterday y m holiday_table st
              Hy Hm Hedge Hyesterday)
    as (md & n & start & Hlen & Hn & Hdays & Hstart & Hfilter & Hd).
  destruct (weeks_of_length md n Hlen) as [Hweeks Hseven].
  eexists. exists start. split; [exact Hd|]. cbn [weeks].
  rewrite length_map, Hweeks.
  split; [|split; [exact Hn|split; [|split]]].
  - apply Forall_forall. intros w Hw. apply in_map_iff in Hw.
    destruct Hw as (w0 & <- & Hw0). rewrite length_map.
    rewrite Forall_forall in Hseven. now apply Hseven.
  - rewrite <- concat_map, weeks_of_concat, map_map.
    rewrite <- Hdays. apply map_ext. intros d.
    now destruct (day_cell_content m
                    (map h_date (filter (fun h => date_range (mkDate y m 1)
                        (mkDate y m (Cal.days_in_month y m)) (h_date h)) holiday_table))
                    (map date (present_rows st (PyStr.lower (PyStr.strip (user_email user)))
                        (mkDate y m 1) (mkDate y m (Cal.days_in_month y m))))
                    (checkin_by_date (present_qs st (PyStr.lower (PyStr.strip (user_email user)))
                        (mkDate y m 1) (mkDate y m (Cal.days_in_month y m))))
                    (holiday_map (filter (fun h => date_range (mkDate y m 1)
                        (mkDate y m (Cal.days_in_month y m)) (h_date h)) holiday_table))
                    yesterday (0%nat, 0%nat) d) as [-> _].
  - Z.div_mod_to_equations. lia.
  - rewrite <- concat_map, weeks_of_concat.
    rewrite <- (filter_all (fun _ => true) (month_days y m)) by reflexivity.
    rewrite <- (Hfilter (fun _ => true)).
    clear. induction md as [|d md IH]; [reflexivity|].
    cbn [map filter].
    destruct (day_cell_content m
                (map h_date (filter (fun h => date_range (mkDate y m 1)
                    (mkDate y m (Cal.days_in_month y m)) (h_date h)) holiday_table))
                (map date (present_rows st (PyStr.lower (PyStr.strip (user_email user)))
                    (mkDate y m 1) (mkDate y m (Cal.days_in_month y m))))
                (checkin_by_date (present_qs st (PyStr.lower (PyStr.strip (user_email user)))
                    (mkDate y m 1) (mkDate y m (Cal.days_in_month y m))))
                (holiday_map (filter (fun h => date_range (mkDate y m 1)
                    (mkDate y m (Cal.days_in_month y m)) (h_date h)) holiday_table))
                yesterday (0%nat, 0%nat) d) as (Ed & Ein & _).
    rewrite Ein. destruct (month d =? m); cbn [map andb]; now rewrite ?Ed, IH.
Qed.

End DashboardRendered.

Section DashboardCells.

Variables (names : Names) (user : User) (today yesterday : Date) (y m : Z).
Variables (holiday_table : list Holiday) (st : Store).

Hypothesis Hy : 1 <= y <= 9999.
Hypothesis Hm : 1 <= m <= 12.
Hypothesis Hedge : ((y =? 1) && (m =? 1)) || ((y =? 9999) && (m =? 12)) = false.
Hypothesis Hyesterday : PyDate.add_days today (-1) = Some yesterday.

(** A cell outside the month is empty.  A cell of the month shows Present
    for a check-in on a weekday or on a holiday, Holiday for a holiday, and
    Absent for a working day up to yesterday without a check-in. *)
Theorem dashboard_badges :
  let email := PyStr.lower (PyStr.strip (user_email user)) in
  let holiday_dates := map h_date holiday_table in
  exists ctx,
    dashboard names user today y m holiday_table st = Done ctx
    /\ Forall
         (fun c =>
            (in_month c = false -> badges c = [] /\ tips c = [])
            /\ (in_month c = true ->
                In (cell_date c) (month_days y m)
                /\ (In "Present" (badges c)
                    <-> counts_present holiday_dates (present_on st email)
                          (cell_date c) = true)
                /\ (In "Holiday" (badges c)
                    <-> PyDate.mem (cell_date c) holiday_dates = true)
                /\ (In "Absent" (badges c)
                    <-> is_working_day holiday_dates (cell_date c) = true
                        /\ PyDate.mem (cell_date c) (present_on st email) = false
                        /\ PyDate.leb (cell_date c) yesterday = true)))
         (concat (weeks ctx)).
Proof.
  intros email holiday_dates.
  destruct (dashboard_done names user today yesterday y m holiday_table st
              Hy Hm Hedge Hyesterday)
    as (md & n & start & _ & _ & _ & _ & Hfilter & Hd).
  eexists. split; [exact Hd|]. cbn [weeks].
  rewrite <- concat_map, weeks_of_concat.
  apply Forall_forall. intros c Hc. apply in_map_iff in Hc.
  destruct Hc as (d & <- & Hin).
  match goal with
  | |- context [fst (day_cell ?a ?b ?c ?e ?f ?g ?h d)] =>
      destruct (day_cell_content a b c e f g h d)
        as (Ed & Ein & Hp & Hh & Ha & Hout)
  end.
  rewrite Ed, Ein. split; [exact Hout|]. intros Em.
  assert (In d (month_days y m)) as Hmonth.
  { assert (In d (filter (fun _ => true) (month_days y m))) as Hf.
    { rewrite <- (Hfilter (fun _ => true)). apply filter_In.
      now rewrite Em. }
    now apply filter_In in Hf. }
  rewrite Em in Hp, Hh, Ha. cbn [andb] in Hp, Hh, Ha.
  unfold counts_present, is_working_day in *.
  rewrite (holiday_set_month y m holiday_table d Hmonth) in Hp, Hh, Ha.
  rewrite (present_dates_month y m st _ d Hmonth) in Hp, Ha.
  fold email in Hp, Ha. fold holiday_dates in Hp, Hh, Ha.
  split; [exact Hmonth|]. split; [exact Hp|]. split; [exact Hh|].
  split.
  - intros Hx. apply Ha in Hx. rewrite !andb_true_iff, !negb_true_iff in Hx.
    rewrite andb_true_iff, negb_true_iff. tauto.
  - intros Hx. apply Ha. rewrite andb_true_iff, negb_true_iff in Hx.
    rewrite !andb_true_iff, !negb_true_iff. tauto.
Qed.

End DashboardCells.

Section DashboardAfterUpload.

Context `{Pandas}.

Variables (names : Names) (user : User) (today yesterday : Date) (y m : Z).
Variables (holiday_table : list Holiday).
Variables (users : list User) (st : Store) (df0 : DataFrame) (g : CleanRow).

Hypothesis Hy : 1 <= y <= 9999.
Hypothesis Hm : 1 <= m <= 12.
Hypothesis Hedge : ((y =? 1) && (m =? 1)) || ((y =? 9999) && (m =? 12)) = false.
Hypothesis Hyesterday : PyDate.add_days today (-1) = Some yesterday.
Hypothesis Hunique : unique_store st.
Hypothesis Hg : In g (processed df0).
Hypothesis Hemail : c_email g = PyStr.lower (PyStr.strip (user_email user)).
Hypothesis Hdate : In (c_date g) (month_days y m).
Hypothesis Hweekday : PyDate.weekday (c_date g) < 5.

(** After an upload, the dashboard of the user whose email the sheet names
    shows Present on each weekday of the batch, and counts it. *)
Theorem dashboard_shows_uploaded_day :
  exists ctx c,
    dashboard names user today y m holiday_table
      (snd (upload_attendance users st df0)) = Done ctx
    /\ In c (concat (weeks ctx))
    /\ cell_date c = c_date g
    /\ in_month c = true
    /\ In "Present" (badges c)
    /\ (1 <= days_present ctx)%nat.
Proof.
  set (st' := snd (upload_attendance users st df0)).
  destruct (dashboard_done names user today yesterday y m holiday_table st'
              Hy Hm Hedge Hyesterday)
    as (md & n & start & _ & _ & _ & _ & Hfilter & Hd).
  destruct (upload_overwrites users st df0 Hunique) as (_ & Hst & _).
  specialize (Hst g Hg). fold st' in Hst.
  assert (Hmonth := Hdate). apply month_days_In in Hmonth.
  destruct Hmonth as (_ & Em & _). apply Z.eqb_eq in Em.
  assert (In (c_date g) md) as Hmd.
  { assert (In (c_date g) (filter (fun d => (month d =? m) && true) md)) as Hf
        by (rewrite (Hfilter (fun _ => true)); apply filter_In; tauto).
    now apply filter_In in Hf. }
  set (email := PyStr.lower (PyStr.strip (user_email user))) in *.
  assert (PyDate.mem (c_date g)
            (map date (present_rows st' email (mkDate y m 1)
                         (mkDate y m (Cal.days_in_month y m)))) = true) as Hpres.
  { apply mem_spec. apply in_map_iff.
    exists (mkAttendance (find_user users (c_email g)) (Some (c_email g))
              (c_date g) (Some (c_time g)) Present).
    split; [reflexivity|]. apply filter_In. split.
    - assert (In (mkAttendance (find_user users (c_email g)) (Some (c_email g))
                    (c_date g) (Some (c_time g)) Present)
                 (stored st' (key_of g))) as Hin by (rewrite Hst; now left).
      unfold stored in Hin. now apply filter_In in Hin.
    - cbn [employee_email date check_in_time email_iexact is_some is_none negb].
      rewrite Hemail, String.eqb_refl, (month_days_in_range y m _ Hdate).
      reflexivity. }
  assert (counts_present
            (map h_date (filter (fun h => date_range (mkDate y m 1)
                           (mkDate y m (Cal.days_in_month y m)) (h_date h))
                           holiday_table))
            (map date (present_rows st' email (mkDate y m 1)
                         (mkDate y m (Cal.days_in_month y m))))
            (c_date g) = true) as Hcount.
  { unfold counts_present. rewrite Hpres.
    assert ((PyDate.weekday (c_date g) <? 5) = true) as -> by (apply Z.ltb_lt; lia).
    now rewrite orb_true_r. }
  eexists. eexists. split; [exact Hd|]. cbn [weeks days_present].
  rewrite <- concat_map, weeks_of_concat.
  split; [apply in_map; exact Hmd|].
  match goal with
  | |- context [fst (day_cell ?a ?b ?c ?e ?f ?h ?i (c_date g))] =>
      destruct (day_cell_content a b c e f h i (c_date g))
        as (Ed & Ein & Hp & _)
  end.
  split; [exact Ed|]. split; [now rewrite Ein|].
  split; [apply Hp; now rewrite Em, Hcount|].
  apply (filter_nonempty _ _ (c_date g) Hdate Hcount).
Qed.

End DashboardAfterUpload.

(** [iter_month_grid] lists whole weeks, four to six of them, of consecutive
    days from a Monday on, and the dates of the month among them are its
    days, once each and in order. *)
Theorem iter_month_grid_is_whole_weeks (y m : Z) :
  1 <= y <= 9999 -> 1 <= m <= 12 ->
  ((y =? 1) && (m =? 1)) || ((y =? 9999) && (m =? 12)) = false ->
  exists (grid : list Date) (n : nat) (start : Z),
    iter_month_grid y m = Done grid
    /\ List.length grid = (7 * n)%nat
    /\ (4 <= n <= 6)%nat
    /\ map PyDate.days grid = range start (7 * n)
    /\ (start + 3) mod 7 = 0
    /\ filter (fun d => month d =? m) grid = month_days y m.
Proof.
  intros Hy Hm He.
  destruct (month_grid 0 y m Hy Hm He)
    as (md & n & start & Emd & Hlen & Hn & Hdays & Hstart & Hfilter).
  exists md, n, start. unfold iter_month_grid. rewrite Emd.
  split; [reflexivity|]. split; [exact Hlen|]. split; [exact Hn|].
  split; [exact Hdays|]. split; [now rewrite Z.sub_0_r in Hstart|].
  rewrite <- (filter_all (fun _ => true) (month_days y m)) by reflexivity.
  rewrite <- (Hfilter (fun _ => true)). apply filter_ext.
  intros d. now rewrite andb_true_r.
Qed.

(** *** The dashboard at May 2024 *)

Lemma dashboard_counts_witness :
  exists ctx working_days,
    dashboard (mkNames "" "" "") (mkUser 7 "a@x.com") (mkDate 2024 5 15) 2024 5
      [mkHoliday (mkDate 2024 5 1) "May Day" "PUBLIC"] early_store = Done ctx
    /\ working_days_in_month 2024 5
         (map h_date [mkHoliday (mkDate 2024 5 1) "May Day" "PUBLIC"])
       = Done working_days
    /\ total_days ctx = List.length working_days
    /\ days_present ctx
       = List.length
           (filter (counts_present
                      (map h_date [mkHoliday (mkDate 2024 5 1) "May Day" "PUBLIC"])
                      (present_on early_store
                         (PyStr.lower (PyStr.strip (user_email (mkUser 7 "a@x.com"))))))
                   (month_days 2024 5)).
Proof.
  apply (dashboard_counts (mkNames "" "" "") (mkUser 7 "a@x.com")
           (mkDate 2024 5 15) (mkDate 2024 5 14) 2024 5
           [mkHoliday (mkDate 2024 5 1) "May Day" "PUBLIC"] early_store);
    [lia | lia | reflexivity | vm_compute; reflexivity].
Defined.

Lemma dashboard_grid_is_whole_weeks_witness :
  exists ctx start,
    dashboard (mkNames "" "" "") (mkUser 7 "a@x.com") (mkDate 2024 5 15) 2024 5
      [] early_store = Done ctx
    /\ Forall (fun w => List.length w = 7%nat) (weeks ctx)
    /\ (4 <= List.length (weeks ctx) <= 6)%nat
    /\ map (fun c => PyDate.days (cell_date c)) (concat (weeks ctx))
       = range start (7 * List.length (weeks ctx))
    /\ (start + 3) mod 7 = 6
    /\ map cell_date (filter in_month (concat (weeks ctx))) = month_days 2024 5.
Proof.
  apply (dashboard_grid_is_whole_weeks (mkNames "" "" "") (mkUser 7 "a@x.com")
           (mkDate 2024 5 15) (mkDate 2024 5 14) 2024 5 [] early_store);
    [lia | lia | reflexivity | vm_compute; reflexivity].
Defined.

Lemma dashboard_badges_witness :
  exists ctx,
    dashboard (mkNames "" "" "") (mkUser 7 "a@x.com") (mkDate 2024 5 15) 2024 5
      [mkHoliday (mkDate 2024 5 1) "May Day" "PUBLIC"] early_store = Done ctx
    /\ Forall
         (fun c =>
            (in_month c = false -> badges c = [] /\ tips c = [])
            /\ (in_month c = true ->
                In (cell_date c) (month_days 2024 5)
                /\ (In "Present" (badges c)
                    <-> counts_present [mkDate 2024 5 1]
                          (present_on early_store "a@x.com") (cell_date c) = true)
                /\ (In "Holiday" (badges c)
                    <-> PyDate.mem (cell_date c) [mkDate 2024 5 1] = true)
                /\ (In "Absent" (badges c)
                    <-> is_working_day [mkDate 2024 5 1] (cell_date c) = true
                        /\ PyDate.mem (cell_date c)
                             (present_on early_store "a@x.com") = false
                        /\ PyDate.leb (cell_date c) (mkDate 2024 5 14) = true)))
         (concat (weeks ctx)).
Proof.
  apply (dashboard_badges (mkNames "" "" "") (mkUser 7 "a@x.com")
           (mkDate 2024 5 15) (mkDate 2024 5 14) 2024 5
           [mkHoliday (mkDate 2024 5 1) "May Day" "PUBLIC"] early_store);
    [lia | lia | reflexivity | vm_compute; reflexivity].
Defined.

Lemma dashboard_shows_uploaded_day_witness :
  exists ctx c,
    dashboard (mkNames "" "" "") (mkUser 7 "a@x.com") (mkDate 2024 5 15) 2024 5 []
      (snd (upload_attendance (H := pandas_model) [] early_store late_table))
    = Done ctx
    /\ In c (concat (weeks ctx))
    /\ cell_date c = mkDate 2024 5 1
    /\ in_month c = true
    /\ In "Present" (badges c)
    /\ (1 <= days_present ctx)%nat.
Proof.
  apply (dashboard_shows_uploaded_day (H := pandas_model)
           (mkNames "" "" "") (mkUser 7 "a@x.com")
           (mkDate 2024 5 15) (mkDate 2024 5 14) 2024 5 []
           [] early_store late_table
           (mkCleanRow "a@x.com" (mkDate 2024 5 1) (mkTime 9 0 0 0))).
  - lia.
  - lia.
  - reflexivity.
  - vm_compute. reflexivity.
  - intros k. unfold early_store, stored. cbn [filter].
    destruct (matches (fst k) (snd k) _); simpl; lia.
  - vm_compute. left. reflexivity.
  - vm_compute. reflexivity.
  - vm_compute. left. reflexivity.
  - vm_compute. reflexivity.
Defined.

Lemma iter_month_grid_is_whole_weeks_witness :
  exists (grid : list Date) (n : nat) (start : Z),
    iter_month_grid 2024 5 = Done grid
    /\ List.length grid = (7 * n)%nat
    /\ (4 <= n <= 6)%nat
    /\ map PyDate.days grid = range start (7 * n)
    /\ (start + 3) mod 7 = 0
    /\ filter (fun d => month d =? 5) grid = month_days 2024 5.
Proof.
  apply (iter_month_grid_is_whole_weeks 2024 5); [lia | lia | reflexivity].
Defined.

(** ** The defaulter list and the tooltips *)

(** *** Distinct dates *)

Lemma distinct_dates_In (l : list Date) (d : Date) :
  In d (distinct_dates l) <-> In d l.
Proof.
  induction l as [|x l IH]; simpl; [tauto|].
  rewrite filter_In, IH, negb_true_iff. split.
  - intros [E|[Hin _]]; auto.
  - intros [E|Hin]; [now left|].
    destruct (date_eqb x d) eqn:Ex.
    + left. now apply date_eqb_eq.
    + right. split; [exact Hin | reflexivity].
Qed.

Lemma distinct_dates_NoDup (l : list Date) : NoDup (distinct_dates l).
Proof.
  induction l as [|x l IH]; simpl; constructor.
  - rewrite filter_In, negb_true_iff. intros [_ Hx].
    assert (date_eqb x x = true) by now apply date_eqb_eq. congruence.
  - now apply NoDup_filter.
Qed.

(** The distinct dates of a list, counted on a list without repetition that
    holds them all. *)
Lemma distinct_dates_count (all dates : list Date) :
  NoDup all -> (forall d, In d dates -> In d all) ->
  List.length (distinct_dates dates)
  = List.length (filter (fun d => PyDate.mem d dates) all).
Proof.
  intros ND Hincl. apply Permutation_length. apply NoDup_Permutation.
  - apply distinct_dates_NoDup.
  - now apply NoDup_filter.
  - intros d. rewrite distinct_dates_In, filter_In, mem_spec. split.
    + intros Hd. split; [now apply Hincl | exact Hd].
    + tauto.
Qed.

Lemma NoDup_map_inj {X Y} (f : X -> Y) (l : list X) :
  (forall a b, f a = f b -> a = b) -> NoDup l -> NoDup (map f l).
Proof.
  intros Hinj ND. induction ND as [|x l Hx ND IH]; simpl; constructor.
  - intros Hin. apply in_map_iff in Hin. destruct Hin as (z & E & Hz).
    apply Hinj in E. now subst.
  - exact IH.
Qed.

Lemma month_days_NoDup (y m : Z) : NoDup (month_days y m).
Proof.
  unfold month_days, range. rewrite map_map. apply NoDup_map_inj.
  - intros a b E. apply (f_equal day) in E. cbn [day] in E. lia.
  - apply seq_NoDup.
Qed.

(** *** Weekdays of a month *)

Lemma weekday_of_day (y m d : Z) :
  PyDate.weekday (mkDate y m d)
  = (PyDate.weekday (mkDate y m 1) + (d - 1)) mod 7.
Proof.
  unfold PyDate.weekday, PyDate.days. cbn [year month day].
  rewrite (days_linear y m d), Zplus_mod_idemp_l. f_equal. lia.
Qed.

Lemma weekdays_of_month (w dim : Z) :
  0 <= w < 7 -> 28 <= dim <= 31 ->
  (20 <= List.length (filter (fun d => ((w + (d - 1)) mod 7 <? 5)%Z)
                        (range 1 (Z.to_nat dim))) <= 23)%nat.
Proof.
  intros Hw Hd.
  assert (w = 0 \/ w = 1 \/ w = 2 \/ w = 3 \/ w = 4 \/ w = 5 \/ w = 6) as Hwc by lia.
  assert (dim = 28 \/ dim = 29 \/ dim = 30 \/ dim = 31) as Hdc by lia.
  destruct Hdc as [-> | [-> | [-> | ->]]];
    destruct Hwc as [-> | [-> | [-> | [-> | [-> | [-> | ->]]]]]];
    vm_compute; lia.
Qed.

Lemma filter_length_le {X} (f g : X -> bool) (l : list X) :
  (forall x, In x l -> f x = true -> g x = true) ->
  (List.length (filter f l) <= List.length (filter g l))%nat.
Proof.
  induction l as [|x l IH]; intros Himp; simpl; [lia|].
  assert (List.length (filter f l) <= List.length (filter g l))%nat as Hle
      by (apply IH; intros z Hz; apply Himp; now right).
  destruct (f x) eqn:Ef.
  - rewrite (Himp x (or_introl eq_refl) Ef). simpl. lia.
  - destruct (g x); simpl; lia.
Qed.

Lemma working_days_bound (y m : Z) (holiday_set : list Date) :
  (List.length (filter (is_working_day holiday_set) (month_days y m)) <= 23)%nat.
Proof.
  pose proof (days_in_month_ge y m) as Hge.
  pose proof (days_in_month_le y m) as Hle.
  pose proof (Z.mod_pos_bound (PyDate.days (mkDate y m 1) + 3) 7 ltac:(lia)) as Hw.
  fold (PyDate.weekday (mkDate y m 1)) in Hw.
  destruct (weekdays_of_month (PyDate.weekday (mkDate y m 1))
              (Cal.days_in_month y m) Hw ltac:(lia)) as [_ Hup].
  eapply Nat.le_trans; [|exact Hup].
  eapply Nat.le_trans;
    [apply (filter_length_le _ (fun d => PyDate.weekday d <? 5))|].
  - intros d _ E. unfold is_working_day in E. now apply andb_true_iff in E.
  - unfold month_days. clear Hup.
    induction (range 1 (Z.to_nat (Cal.days_in_month y m))) as [|k l IH];
      [simpl; lia|].
    cbn [map filter]. rewrite weekday_of_day.
    destruct ((PyDate.weekday (mkDate y m 1) + (k - 1)) mod 7 <? 5);
      cbn [List.length]; lia.
Qed.

Lemma date_range_month (y m : Z) (d : Date) :
  date_range (mkDate y m 1) (mkDate y m (Cal.days_in_month y m)) d = true
  <-> In d (month_days y m).
Proof.
  split; [|apply month_days_in_range].
  intros Hr. apply month_days_In. unfold date_range in Hr.
  apply andb_true_iff in Hr. destruct Hr as [H1 H2].
  unfold PyDate.leb, date_compare in H1, H2. cbn [year month day] in H1, H2.
  destruct (Z.compare_spec y (year d)) as [Ey|Ey|Ey];
    destruct (Z.compare_spec (year d) y) as [Ey'|Ey'|Ey']; try lia;
    try discriminate.
  destruct (Z.compare_spec m (month d)) as [Em|Em|Em];
    destruct (Z.compare_spec (month d) m) as [Em'|Em'|Em']; try lia;
    try discriminate.
  destruct (Z.compare_spec 1 (day d)); try discriminate;
    destruct (Z.compare_spec (day d) (Cal.days_in_month y m)); try discriminate;
    lia.
Qed.

Lemma distinct_emails_In (l : list (option string)) (e : option string) :
  In e (distinct_emails l) -> In e l.
Proof.
  induction l as [|x l IH]; simpl; [tauto|].
  intros [E|Hin]; [now left|]. apply filter_In in Hin. right. now apply IH.
Qed.

Lemma working_days_loop_month (y m : Z) (holiday_set : list Date) :
  1 <= y <= 9999 -> 1 <= m <= 12 -> (y =? 9999) && (m =? 12) = false ->
  working_days_loop 32 (mkDate y m 1) (mkDate y m (Cal.days_in_month y m))
    holiday_set []
  = Done (filter (is_working_day holiday_set) (month_days y m)).
Proof.
  intros Hy Hm He.
  pose proof (days_in_month_ge y m) as Hge.
  pose proof (days_in_month_le y m) as Hle.
  rewrite (working_days_loop_spec y m holiday_set Hy Hm
             (Z.to_nat (Cal.days_in_month y m - 1)) 1 []) by lia.
  rewrite He. unfold month_days.
  replace (S (Z.to_nat (Cal.days_in_month y m - 1)))
    with (Z.to_nat (Cal.days_in_month y m)) by lia.
  reflexivity.
Qed.

Lemma present_days_le (st : Store) (eml : string) (first last : Date)
    (working_days : list Date) :
  NoDup working_days ->
  (present_days st eml first last working_days <= List.length working_days)%nat.
Proof.
  intros ND. unfold present_days. apply NoDup_incl_length.
  - apply distinct_dates_NoDup.
  - intros d Hd. apply distinct_dates_In, in_map_iff in Hd.
    destruct Hd as (r & <- & Hr). apply filter_In in Hr.
    destruct Hr as [_ Hr]. rewrite !andb_true_iff in Hr.
    apply mem_spec. tauto.
Qed.

Lemma total_working_days_bounds (working_days : list Date) :
  (List.length working_days <= total_working_days working_days)%nat
  /\ (1 <= total_working_days working_days)%nat
  /\ (total_working_days working_days <= Nat.max 1 (List.length working_days))%nat.
Proof.
  unfold total_working_days. destruct (List.length working_days); lia.
Qed.

(** [defaulter_list] raises OverflowError for a year or a month that does
    not fit a C int, ValueError for another year outside 1..9999 or month
    outside 1..12, and OverflowError for December 9999.  Otherwise every
    entry it collects has a non-empty email that a row of the month
    carries, fewer present days than the threshold, and no more present days
    than total days, which are between 1 and 23; with a threshold of 0
    there are no entries. *)
Theorem defaulter_rows_entries (names : User -> Names) (users : list User)
    (st : Store) (holiday_table : list Holiday) (y m : Z) (email_q : string)
    (threshold_days : Z) :
  let fits := PyDate.in_c_int y && PyDate.in_c_int m in
  let valid := (1 <=? y) && (y <=? 9999) && (1 <=? m) && (m <=? 12) in
  let run := defaulter_rows names users st holiday_table y m email_q
               threshold_days in
  (fits = false -> run = Raise OverflowError)
  /\ (fits = true -> valid = false -> run = Raise ValueError)
  /\ (valid = true -> (y =? 9999) && (m =? 12) = true -> run = Raise OverflowError)
  /\ (valid = true -> (y =? 9999) && (m =? 12) = false ->
      exists rows,
        run = Done rows
        /\ Forall (fun e =>
                     dl_email e <> ""
                     /\ Z.of_nat (dl_present_days e) < threshold_days
                     /\ (dl_present_days e <= dl_total_days e)%nat
                     /\ (1 <= dl_total_days e <= 23)%nat
                     /\ exists r, In r st
                                  /\ employee_email r = Some (dl_email e)
                                  /\ In (date r) (month_days y m)) rows
        /\ (threshold_days <= 0 -> rows = [])).
Proof.
  intros fits valid run. unfold run, defaulter_rows. rewrite month_bounds_spec.
  fold fits valid. split; [intros ->; reflexivity|].
  split; [intros -> ->; reflexivity|].
  split.
  { intros Hv He. assert (fits = true) as Hf by (now apply valid_fits).
    rewrite Hf, Hv. cbn [bind fst snd].
    unfold valid in Hv. rewrite !andb_true_iff, !Z.leb_le in Hv.
    pose proof (days_in_month_ge y m) as Hge.
    pose proof (days_in_month_le y m) as Hle.
    rewrite (working_days_loop_spec y m _ ltac:(lia) ltac:(lia)
               (Z.to_nat (Cal.days_in_month y m - 1)) 1 []) by lia.
    now rewrite He. }
  intros Hv He. assert (fits = true) as Hf by (now apply valid_fits).
  rewrite Hf, Hv. cbn [bind fst snd].
  unfold valid in Hv. rewrite !andb_true_iff, !Z.leb_le in Hv.
  rewrite working_days_loop_month by (try exact He; lia). cbn [bind].
  set (first := mkDate y m 1). set (last := mkDate y m (Cal.days_in_month y m)).
  set (hs := map h_date (filter (fun h => date_range first last (h_date h))
                           holiday_table)).
  set (wd := filter (is_working_day hs) (month_days y m)).
  set (emails_qs := if String.eqb email_q "" then _ else _).
  eexists. split; [reflexivity|].
  assert (Forall (fun e =>
                     dl_email e <> ""
                     /\ Z.of_nat (dl_present_days e) < threshold_days
                     /\ (dl_present_days e <= dl_total_days e)%nat
                     /\ (1 <= dl_total_days e <= 23)%nat
                     /\ exists r, In r st
                                  /\ employee_email r = Some (dl_email e)
                                  /\ In (date r) (month_days y m))
            (flat_map (fun eml =>
                         match defaulter_entry names users st first last wd
                                 threshold_days eml with
                         | Some entry => [entry]
                         | None => []
                         end)
               (distinct_emails (map employee_email emails_qs)))) as Hall.
  { apply Forall_forall. intros e He'. apply in_flat_map in He'.
    destruct He' as (eml & Heml & Hin).
    destruct (defaulter_entry names users st first last wd threshold_days eml)
      as [entry|] eqn:Ee; [|destruct Hin].
    destruct Hin as [<-|[]]. unfold defaulter_entry in Ee.
    destruct eml as [s|]; [|discriminate].
    destruct (truthy (Some s)) eqn:Et; [|discriminate].
    destruct (Z.of_nat (present_days st s first last wd) <? threshold_days)
      eqn:Ep; [|discriminate].
    inversion Ee; subst entry; clear Ee.
    cbn [dl_email dl_present_days dl_total_days].
    assert (NoDup wd) as NDwd by (apply NoDup_filter, month_days_NoDup).
    pose proof (present_days_le st s first last wd NDwd) as Hle.
    pose proof (total_working_days_bounds wd) as (Ht1 & Ht2 & Ht3).
    pose proof (working_days_bound y m hs) as Hb. fold wd in Hb.
    split.
    { intros ->. discriminate Et. }
    split; [now apply Z.ltb_lt|]. split; [lia|]. split; [lia|].
    apply distinct_emails_In, in_map_iff in Heml.
    destruct Heml as (r & Er & Hr). exists r.
    assert (In r (filter (fun r => date_range first last (date r)) st)) as Hm.
    { unfold emails_qs in Hr. destruct (String.eqb email_q "");
        [exact Hr | now apply filter_In in Hr]. }
    apply filter_In in Hm. destruct Hm as [Hst Hrange].
    split; [exact Hst|]. split; [exact Er|]. now apply date_range_month. }
  split; [exact Hall|].
  intros Hth.
  destruct (flat_map _ _) as [|e rest]; [reflexivity|].
  inversion Hall as [|? ? (_ & Hlt & _) _]. lia.
Qed.

Lemma filter_length_split {X} (f g h : X -> bool) (l : list X) :
  (forall x, In x l -> f x = g x || h x) ->
  (forall x, In x l -> g x && h x = false) ->
  List.length (filter f l)
  = (List.length (filter g l) + List.length (filter h l))%nat.
Proof.
  induction l as [|x l IH]; intros Hor Hdis; simpl; [reflexivity|].
  assert (List.length (filter f l)
          = (List.length (filter g l) + List.length (filter h l))%nat) as E
      by (apply IH; intros z Hz; [apply Hor | apply Hdis]; now right).
  specialize (Hor x (or_introl eq_refl)). specialize (Hdis x (or_introl eq_refl)).
  rewrite Hor. destruct (g x), (h x); try discriminate; simpl; lia.
Qed.

Lemma email_iexact_nocase (stored_email : option string) (a b : string) :
  Sqlite.nocase a = Sqlite.nocase b ->
  email_iexact stored_email a = email_iexact stored_email b.
Proof. intros E. unfold email_iexact. destruct stored_email; now rewrite ?E. Qed.

(** The dates that the query of [present_days] selects, on a day of the
    month. *)
Lemma present_days_dates (st : Store) (eml : string) (y m : Z)
    (holiday_set : list Date) (d : Date) :
  In d (month_days y m) ->
  PyDate.mem d
    (map date
       (filter (fun r => email_iexact (employee_email r) eml
                         && date_range (mkDate y m 1)
                              (mkDate y m (Cal.days_in_month y m)) (date r)
                         && PyDate.mem (date r)
                              (filter (is_working_day holiday_set) (month_days y m))
                         && is_some (check_in_time r)) st))
  = PyDate.mem d (present_on st eml) && is_working_day holiday_set d.
Proof.
  intros Hd.
  destruct (PyDate.mem d (present_on st eml) && is_working_day holiday_set d)
    eqn:E.
  - apply andb_true_iff in E. destruct E as [Hp Hw].
    apply mem_spec in Hp. unfold present_on in Hp. apply in_map_iff in Hp.
    destruct Hp as (r & Er & Hr). apply filter_In in Hr.
    destruct Hr as [Hst Hr]. apply andb_true_iff in Hr.
    apply mem_spec, in_map_iff. exists r. split; [exact Er|].
    apply filter_In. split; [exact Hst|].
    rewrite !andb_true_iff, Er. repeat split; try tauto.
    + now apply month_days_in_range.
    + apply mem_spec, filter_In. tauto.
  - destruct (PyDate.mem d (map date _)) eqn:Em; [|reflexivity].
    apply mem_spec, in_map_iff in Em. destruct Em as (r & Er & Hr).
    apply filter_In in Hr. destruct Hr as [Hst Hr].
    rewrite !andb_true_iff, Er in Hr.
    destruct Hr as [[[He _] Hw] Hs]. apply mem_spec, filter_In in Hw.
    assert (PyDate.mem d (present_on st eml) = true) as Hp.
    { apply mem_spec. unfold present_on. apply in_map_iff. exists r.
      split; [exact Er|]. apply filter_In. split; [exact Hst|].
      now rewrite He, Hs. }
    destruct Hw as [_ Hw]. rewrite Hp, Hw in E. discriminate.
Qed.

Section DashboardAndDefaulters.

Variables (names : Names) (user : User) (today yesterday : Date) (y m : Z).
Variables (holiday_table : list Holiday) (st : Store) (eml : string).

Hypothesis Hy : 1 <= y <= 9999.
Hypothesis Hm : 1 <= m <= 12.
Hypothesis Hedge : ((y =? 1) && (m =? 1)) || ((y =? 9999) && (m =? 12)) = false.
Hypothesis Hyesterday : PyDate.add_days today (-1) = Some yesterday.
Hypothesis Hemail :
  Sqlite.nocase eml = PyStr.lower (PyStr.strip (user_email user)).

(** The dashboard and the defaulter list count presence differently: for an
    email that is the user's stripped and lower-cased email up to the case
    of the letters A to Z, the days present of the dashboard are the present
    days that the defaulter list counts for that email, plus the holidays
    of the month with a check-in. *)
Theorem dashboard_counts_holiday_presence :
  let first := mkDate y m 1 in
  let last := mkDate y m (Cal.days_in_month y m) in
  let holiday_set :=
    map h_date (filter (fun h => date_range first last (h_date h))
                       holiday_table) in
  exists ctx working_days,
    dashboard names user today y m holiday_table st = Done ctx
    /\ working_days_loop 32 first last holiday_set [] = Done working_days
    /\ total_days ctx = List.length working_days
    /\ days_present ctx
       = (present_days st eml first last working_days
          + List.length (filter (fun d => PyDate.mem d (present_on st eml)
                                          && PyDate.mem d holiday_set)
                                (month_days y m)))%nat.
Proof.
  intros first last holiday_set. subst first last.
  destruct (dashboard_done names user today yesterday y m holiday_table st
              Hy Hm Hedge Hyesterday)
    as (md & n & start & _ & _ & _ & _ & _ & Hd).
  apply orb_false_iff in Hedge. destruct Hedge as [_ E2].
  eexists. exists (filter (is_working_day holiday_set) (month_days y m)).
  split; [exact Hd|].
  split; [apply (working_days_loop_month y m holiday_set Hy Hm E2)|].
  cbn [total_days days_present]. split; [reflexivity|].
  unfold present_days.
  rewrite (distinct_dates_count (month_days y m)).
  - rewrite (filter_ext_in _ _ _ (present_days_dates st eml y m holiday_set)).
    fold holiday_set. apply filter_length_split.
    + intros d Hin. unfold counts_present, is_working_day.
      rewrite (present_dates_month y m st _ d Hin).
      assert (present_on st (PyStr.lower (PyStr.strip (user_email user)))
              = present_on st eml) as ->.
      { unfold present_on. f_equal. apply filter_ext. intros r.
        f_equal. apply email_iexact_nocase. rewrite nocase_lower.
        symmetry. exact Hemail. }
      destruct (PyDate.mem d (present_on st eml)), (PyDate.mem d holiday_set),
        (PyDate.weekday d <? 5); reflexivity.
    + intros d _. unfold is_working_day.
      destruct (PyDate.mem d (present_on st eml)), (PyDate.mem d holiday_set),
        (PyDate.weekday d <? 5); reflexivity.
  - apply month_days_NoDup.
  - intros d Hin. apply in_map_iff in Hin. destruct Hin as (r & <- & Hr).
    apply filter_In in Hr. destruct Hr as [_ Hr].
    rewrite !andb_true_iff in Hr. apply date_range_month. tauto.
Qed.

End DashboardAndDefaulters.

(** *** The order of the check-ins *)

Lemma date_compare_eq (a b : Date) : date_compare a b = Eq <-> a = b.
Proof.
  unfold date_compare. destruct a as [ya ma da], b as [yb mb db].
  cbn [year month day].
  destruct (Z.compare_spec ya yb); [|split; [discriminate | intros E; inversion E; lia]..].
  destruct (Z.compare_spec ma mb); [|split; [discriminate | intros E; inversion E; lia]..].
  destruct (Z.compare_spec da db); [|split; [discriminate | intros E; inversion E; lia]..].
  subst. tauto.
Qed.

Lemma checkin_leb_spec (a b : Date * Time) :
  checkin_leb a b = true
  <-> (year (fst a) < year (fst b)
       \/ (year (fst a) = year (fst b)
           /\ (month (fst a) < month (fst b)
               \/ (month (fst a) = month (fst b)
                   /\ (day (fst a) < day (fst b)
                       \/ (day (fst a) = day (fst b)
                           /\ time_leb (snd a) (snd b) = true)))))).
Proof.
  unfold checkin_leb, date_compare.
  destruct (Z.compare_spec (year (fst a)) (year (fst b)));
    [|split; [intros _; lia | reflexivity]
     |split; [discriminate | intros ?; lia]].
  destruct (Z.compare_spec (month (fst a)) (month (fst b)));
    [|split; [intros _; lia | reflexivity]
     |split; [discriminate | intros ?; lia]].
  destruct (Z.compare_spec (day (fst a)) (day (fst b)));
    [|split; [intros _; lia | reflexivity]
     |split; [discriminate | intros ?; lia]].
  split; [intros E; right; split; [assumption|]; right; split; [assumption|];
          right; split; assumption|].
  intros [?|[_ [?|[_ [?|[_ E]]]]]]; try lia. exact E.
Qed.

Lemma checkin_leb_total (a b : Date * Time) :
  checkin_leb a b = false -> checkin_leb b a = true.
Proof.
  intros Hab. apply checkin_leb_spec.
  assert (~ checkin_leb a b = true) as Hn by congruence.
  rewrite checkin_leb_spec in Hn.
  destruct (time_leb (snd a) (snd b)) eqn:Et.
  - lia.
  - apply time_leb_total in Et. rewrite Et. lia.
Qed.

Lemma checkin_leb_trans (a b c : Date * Time) :
  checkin_leb a b = true -> checkin_leb b c = true -> checkin_leb a c = true.
Proof.
  rewrite !checkin_leb_spec. intros Hab Hbc.
  destruct (time_leb (snd a) (snd b)) eqn:E1, (time_leb (snd b) (snd c)) eqn:E2;
    try (rewrite (time_leb_trans _ _ _ E1 E2)); lia.
Qed.

Section SortedLists.

Context {T : Type} (leb : T -> T -> bool).
Hypothesis leb_total : forall a b, leb a b = false -> leb b a = true.
Hypothesis leb_trans : forall a b c, leb a b = true -> leb b c = true -> leb a c = true.

Lemma insert_sorted_sorted (x : T) (l : list T) :
  ForallOrdPairs (fun a b => leb a b = true) l ->
  ForallOrdPairs (fun a b => leb a b = true) (insert_sorted leb x l).
Proof.
  induction 1 as [|y l Hy Hs IH]; simpl.
  - constructor; constructor.
  - destruct (leb x y) eqn:E.
    + constructor; [|now constructor]. constructor; [exact E|].
      rewrite Forall_forall in *. intros z Hz. apply (leb_trans x y z E).
      now apply Hy.
    + constructor; [|exact IH].
      rewrite Forall_forall in *. intros z Hz.
      apply (Permutation_in _ (insert_sorted_perm leb x l)) in Hz.
      destruct Hz as [<-|Hz]; [now apply leb_total | now apply Hy].
Qed.

Lemma sort_by_sorted (l : list T) :
  ForallOrdPairs (fun a b => leb a b = true) (sort_by leb l).
Proof.
  induction l as [|x l IH]; [constructor|].
  unfold sort_by in *. simpl. now apply insert_sorted_sorted.
Qed.

(** The first element of a sorted list that passes a test is below every
    element that passes it. *)
Lemma find_sorted (p : T -> bool) (l : list T) (x : T) :
  ForallOrdPairs (fun a b => leb a b = true) l ->
  find p l = Some x ->
  In x l /\ p x = true
  /\ forall z, In z l -> p z = true -> leb x z = true.
Proof.
  induction 1 as [|y l Hy Hs IH]; simpl; [discriminate|].
  destruct (p y) eqn:Ep.
  - intros E. inversion E; subst y. split; [now left|]. split; [exact Ep|].
    intros z [<-|Hz] _.
    + destruct (leb x x) eqn:Exx; [reflexivity|].
      pose proof (leb_total x x Exx). congruence.
    + rewrite Forall_forall in Hy. now apply Hy.
  - intros E. destruct (IH E) as (Hin & Hp & Hmin).
    split; [now right|]. split; [exact Hp|].
    intros z [<-|Hz] Hpz; [congruence | now apply Hmin].
Qed.

End SortedLists.

Lemma find_over_app {X} (p : X -> bool) (l1 l2 : list X) :
  find p (l1 ++ l2)
  = match find p l1 with Some x => Some x | None => find p l2 end.
Proof.
  induction l1 as [|x l1 IH]; simpl; [reflexivity|]. now destruct (p x).
Qed.

(** The dict that the loop over [present_qs] fills holds, for each date,
    the first row of that date. *)
Lemma checkin_by_date_find (rows : list (Date * Time)) (d : Date) :
  dict_get d (checkin_by_date rows)
  = option_map snd (find (fun e => date_eqb (fst e) d) rows).
Proof.
  unfold dict_get, checkin_by_date. f_equal.
  assert (forall acc,
            find (fun e => date_eqb (fst e) d)
                 (fold_left (fun acc row =>
                               if existsb (fun e => date_eqb (fst e) (fst row)) acc
                               then acc else acc ++ [row]) rows acc)
            = match find (fun e => date_eqb (fst e) d) acc with
              | Some x => Some x
              | None => find (fun e => date_eqb (fst e) d) rows
              end) as G.
  { induction rows as [|row rows IH]; intros acc; simpl.
    - now destruct (find _ acc).
    - rewrite IH.
      destruct (existsb (fun e => date_eqb (fst e) (fst row)) acc) eqn:Ex.
      + destruct (find (fun e => date_eqb (fst e) d) acc) eqn:Ef; [reflexivity|].
        destruct (date_eqb (fst row) d) eqn:Er; [|reflexivity].
        exfalso. apply existsb_exists in Ex. destruct Ex as (e & He & Ee).
        apply date_eqb_eq in Ee, Er.
        apply (find_none _ _ Ef) in He.
        assert (date_eqb (fst e) d = true) by (apply date_eqb_eq; congruence).
        congruence.
      + rewrite find_over_app.
        destruct (find (fun e => date_eqb (fst e) d) acc); [reflexivity|].
        simpl. now destruct (date_eqb (fst row) d). }
  apply (G []).
Qed.

Lemma holiday_map_get (holidays_qs : list Holiday) (d : Date) :
  match dict_get d (holiday_map holidays_qs) with
  | Some h => In h holidays_qs /\ h_date h = d
  | None => PyDate.mem d (map h_date holidays_qs) = false
  end.
Proof.
  unfold dict_get, holiday_map.
  destruct (find (fun e => date_eqb (fst e) d)
              (map (fun h => (h_date h, h)) (rev holidays_qs))) as [[d' h]|] eqn:E;
    cbn [option_map snd].
  - apply find_some in E. destruct E as [Hin Hd]. cbn [fst] in Hd.
    apply in_map_iff in Hin. destruct Hin as (h0 & E0 & Hin).
    inversion E0; subst. apply in_rev in Hin. apply date_eqb_eq in Hd. tauto.
  - destruct (PyDate.mem d (map h_date holidays_qs)) eqn:Em; [|reflexivity].
    apply mem_spec, in_map_iff in Em. destruct Em as (h & Eh & Hin).
    assert (In (h_date h, h) (map (fun h => (h_date h, h)) (rev holidays_qs)))
      as Hin' by (apply in_map_iff; exists h; split;
                  [reflexivity | now apply in_rev in Hin]).
    apply (find_none _ _ E) in Hin'. cbn [fst] in Hin'.
    assert (date_eqb (h_date h) d = true) by now apply date_eqb_eq.
    congruence.
Qed.

Lemma day_cell_tips (month_arg : Z) (holiday_set present_dates : list Date)
    (checkins : list (Date * Time)) (holidays : list (Date * Holiday))
    (yesterday : Date) (c : nat * nat) (d : Date) :
  (month d =? month_arg) = true ->
  tips (fst (day_cell month_arg holiday_set present_dates checkins holidays
               yesterday c d))
  = match dict_get d checkins with
    | Some t => [("Check-in: " ++ strftime_HM t)%string]
    | None => []
    end
    ++ (if PyDate.mem d holiday_set
        then match dict_get d holidays with
             | Some h => [("Holiday: " ++ h_name h)%string]
             | None => []
             end
        else []).
Proof.
  intros Em. unfold day_cell. rewrite Em. destruct c as [p t].
  destruct (PyDate.mem d holiday_set), (PyDate.mem d present_dates),
    (5 <=? PyDate.weekday d); reflexivity.
Qed.

Lemma checkins_on_In (st : Store) (email : string) (d : Date) (t : Time) :
  In t (checkins_on st email d)
  <-> exists r, In r st /\ email_iexact (employee_email r) email = true
                /\ date r = d /\ check_in_time r = Some t.
Proof.
  unfold checkins_on. rewrite in_flat_map. split.
  - intros (r & Hr & Ht). apply filter_In in Hr. destruct Hr as [Hst Hr].
    apply andb_true_iff in Hr. destruct Hr as [He Hd].
    apply date_eqb_eq in Hd. exists r.
    destruct (check_in_time r) as [t'|]; [|destruct Ht].
    destruct Ht as [<-|[]]. tauto.
  - intros (r & Hst & He & Hd & Ht). exists r. split.
    + apply filter_In. split; [exact Hst|]. rewrite He.
      now apply date_eqb_eq.
    + rewrite Ht. now left.
Qed.

Lemma present_qs_In (st : Store) (email : string) (y m : Z) (d : Date) (t : Time) :
  In d (month_days y m) ->
  In (d, t) (present_qs st email (mkDate y m 1)
               (mkDate y m (Cal.days_in_month y m)))
  <-> In t (checkins_on st email d).
Proof.
  intros Hd. unfold present_qs. rewrite sort_by_In, in_flat_map, checkins_on_In.
  split.
  - intros (r & Hr & Ht). unfold present_rows in Hr. apply filter_In in Hr.
    destruct Hr as [Hst Hr]. rewrite !andb_true_iff in Hr. exists r.
    destruct (check_in_time r) as [t'|]; [|destruct Ht].
    destruct Ht as [E|[]]. inversion E. tauto.
  - intros (r & Hst & He & Er & Ht). exists r. split.
    + unfold present_rows. apply filter_In. split; [exact Hst|].
      rewrite He, Er, Ht, (month_days_in_range y m d Hd). reflexivity.
    + rewrite Ht, Er. now left.
Qed.

(** The check-in the tooltip shows for a day of the month: none when no
    check-in is stored, else the earliest. *)
Lemma checkin_tip (st : Store) (email : string) (y m : Z) (d : Date) :
  In d (month_days y m) ->
  match dict_get d (checkin_by_date
                      (present_qs st email (mkDate y m 1)
                         (mkDate y m (Cal.days_in_month y m)))) with
  | Some t => In t (checkins_on st email d)
              /\ forall t', In t' (checkins_on st email d) -> time_leb t t' = true
  | None => checkins_on st email d = []
  end.
Proof.
  intros Hd. rewrite checkin_by_date_find.
  set (qs := present_qs st email (mkDate y m 1)
               (mkDate y m (Cal.days_in_month y m))).
  destruct (find (fun e => date_eqb (fst e) d) qs) as [[d' t]|] eqn:E;
    cbn [option_map snd].
  - destruct (find_sorted checkin_leb checkin_leb_total
                (fun e => date_eqb (fst e) d) qs (d', t)
                (sort_by_sorted checkin_leb checkin_leb_total checkin_leb_trans _) E)
      as (Hin & Hp & Hmin).
    cbn [fst] in Hp. apply date_eqb_eq in Hp. subst d'.
    split; [now apply (present_qs_In st email y m d t Hd)|].
    intros t' Ht'. apply (present_qs_In st email y m d t' Hd) in Ht'.
    specialize (Hmin (d, t') Ht').
    cbn [fst] in Hmin.
    assert (date_eqb d d = true) as Hdd by now apply date_eqb_eq.
    specialize (Hmin Hdd). apply checkin_leb_spec in Hmin. cbn [fst snd] in Hmin.
    destruct Hmin as [?|[_ [?|[_ [?|[_ Ht]]]]]]; try lia. exact Ht.
  - destruct (checkins_on st email d) as [|t' rest] eqn:Ec; [reflexivity|].
    assert (In t' (checkins_on st email d)) as Hin by (rewrite Ec; now left).
    apply (present_qs_In st email y m d t' Hd) in Hin.
    apply (find_none _ _ E) in Hin. cbn [fst] in Hin.
    assert (date_eqb d d = true) by now apply date_eqb_eq. congruence.
Qed.

Section DashboardTooltips.

Variables (names : Names) (user : User) (today yesterday : Date) (y m : Z).
Variables (holiday_table : list Holiday) (st : Store).

Hypothesis Hy : 1 <= y <= 9999.
Hypothesis Hm : 1 <= m <= 12.
Hypothesis Hedge : ((y =? 1) && (m =? 1)) || ((y =? 9999) && (m =? 12)) = false.
Hypothesis Hyesterday : PyDate.add_days today (-1) = Some yesterday.

(** The tooltip of a cell of the month names the earliest check-in stored
    for the user's email on that day, if there is one, and then the holiday
    of that day, if there is one. *)
Theorem dashboard_tooltips :
  let email := PyStr.lower (PyStr.strip (user_email user)) in
  exists ctx,
    dashboard names user today y m holiday_table st = Done ctx
    /\ Forall
         (fun c =>
            in_month c = true ->
            exists checkin holiday,
              tips c = checkin ++ holiday
              /\ (checkins_on st email (cell_date c) = [] -> checkin = [])
              /\ (checkins_on st email (cell_date c) <> [] ->
                  exists t,
                    In t (checkins_on st email (cell_date c))
                    /\ (forall t', In t' (checkins_on st email (cell_date c)) ->
                                   time_leb t t' = true)
                    /\ checkin = [("Check-in: " ++ strftime_HM t)%string])
              /\ (PyDate.mem (cell_date c) (map h_date holiday_table) = false ->
                  holiday = [])
              /\ (PyDate.mem (cell_date c) (map h_date holiday_table) = true ->
                  exists h, In h holiday_table /\ h_date h = cell_date c
                            /\ holiday = [("Holiday: " ++ h_name h)%string]))
         (concat (weeks ctx)).
Proof.
  intros email.
  destruct (dashboard_done names user today yesterday y m holiday_table st
              Hy Hm Hedge Hyesterday)
    as (md & n & start & _ & _ & _ & _ & Hfilter & Hd).
  eexists. split; [exact Hd|]. cbn [weeks].
  rewrite <- concat_map, weeks_of_concat.
  apply Forall_forall. intros c Hc. apply in_map_iff in Hc.
  destruct Hc as (d & <- & Hin).
  match goal with
  | |- context [fst (day_cell ?a ?b ?c ?e ?f ?g ?h d)] =>
      destruct (day_cell_content a b c e f g h d) as (Ed & Ein & _);
      pose proof (day_cell_tips a b c e f g h d) as Htips
  end.
  rewrite Ed, Ein. intros Em. rewrite (Htips Em). clear Htips.
  assert (In d (month_days y m)) as Hmonth.
  { assert (In d (filter (fun _ => true) (month_days y m))) as Hf.
    { rewrite <- (Hfilter (fun _ => true)). apply filter_In.
      now rewrite Em. }
    now apply filter_In in Hf. }
  rewrite (holiday_set_month y m holiday_table d Hmonth).
  eexists. eexists. split; [reflexivity|].
  pose proof (checkin_tip st email y m d Hmonth) as Hc. fold email.
  destruct (dict_get d (checkin_by_date _)) as [t|].
  - destruct Hc as [Hin' Hmin]. split; [|split].
    + intros E. rewrite E in Hin'. destruct Hin'.
    + intros _. exists t. tauto.
    + match goal with
      | |- context [dict_get d (holiday_map ?qs)] =>
          pose proof (holiday_map_get qs d) as Hh;
          pose proof (holiday_set_month y m holiday_table d Hmonth) as Hs
      end.
      destruct (PyDate.mem d (map h_date holiday_table)) eqn:Emem.
      * split; [discriminate|]. intros _.
        destruct (dict_get d (holiday_map _)) as [h|]; [|congruence].
        destruct Hh as [Hh1 Hh2]. apply filter_In in Hh1. exists h. tauto.
      * split; [reflexivity | discriminate].
  - split; [reflexivity|]. split; [intros Hne; now destruct Hne|].
    match goal with
    | |- context [dict_get d (holiday_map ?qs)] =>
        pose proof (holiday_map_get qs d) as Hh;
        pose proof (holiday_set_month y m holiday_table d Hmonth) as Hs
    end.
    destruct (PyDate.mem d (map h_date holiday_table)) eqn:Emem.
    + split; [discriminate|]. intros _.
      destruct (dict_get d (holiday_map _)) as [h|]; [|congruence].
      destruct Hh as [Hh1 Hh2]. apply filter_In in Hh1. exists h. tauto.
    + split; [reflexivity | discriminate].
Qed.

End DashboardTooltips.

(** *** The defaulter count and the tooltips at May 2024 *)

Lemma dashboard_counts_holiday_presence_witness :
  exists ctx working_days,
    dashboard (mkNames "" "" "") (mkUser 7 "a@x.com") (mkDate 2024 5 15) 2024 5
      [mkHoliday (mkDate 2024 5 1) "May Day" "PUBLIC"] early_store = Done ctx
    /\ working_days_loop 32 (mkDate 2024 5 1) (mkDate 2024 5 31)
         [mkDate 2024 5 1] [] = Done working_days
    /\ total_days ctx = List.length working_days
    /\ days_present ctx
       = (present_days early_store "A@X.com" (mkDate 2024 5 1) (mkDate 2024 5 31)
            working_days
          + List.length (filter (fun d => PyDate.mem d (present_on early_store "A@X.com")
                                          && PyDate.mem d [mkDate 2024 5 1])
                                (month_days 2024 5)))%nat.
Proof.
  apply (dashboard_counts_holiday_presence (mkNames "" "" "") (mkUser 7 "a@x.com")
           (mkDate 2024 5 15) (mkDate 2024 5 14) 2024 5
           [mkHoliday (mkDate 2024 5 1) "May Day" "PUBLIC"] early_store "A@X.com");
    [lia | lia | reflexivity | vm_compute; reflexivity | vm_compute; reflexivity].
Defined.

Lemma dashboard_tooltips_witness :
  exists ctx,
    dashboard (mkNames "" "" "") (mkUser 7 "a@x.com") (mkDate 2024 5 15) 2024 5
      [mkHoliday (mkDate 2024 5 1) "May Day" "PUBLIC"] early_store = Done ctx
    /\ Forall
         (fun c =>
            in_month c = true ->
            exists checkin holiday,
              tips c = checkin ++ holiday
              /\ (checkins_on early_store "a@x.com" (cell_date c) = [] -> checkin = [])
              /\ (checkins_on early_store "a@x.com" (cell_date c) <> [] ->
                  exists t,
                    In t (checkins_on early_store "a@x.com" (cell_date c))
                    /\ (forall t', In t' (checkins_on early_store "a@x.com" (cell_date c)) ->
                                   time_leb t t' = true)
                    /\ checkin = [("Check-in: " ++ strftime_HM t)%string])
              /\ (PyDate.mem (cell_date c) [mkDate 2024 5 1] = false -> holiday = [])
              /\ (PyDate.mem (cell_date c) [mkDate 2024 5 1] = true ->
                  exists h, In h [mkHoliday (mkDate 2024 5 1) "May Day" "PUBLIC"]
                            /\ h_date h = cell_date c
                            /\ holiday = [("Holiday: " ++ h_name h)%string]))
         (concat (weeks ctx)).
Proof.
  apply (dashboard_tooltips (mkNames "" "" "") (mkUser 7 "a@x.com")
           (mkDate 2024 5 15) (mkDate 2024 5 14) 2024 5
           [mkHoliday (mkDate 2024 5 1) "May Day" "PUBLIC"] early_store);
    [lia | lia | reflexivity | vm_compute; reflexivity].
Defined.
